(** * Season-aware farming advisor: the advice synthesis engine

    A shallow embedding of the JavaScript sources
    [config/config.js], [utils/weatherUtils.js], [utils/cropUtils.js],
    [services/weatherService.js], [services/geminiService.js] and
    [services/adviceService.js], followed by the properties of the engine
    that were checked against it.

    Conventions of the embedding.
    - A JavaScript number is written as the rational ([Q]) it prints as;
      the two accumulators that start at [-Infinity] and [Infinity] range
      over [xnum].  Comparisons are those of the rationals.  The sum of
      the rain amounts is computed as the engine computes it, in IEEE 754
      doubles ([Double]): each amount is read as the nearest double and
      each addition is rounded.  [NaN] is not modelled.
    - A value that may be [undefined] or [null] is an [option].
    - A [throw] is the [Throw] constructor of [result]; a [try]/[catch]
      is a [match] on it.
    - A mutable array that is only ever extended by [push] is threaded
      through the code as a list, [push] appending at the end.
    - The outside world (environment variables, the clock, the two HTTP
      services) is a record [World] every service reads from. *)

From Stdlib Require Import List String Ascii ZArith QArith Qround Qabs Qpower.
From Stdlib Require Import Bool Lia Lqa.
From Stdlib Require Import DecimalString.
Import ListNotations.

Local Open Scope string_scope.
Local Open Scope Q_scope.

(* ================================================================== *)
(** ** The JavaScript runtime, as far as the program uses it *)

Module JS.

(** Exceptions: the three constructors the program can meet, with the
    [message] property. *)
Inductive exn : Type :=
| Error (message : string)
| TypeError (message : string)
| SyntaxError (message : string).

Definition message (e : exn) : string :=
  match e with
  | Error m | TypeError m | SyntaxError m => m
  end.

Inductive result (A : Type) : Type :=
| Ok (a : A)
| Throw (e : exn).
Arguments Ok {A} a.
Arguments Throw {A} e.

Definition bind {A B} (r : result A) (k : A -> result B) : result B :=
  match r with
  | Ok a => k a
  | Throw e => Throw e
  end.

(** [try { body } catch (e) { handler e }] *)
Definition try_catch {A} (body : result A) (handler : exn -> result A)
  : result A :=
  match body with
  | Ok a => Ok a
  | Throw e => handler e
  end.

Definition succeeds {A} (r : result A) : bool :=
  match r with Ok _ => true | Throw _ => false end.

(** Numbers with the two infinities. *)
Inductive xnum : Type :=
| NegInfinity
| Finite (q : Q)
| PosInfinity.

(** [a > b] *)
Definition Qgtb (a b : Q) : bool := negb (Qle_bool a b).
(** [a < b] *)
Definition Qltb (a b : Q) : bool := negb (Qle_bool b a).
(** [a >= b] *)
Definition Qgeb (a b : Q) : bool := Qle_bool b a.
(** [a <= b] *)
Definition Qleb (a b : Q) : bool := Qle_bool a b.
(** [a === b] on numbers *)
Definition Qeqb (a b : Q) : bool := Qeq_bool a b.

(** [q > x] for a finite [q] and a possibly infinite [x]. *)
Definition gt_x (q : Q) (x : xnum) : bool :=
  match x with
  | NegInfinity => true
  | Finite b => Qgtb q b
  | PosInfinity => false
  end.

(** [q < x] *)
Definition lt_x (q : Q) (x : xnum) : bool :=
  match x with
  | NegInfinity => false
  | Finite b => Qltb q b
  | PosInfinity => true
  end.

(** [x > q] *)
Definition x_gt (x : xnum) (q : Q) : bool :=
  match x with
  | NegInfinity => false
  | Finite a => Qgtb a q
  | PosInfinity => true
  end.

(** [x < q] *)
Definition x_lt (x : xnum) (q : Q) : bool :=
  match x with
  | NegInfinity => true
  | Finite a => Qltb a q
  | PosInfinity => false
  end.

(** Truthiness of a number: every number but zero. *)
Definition truthy_num (q : Q) : bool := negb (Qeqb q 0).

(** Truthiness of a string: every string but the empty one. *)
Definition truthy_str (s : string) : bool :=
  match s with EmptyString => false | String _ _ => true end.

(** Truthiness of an optional number / string ([undefined] is falsy). *)
Definition truthy_onum (o : option Q) : bool :=
  match o with Some q => truthy_num q | None => false end.

Definition truthy_ostr (o : option string) : bool :=
  match o with Some s => truthy_str s | None => false end.

(** [Math.round]: the nearest integer, halves towards [+Infinity]. *)
Definition Math_round (q : Q) : Q := inject_Z (Qfloor (q + (1 # 2))).

(** [Math.round(x * 10) / 10] *)
Definition round1 (q : Q) : Q := Math_round (q * 10) / 10.

(** [Math.round((x - 273.15) * 10) / 10], which keeps an infinity. *)
Definition kelvinToCelsius1 (x : xnum) : xnum :=
  match x with
  | NegInfinity => NegInfinity
  | Finite q => Finite (round1 (q - (27315 # 100)))
  | PosInfinity => PosInfinity
  end.

(** *** Number to string

    [String(q)] for a number with a finite decimal expansion: the
    integer part, then the fractional digits without trailing zeros.
    At most twenty fractional digits are produced. *)
Definition Z_to_string (z : Z) : string :=
  NilZero.string_of_uint (N.to_uint (Z.to_N z)).

Definition digit_char (d : Z) : ascii :=
  ascii_of_nat (48 + Z.to_nat d).

Fixpoint frac_digits (fuel : nat) (r d : Z) : string :=
  match fuel with
  | O => EmptyString
  | S fuel' =>
      if (r =? 0)%Z then EmptyString
      else String (digit_char ((r * 10) / d)%Z)
                  (frac_digits fuel' ((r * 10) mod d)%Z d)
  end.

Definition numToString (q : Q) : string :=
  let n := Qnum q in
  let d := Zpos (Qden q) in
  let a := Z.abs n in
  let ip := (a / d)%Z in
  let r := (a mod d)%Z in
  let body :=
    if (r =? 0)%Z then Z_to_string ip
    else Z_to_string ip ++ "." ++ frac_digits 20 r d in
  if (n <? 0)%Z then "-" ++ body else body.

Definition xnumToString (x : xnum) : string :=
  match x with
  | NegInfinity => "-Infinity"
  | Finite q => numToString q
  | PosInfinity => "Infinity"
  end.

(** *** Strings *)

(** [s.indexOf(c)] for a one-character needle; [None] stands for -1. *)
Fixpoint indexOf (c : ascii) (s : string) : option nat :=
  match s with
  | EmptyString => None
  | String a s' =>
      if Ascii.eqb a c then Some O
      else match indexOf c s' with
           | Some i => Some (S i)
           | None => None
           end
  end.

(** [s.lastIndexOf(c)] *)
Fixpoint lastIndexOf (c : ascii) (s : string) : option nat :=
  match s with
  | EmptyString => None
  | String a s' =>
      match lastIndexOf c s' with
      | Some i => Some (S i)
      | None => if Ascii.eqb a c then Some O else None
      end
  end.

(** [s.substring(a, b)]: the arguments are swapped when [a > b], and
    clamped to the length by [String.substring]. *)
Definition substring (a b : nat) (s : string) : string :=
  let lo := Nat.min a b in
  let hi := Nat.max a b in
  String.substring lo (hi - lo) s.

(** [s.toLowerCase()], on the ASCII letters. *)
Definition lower_char (c : ascii) : ascii :=
  let n := nat_of_ascii c in
  if (Nat.leb 65 n && Nat.leb n 90)%bool then ascii_of_nat (n + 32) else c.

Fixpoint toLowerCase (s : string) : string :=
  match s with
  | EmptyString => EmptyString
  | String c s' => String (lower_char c) (toLowerCase s')
  end.

(** [s.trim()], on the ASCII white space. *)
Definition is_space (c : ascii) : bool :=
  let n := nat_of_ascii c in
  (Nat.eqb n 32 || (Nat.leb 9 n && Nat.leb n 13))%bool.

Fixpoint trimStart (s : string) : string :=
  match s with
  | EmptyString => EmptyString
  | String c s' => if is_space c then trimStart s' else s
  end.

Fixpoint trimEnd (s : string) : string :=
  match s with
  | EmptyString => EmptyString
  | String c s' =>
      match trimEnd s' with
      | EmptyString => if is_space c then EmptyString
                       else String c EmptyString
      | t => String c t
      end
  end.

Definition trim (s : string) : string := trimEnd (trimStart s).

(** [s.startsWith(p)] *)
Fixpoint startsWith (p s : string) : bool :=
  match p with
  | EmptyString => true
  | String a p' =>
      match s with
      | String b s' => (Ascii.eqb a b && startsWith p' s')%bool
      | EmptyString => false
      end
  end.

(** [xs.includes(s)] on an array of strings. *)
Definition includes (xs : list string) (s : string) : bool :=
  existsb (String.eqb s) xs.

(** [xs.join(', ')] *)
Fixpoint join (sep : string) (xs : list string) : string :=
  match xs with
  | [] => EmptyString
  | [x] => x
  | x :: rest => x ++ sep ++ join sep rest
  end.

(** [xs.push(x)] *)
Definition push {A} (xs : list A) (x : A) : list A := xs ++ [x].

(** *** Property lookup on an object literal

    [obj[key]] finds an own property, or else a property inherited from
    [Object.prototype], or else [undefined].  The inherited values are
    functions or objects: truthy, and with none of the properties the
    program then reads. *)
Inductive prop (A : Type) : Type :=
| Own (a : A)
| Inherited
| Undefined.
Arguments Own {A} a.
Arguments Inherited {A}.
Arguments Undefined {A}.

Definition objectPrototypeKeys : list string :=
  [ "constructor"; "__proto__"; "hasOwnProperty"; "isPrototypeOf";
    "propertyIsEnumerable"; "toLocaleString"; "toString"; "valueOf";
    "__defineGetter__"; "__defineSetter__"; "__lookupGetter__";
    "__lookupSetter__" ].

Fixpoint assoc {A} (key : string) (obj : list (string * A)) : option A :=
  match obj with
  | [] => None
  | (k, v) :: rest => if String.eqb k key then Some v else assoc key rest
  end.

Definition get {A} (obj : list (string * A)) (key : string) : prop A :=
  match assoc key obj with
  | Some v => Own v
  | None => if includes objectPrototypeKeys key then Inherited
            else Undefined
  end.

Definition truthy_prop {A} (p : prop A) : bool :=
  match p with Undefined => false | _ => true end.

End JS.

Import JS.

(* ================================================================== *)
(** ** Double-precision arithmetic

    The doubles are the rationals [m * 2^e] with [|m| < 2^53] and
    [e >= -1074].  An operation of the engine is the exact operation on
    the nearest doubles of its operands, followed by rounding to the
    nearest double, the even one of two that are as near.  The largest
    double is just below [2^1024]; beyond it the engine has [Infinity],
    which the figures of a summary, rationals, cannot hold: [nearest] is
    the engine's rounding below that bound, and what is stated of a sum
    in doubles takes its terms within [2^1000] ([Observe.inRange]). *)

Module Double.

(** [floor (log2 |q|)], for [q] other than 0. *)
Definition exponent (q : Q) : Z :=
  let e := (Z.log2 (Z.abs (Qnum q)) - Z.log2 (Zpos (Qden q)))%Z in
  if Qle_bool (2 ^ e) (Qabs q) then e else (e - 1)%Z.

(** The distance between the doubles around [q]: 53 bits of precision
    from [2^-1022] on, and [2^-1074] below. *)
Definition ulp (q : Q) : Q := 2 ^ (Z.max (exponent q) (-1022) - 52).

(** The nearest integer, the even one of two that are as near. *)
Definition nearestEven (q : Q) : Z :=
  let f := Qfloor q in
  match Qcompare (q - inject_Z f) (1 # 2) with
  | Lt => f
  | Gt => (f + 1)%Z
  | Eq => if Z.even f then f else (f + 1)%Z
  end.

(** The double a number is read as, and an exact result is rounded to. *)
Definition nearest (q : Q) : Q :=
  if Qeq_bool q 0 then 0
  else inject_Z (nearestEven (q / ulp q)) * ulp q.

(** [a + b] *)
Definition add (a b : Q) : Q := nearest (nearest a + nearest b).

(** [a * b] *)
Definition mul (a b : Q) : Q := nearest (nearest a * nearest b).

(** [Math.round(x * 10) / 10].  The quotient is the double nearest to a
    number of tenths; it is written as that number of tenths, which is
    what it prints as. *)
Definition round1 (x : Q) : Q := Math_round (mul x 10) / 10.

End Double.

Notation "x <- r ;; k" := (JS.bind r (fun x => k))
  (at level 61, r at next level, right associativity).

(* ================================================================== *)
(** ** config/config.js *)

Module Config.

(** [parseFloat(process.env.DEFAULT_LAT) || -1.9441], with the
    environment variable unset: Kigali, Rwanda. *)
Definition defaultLat : Q := - (19441 # 10000).
Definition defaultLon : Q := 300619 # 10000.

Record Season : Type := {
  season_start : string;
  season_end : string;
  season_description : string
}.

Definition seasons : list (string * Season) :=
  [ ("shortDry", {| season_start := "January"; season_end := "February";
                    season_description := "Short dry season" |});
    ("longRains", {| season_start := "March"; season_end := "May";
                     season_description := "Long rainy season" |});
    ("longDry", {| season_start := "June"; season_end := "September";
                   season_description := "Long dry season" |});
    ("shortRains", {| season_start := "October"; season_end := "December";
                      season_description := "Short rainy season" |}) ].

Record SoilPh : Type := { min : Q; max : Q; optimal : Q }.

Record Variety : Type := {
  variety_description : string;
  droughtResistance : string
}.

Record Crop : Type := {
  name : string;
  waterNeeds : string;
  season : string;
  growthPeriod : string;
  soilPh : option SoilPh;
  cropGrowthStates : option (list string);
  varieties : option (list (string * Variety))
}.

Definition stages : list string :=
  ["germination"; "vegetative"; "flowering"; "fruiting"].

Definition variety (d r : string) : Variety :=
  {| variety_description := d; droughtResistance := r |}.

Definition crops : list (string * Crop) :=
  [ ("maize",
     {| name := "Maize"; waterNeeds := "high"; season := "longRains";
        growthPeriod := "90-120 days";
        soilPh := Some {| min := 55 # 10; max := 75 # 10;
                          optimal := 65 # 10 |};
        cropGrowthStates := Some stages;
        varieties := Some
          [ ("hybrid_maize",
             variety "High-yield hybrid varieties" "moderate");
            ("local_maize",
             variety "Traditional local varieties" "high");
            ("sweet_corn", variety "Sweet corn varieties" "low") ] |});
    ("beans",
     {| name := "Beans"; waterNeeds := "moderate"; season := "shortRains";
        growthPeriod := "60-90 days";
        soilPh := Some {| min := 6; max := 75 # 10; optimal := 68 # 10 |};
        cropGrowthStates := Some stages;
        varieties := Some
          [ ("climbing_beans",
             variety "Climbing bean varieties" "moderate");
            ("bush_beans", variety "Bush bean varieties" "high");
            ("kidney_beans",
             variety "Kidney bean varieties" "moderate") ] |});
    ("potatoes",
     {| name := "Potatoes"; waterNeeds := "moderate";
        season := "longRains"; growthPeriod := "90-120 days";
        soilPh := Some {| min := 5; max := 65 # 10; optimal := 58 # 10 |};
        cropGrowthStates := Some stages;
        varieties := Some
          [ ("irish_potato",
             variety "Traditional Irish potato" "moderate");
            ("sweet_potato", variety "Sweet potato varieties" "high");
            ("new_potato",
             variety "Early maturing varieties" "moderate") ] |});
    ("bananas",
     {| name := "Bananas"; waterNeeds := "high"; season := "all";
        growthPeriod := "9-12 months";
        soilPh := Some {| min := 55 # 10; max := 7; optimal := 62 # 10 |};
        cropGrowthStates := Some stages;
        varieties := Some
          [ ("cavendish", variety "Cavendish banana variety" "moderate");
            ("plantain", variety "Plantain varieties" "high");
            ("lady_finger", variety "Lady finger banana" "low") ] |}) ].

Record GrowthState : Type := {
  stage_description : string;
  stage_duration : string
}.

Definition growthStates : list (string * GrowthState) :=
  [ ("germination",
     {| stage_description := "Seed germination and early seedling stage";
        stage_duration := "7-14 days" |});
    ("vegetative",
     {| stage_description := "Active growth of leaves and stems";
        stage_duration := "30-60 days" |});
    ("flowering",
     {| stage_description := "Flower development and pollination";
        stage_duration := "7-21 days" |});
    ("fruiting",
     {| stage_description := "Fruit development and maturation";
        stage_duration := "30-90 days" |}) ].

Record SoilPhCategory : Type := {
  range : string;
  category_description : string
}.

Module soilPhCategories.
Definition very_acidic : SoilPhCategory :=
  {| range := "4.0-5.0";
     category_description :=
       "Very acidic soil, may need lime application" |}.
Definition acidic : SoilPhCategory :=
  {| range := "5.1-6.0";
     category_description :=
       "Acidic soil, suitable for acid-loving crops" |}.
Definition slightly_acidic : SoilPhCategory :=
  {| range := "6.1-6.5";
     category_description := "Slightly acidic, good for most crops" |}.
Definition neutral : SoilPhCategory :=
  {| range := "6.6-7.3";
     category_description := "Neutral pH, optimal for most crops" |}.
Definition slightly_alkaline : SoilPhCategory :=
  {| range := "7.4-7.8";
     category_description :=
       "Slightly alkaline, may need acidification" |}.
Definition alkaline : SoilPhCategory :=
  {| range := "7.9-8.5";
     category_description :=
       "Alkaline soil, may limit nutrient availability" |}.
End soilPhCategories.

Module weatherThresholds.
Module temperature.
Definition min : Q := 10.
Definition max : Q := 35.
End temperature.
Module windSpeed.
Definition warning : Q := 20.
Definition danger : Q := 40.
End windSpeed.
Module rainfall.
Definition light : Q := 25 # 10.
Definition moderate : Q := 75 # 10.
Definition heavy : Q := 15.
End rainfall.
End weatherThresholds.

End Config.

(* ================================================================== *)
(** ** The outside world *)

Module Env.

(** One entry of the forecast provider's [list]:
    [{ main: { temp }, rain: { '3h' }, wind: { speed }, weather }].
    [rain3h] is [None] when [rain] or [rain['3h']] is missing, and
    [wind_speed] when [wind] or [wind.speed] is. *)
Record ForecastPoint : Type := {
  main_temp : Q;
  rain3h : option Q;
  wind_speed : option Q;
  weather : list string
}.

(** [city: { coord: { lat, lon }, name }] *)
Record City : Type := {
  coord_lat : Q;
  coord_lon : Q;
  city_name : string
}.

(** The provider's payload; [list] (here [data_list]) and [city] may be
    missing. *)
Record ForecastData : Type := {
  data_list : option (list ForecastPoint);
  city : option City
}.

(** What an [axios] call comes back with: the response data, or an
    error that carries a response with a status, or one that carries a
    [code] or just a message. *)
Inductive Http (A : Type) : Type :=
| Response (data : A)
| StatusError (status : Z) (msg : option string)
| CodeError (code : string) (msg : string)
| OtherError (msg : string).
Arguments Response {A} data.
Arguments StatusError {A} status msg.
Arguments CodeError {A} code msg.
Arguments OtherError {A} msg.

Record World : Type := {
  (** [process.env.OPENWEATHER_API_KEY] *)
  OPENWEATHER_API_KEY : option string;
  (** [process.env.GEMINI_API_KEY] *)
  GEMINI_API_KEY : option string;
  (** [new Date().getMonth() + 1], from 1 to 12 *)
  month : Z;
  (** [new Date().toISOString()] *)
  now : string;
  (** the forecast provider's answer to [GET /forecast] at [lat], [lon];
      [None] is a response without data *)
  openWeather : Q -> Q -> Http (option ForecastData);
  (** the advice generator's answer to the prompt: the text at
      [data.candidates[0].content.parts[0].text], if there is one *)
  gemini : Http (option string)
}.

End Env.

Import Env.

(* ================================================================== *)
(** ** utils/weatherUtils.js *)

Module WeatherUtils.

Import Config.

Record SeasonInfo : Type := {
  season : string;
  description : string;
  currentMonth : Z;
  start : string;
  end_ : string
}.

(** The object spread [...config.seasons[season]] comes last, so its
    [description] replaces the longer one chosen with the season. *)
Definition detectCurrentSeason (w : World) : SeasonInfo :=
  let month := Env.month w in
  let '(season, description) :=
    if ((1 <=? month) && (month <=? 2))%Z%bool then
      ("shortDry", "Short dry season - January to February")
    else if ((3 <=? month) && (month <=? 5))%Z%bool then
      ("longRains", "Long rainy season - March to May")
    else if ((6 <=? month) && (month <=? 9))%Z%bool then
      ("longDry", "Long dry season - June to September")
    else
      ("shortRains", "Short rainy season - October to December") in
  match JS.assoc season Config.seasons with
  | Some s =>
      {| season := season;
         description := season_description s;
         currentMonth := month;
         start := season_start s;
         end_ := season_end s |}
  | None =>
      {| season := season; description := description;
         currentMonth := month;
         start := EmptyString; end_ := EmptyString |}
  end.

Record Location : Type := {
  lat : Q;
  lon : Q;
  name : string
}.

Record ForecastSummary : Type := {
  totalRainfall : Q;
  maxTemperature : xnum;
  minTemperature : xnum;
  maxWindSpeed : Q;
  rainHours : nat;
  heavyRainHours : nat;
  windHours : nat;
  conditions : list string;
  forecastPeriod : string;
  location : Location;
  (** set by the caller after the summary is built *)
  warnings : option (list string)
}.

(** The local variables the [forEach] loop of [summarizeForecast]
    updates. *)
Record Totals : Type := {
  t_totalRainfall : Q;
  t_maxTemp : xnum;
  t_minTemp : xnum;
  t_maxWindSpeed : Q;
  t_rainHours : nat;
  t_heavyRainHours : nat;
  t_windHours : nat
}.

Definition initialTotals : Totals :=
  {| t_totalRainfall := 0;
     t_maxTemp := NegInfinity;
     t_minTemp := PosInfinity;
     t_maxWindSpeed := 0;
     t_rainHours := 0;
     t_heavyRainHours := 0;
     t_windHours := 0 |}.

(** The body of the loop, for one forecast. *)
Definition accumulate (t : Totals) (forecast : ForecastPoint) : Totals :=
  let temp := main_temp forecast in
  (* Temperature tracking *)
  let maxTemp := if gt_x temp (t_maxTemp t) then Finite temp
                 else t_maxTemp t in
  let minTemp := if lt_x temp (t_minTemp t) then Finite temp
                 else t_minTemp t in
  (* Rainfall tracking *)
  let '(totalRainfall, rainHours, heavyRainHours) :=
    match rain3h forecast with
    | Some r =>
        if truthy_num r then
          (Double.add (t_totalRainfall t) r,
           S (t_rainHours t),
           if Qgeb r weatherThresholds.rainfall.heavy
           then S (t_heavyRainHours t) else t_heavyRainHours t)
        else (t_totalRainfall t, t_rainHours t, t_heavyRainHours t)
    | None => (t_totalRainfall t, t_rainHours t, t_heavyRainHours t)
    end in
  (* Wind tracking *)
  let maxWindSpeed :=
    match wind_speed forecast with
    | Some s => if Qgtb s (t_maxWindSpeed t) then s else t_maxWindSpeed t
    | None => t_maxWindSpeed t
    end in
  let windHours :=
    match wind_speed forecast with
    | Some s => if Qgeb s weatherThresholds.windSpeed.warning
                then S (t_windHours t) else t_windHours t
    | None => t_windHours t
    end in
  {| t_totalRainfall := totalRainfall;
     t_maxTemp := maxTemp;
     t_minTemp := minTemp;
     t_maxWindSpeed := maxWindSpeed;
     t_rainHours := rainHours;
     t_heavyRainHours := heavyRainHours;
     t_windHours := windHours |}.

Definition invalidForecastData : exn :=
  Error "Invalid forecast data received".

(** Reading [forecastData.city.coord] when [city] is [undefined]. *)
Definition cityTypeError : exn :=
  TypeError "Cannot read properties of undefined (reading 'coord')".

Definition summarizeForecast (forecastData : option ForecastData)
  : result ForecastSummary :=
  match forecastData with
  | None => Throw invalidForecastData
  | Some data =>
      match data_list data with
      | None => Throw invalidForecastData
      | Some list =>
          (* First 48 hours (3-hour intervals) *)
          let forecasts := firstn 16 list in
          let t := fold_left accumulate forecasts initialTotals in
          (* Convert temperatures from Kelvin to Celsius *)
          let maxTempC := kelvinToCelsius1 (t_maxTemp t) in
          let minTempC := kelvinToCelsius1 (t_minTemp t) in
          (* Convert wind speed from m/s to km/h *)
          let maxWindKmh := Math_round (t_maxWindSpeed t * (36 # 10)) in
          (* Determine weather conditions *)
          let conditions := [] in
          let conditions :=
            if Qgtb (t_totalRainfall t) 0 then push conditions "rain"
            else conditions in
          let conditions :=
            if Nat.ltb 0 (t_heavyRainHours t)
            then push conditions "heavy_rain" else conditions in
          let conditions :=
            if Nat.ltb 0 (t_windHours t) then push conditions "wind"
            else conditions in
          let conditions :=
            if x_gt maxTempC weatherThresholds.temperature.max
            then push conditions "high_temperature" else conditions in
          let conditions :=
            if x_lt minTempC weatherThresholds.temperature.min
            then push conditions "low_temperature" else conditions in
          match city data with
          | None => Throw cityTypeError
          | Some c =>
              Ok {| totalRainfall := Double.round1 (t_totalRainfall t);
                    maxTemperature := maxTempC;
                    minTemperature := minTempC;
                    maxWindSpeed := maxWindKmh;
                    rainHours := t_rainHours t;
                    heavyRainHours := t_heavyRainHours t;
                    windHours := t_windHours t;
                    conditions := conditions;
                    forecastPeriod := "48 hours";
                    location := {| lat := coord_lat c;
                                   lon := coord_lon c;
                                   name := city_name c |};
                    warnings := None |}
          end
      end
  end.

Definition highTemperatureWarning (t : xnum) : string :=
  "High temperature warning: " ++ xnumToString t
    ++ "°C expected. Consider shade protection for crops.".

Definition lowTemperatureWarning (t : xnum) : string :=
  "Low temperature warning: " ++ xnumToString t
    ++ "°C expected. Protect sensitive crops from cold.".

Definition dangerousWindWarning (v : Q) : string :=
  "Dangerous wind conditions: " ++ numToString v
    ++ " km/h expected. Secure structures and protect crops.".

Definition windWarning (v : Q) : string :=
  "Wind warning: " ++ numToString v
    ++ " km/h expected. Consider wind protection for tall crops.".

Definition heavyRainWarning (n : nat) : string :=
  "Heavy rainfall expected: " ++ Z_to_string (Z.of_nat n)
    ++ " periods of heavy rain. Ensure proper drainage.".

Definition noRainWarning : string :=
  "No rainfall expected in the next 48 hours. Consider irrigation for water-dependent crops.".

Definition generateWeatherWarnings (forecastSummary : ForecastSummary)
  : list string :=
  let warnings := [] in
  (* Temperature warnings *)
  let warnings :=
    if x_gt (maxTemperature forecastSummary)
            weatherThresholds.temperature.max
    then push warnings
           (highTemperatureWarning (maxTemperature forecastSummary))
    else warnings in
  let warnings :=
    if x_lt (minTemperature forecastSummary)
            weatherThresholds.temperature.min
    then push warnings
           (lowTemperatureWarning (minTemperature forecastSummary))
    else warnings in
  (* Wind warnings *)
  let warnings :=
    if Qgeb (maxWindSpeed forecastSummary) weatherThresholds.windSpeed.danger
    then push warnings
           (dangerousWindWarning (maxWindSpeed forecastSummary))
    else if Qgeb (maxWindSpeed forecastSummary)
                 weatherThresholds.windSpeed.warning
    then push warnings (windWarning (maxWindSpeed forecastSummary))
    else warnings in
  (* Rainfall warnings *)
  let warnings :=
    if Nat.ltb 0 (heavyRainHours forecastSummary)
    then push warnings (heavyRainWarning (heavyRainHours forecastSummary))
    else warnings in
  let warnings :=
    if (Qeqb (totalRainfall forecastSummary) 0
        && Nat.eqb (rainHours forecastSummary) 0)%bool
    then push warnings noRainWarning
    else warnings in
  warnings.

Definition validateCoordinates (lat lon : Q) : bool :=
  (Qgeb lat (-90) && Qleb lat 90 && Qgeb lon (-180) && Qleb lon 180)%bool.

Definition getDefaultCoordinates : Q * Q :=
  (Config.defaultLat, Config.defaultLon).

End WeatherUtils.

(* ================================================================== *)
(** ** utils/cropUtils.js *)

Module CropUtils.

Import WeatherUtils.

(** What a template literal prints for a property that may be missing. *)
Definition orUndefined {A} (f : A -> string) (p : prop A) : string :=
  match p with
  | Own a => f a
  | _ => "undefined"
  end.

(** [config.crops[cropType.toLowerCase()]], or the error.  The value is
    never [Undefined]. *)
Definition getCropInfo (cropType : string) : result (prop Config.Crop) :=
  let crop := JS.get Config.crops (toLowerCase cropType) in
  if negb (truthy_prop crop) then
    Throw (Error ("Unsupported crop type: " ++ cropType))
  else Ok crop.

Definition cropField {A} (f : Config.Crop -> option A)
    (crop : prop Config.Crop) : option A :=
  match crop with
  | Own c => f c
  | _ => None
  end.

Definition getCropSoilPh (cropType : string) : result Config.SoilPh :=
  crop <- getCropInfo cropType ;;
  Ok match cropField Config.soilPh crop with
     | Some ph => ph
     | None => {| Config.min := 6; Config.max := 7;
                  Config.optimal := 65 # 10 |}
     end.

Record SoilSuitability : Type := {
  suitable : bool;
  message : string;
  recommendation : option string;
  cropPhRange : option Config.SoilPh;
  currentPh : option Q
}.

Definition isSoilPhSuitableForCrop (cropType : string) (soilPh : option Q)
  : result SoilSuitability :=
  match soilPh with
  | None =>
      Ok {| suitable := true; message := "Soil pH not specified";
            recommendation := None; cropPhRange := None;
            currentPh := None |}
  | Some soilPh =>
      cropPh <- getCropSoilPh cropType ;;
      let isSuitable :=
        (Qgeb soilPh (Config.min cropPh)
         && Qleb soilPh (Config.max cropPh))%bool in
      let '(message, recommendation) :=
        if isSuitable then
          ("Soil pH " ++ numToString soilPh ++ " is suitable for "
             ++ cropType, None)
        else if Qltb soilPh (Config.min cropPh) then
          ("Soil pH " ++ numToString soilPh ++ " is too acidic for "
             ++ cropType ++ ". Minimum required: "
             ++ numToString (Config.min cropPh),
           Some "Consider adding lime to raise soil pH")
        else
          ("Soil pH " ++ numToString soilPh ++ " is too alkaline for "
             ++ cropType ++ ". Maximum allowed: "
             ++ numToString (Config.max cropPh),
           Some "Consider adding sulfur or organic matter to lower soil pH")
      in
      Ok {| suitable := isSuitable; message := message;
            recommendation := recommendation;
            cropPhRange := Some cropPh; currentPh := Some soilPh |}
  end.

(** [{ state: growthState, ...stateInfo }] *)
Record GrowthStateInfo : Type := {
  state : string;
  stateInfo : prop Config.GrowthState
}.

Definition getGrowthStateInfo (growthState : option string)
  : result (option GrowthStateInfo) :=
  if negb (truthy_ostr growthState) then Ok None
  else
    let growthState := match growthState with
                       | Some s => s
                       | None => EmptyString
                       end in
    let stateInfo := JS.get Config.growthStates growthState in
    if negb (truthy_prop stateInfo) then
      Throw (Error ("Invalid growth state: " ++ growthState))
    else Ok (Some {| state := growthState; stateInfo := stateInfo |}).

Definition getSoilPhCategory (soilPh : option Q)
  : option Config.SoilPhCategory :=
  match soilPh with
  | None => None
  | Some soilPh =>
      if (Qgeb soilPh 4 && Qleb soilPh 5)%bool
      then Some Config.soilPhCategories.very_acidic
      else if (Qgeb soilPh (51 # 10) && Qleb soilPh 6)%bool
      then Some Config.soilPhCategories.acidic
      else if (Qgeb soilPh (61 # 10) && Qleb soilPh (65 # 10))%bool
      then Some Config.soilPhCategories.slightly_acidic
      else if (Qgeb soilPh (66 # 10) && Qleb soilPh (73 # 10))%bool
      then Some Config.soilPhCategories.neutral
      else if (Qgeb soilPh (74 # 10) && Qleb soilPh (78 # 10))%bool
      then Some Config.soilPhCategories.slightly_alkaline
      else if (Qgeb soilPh (79 # 10) && Qleb soilPh (85 # 10))%bool
      then Some Config.soilPhCategories.alkaline
      else None
  end.

Record AdditionalData : Type := {
  soilPh : option Q;
  growthState : option string;
  variety : option string
}.

Definition noAdditionalData : AdditionalData :=
  {| soilPh := None; growthState := None; variety := None |}.

Record Resource : Type := {
  resource : string;
  purpose : string;
  quantity : string;
  cost_estimate : string;
  where_to_get : string
}.

Record Disease : Type := {
  disease_name : string;
  symptoms : string;
  risk_factors : string;
  prevention : string;
  treatment : string;
  seasonal_risk : string
}.

Record Advice : Type := {
  forecast_summary : string;
  season : string;
  crop : string;
  soil_ph_analysis : string;
  growth_stage_advice : string;
  variety_specific_tips : string;
  actions : list string;
  resources_needed : list Resource;
  possible_diseases : list Disease;
  warnings : list string;
  productivity_tips : list string
}.

(** The in-place updates of the [advice] object. *)
Definition set_soil_ph_analysis (s : string) (a : Advice) : Advice :=
  {| forecast_summary := forecast_summary a; season := season a;
     crop := crop a; soil_ph_analysis := s;
     growth_stage_advice := growth_stage_advice a;
     variety_specific_tips := variety_specific_tips a;
     actions := actions a; resources_needed := resources_needed a;
     possible_diseases := possible_diseases a; warnings := warnings a;
     productivity_tips := productivity_tips a |}.

Definition set_growth_stage_advice (s : string) (a : Advice) : Advice :=
  {| forecast_summary := forecast_summary a; season := season a;
     crop := crop a; soil_ph_analysis := soil_ph_analysis a;
     growth_stage_advice := s;
     variety_specific_tips := variety_specific_tips a;
     actions := actions a; resources_needed := resources_needed a;
     possible_diseases := possible_diseases a; warnings := warnings a;
     productivity_tips := productivity_tips a |}.

Definition set_variety_specific_tips (s : string) (a : Advice) : Advice :=
  {| forecast_summary := forecast_summary a; season := season a;
     crop := crop a; soil_ph_analysis := soil_ph_analysis a;
     growth_stage_advice := growth_stage_advice a;
     variety_specific_tips := s;
     actions := actions a; resources_needed := resources_needed a;
     possible_diseases := possible_diseases a; warnings := warnings a;
     productivity_tips := productivity_tips a |}.

Definition set_actions (l : list string) (a : Advice) : Advice :=
  {| forecast_summary := forecast_summary a; season := season a;
     crop := crop a; soil_ph_analysis := soil_ph_analysis a;
     growth_stage_advice := growth_stage_advice a;
     variety_specific_tips := variety_specific_tips a;
     actions := l; resources_needed := resources_needed a;
     possible_diseases := possible_diseases a; warnings := warnings a;
     productivity_tips := productivity_tips a |}.

Definition set_resources_needed (l : list Resource) (a : Advice) : Advice :=
  {| forecast_summary := forecast_summary a; season := season a;
     crop := crop a; soil_ph_analysis := soil_ph_analysis a;
     growth_stage_advice := growth_stage_advice a;
     variety_specific_tips := variety_specific_tips a;
     actions := actions a; resources_needed := l;
     possible_diseases := possible_diseases a; warnings := warnings a;
     productivity_tips := productivity_tips a |}.

Definition set_possible_diseases (l : list Disease) (a : Advice) : Advice :=
  {| forecast_summary := forecast_summary a; season := season a;
     crop := crop a; soil_ph_analysis := soil_ph_analysis a;
     growth_stage_advice := growth_stage_advice a;
     variety_specific_tips := variety_specific_tips a;
     actions := actions a; resources_needed := resources_needed a;
     possible_diseases := l; warnings := warnings a;
     productivity_tips := productivity_tips a |}.

Definition set_warnings (l : list string) (a : Advice) : Advice :=
  {| forecast_summary := forecast_summary a; season := season a;
     crop := crop a; soil_ph_analysis := soil_ph_analysis a;
     growth_stage_advice := growth_stage_advice a;
     variety_specific_tips := variety_specific_tips a;
     actions := actions a; resources_needed := resources_needed a;
     possible_diseases := possible_diseases a; warnings := l;
     productivity_tips := productivity_tips a |}.

Definition set_productivity_tips (l : list string) (a : Advice) : Advice :=
  {| forecast_summary := forecast_summary a; season := season a;
     crop := crop a; soil_ph_analysis := soil_ph_analysis a;
     growth_stage_advice := growth_stage_advice a;
     variety_specific_tips := variety_specific_tips a;
     actions := actions a; resources_needed := resources_needed a;
     possible_diseases := possible_diseases a; warnings := warnings a;
     productivity_tips := l |}.

(** [advice.actions.push(x)] and its siblings. *)
Definition push_action (x : string) (a : Advice) : Advice :=
  set_actions (push (actions a) x) a.
Definition push_resource (x : Resource) (a : Advice) : Advice :=
  set_resources_needed (push (resources_needed a) x) a.
Definition push_disease (x : Disease) (a : Advice) : Advice :=
  set_possible_diseases (push (possible_diseases a) x) a.
Definition push_warning (x : string) (a : Advice) : Advice :=
  set_warnings (push (warnings a) x) a.
Definition push_tip (x : string) (a : Advice) : Advice :=
  set_productivity_tips (push (productivity_tips a) x) a.

(** A sequence of statements on the [advice] object. *)
Definition seq (steps : list (Advice -> Advice)) (a : Advice) : Advice :=
  fold_left (fun acc step => step acc) steps a.

Definition when (b : bool) (step : Advice -> Advice) (a : Advice)
  : Advice :=
  if b then step a else a.

Definition mkResource (r p q c w : string) : Resource :=
  {| resource := r; purpose := p; quantity := q; cost_estimate := c;
     where_to_get := w |}.

Definition mkDisease (n s r p t risk : string) : Disease :=
  {| disease_name := n; symptoms := s; risk_factors := r;
     prevention := p; treatment := t; seasonal_risk := risk |}.

(** Add soil pH specific advice *)
Definition soilPhAdvice (cropType : string) (soilPh : option Q)
    (advice : Advice) : result Advice :=
  match soilPh with
  | None => Ok advice
  | Some ph =>
      soilSuitability <- isSoilPhSuitableForCrop cropType (Some ph) ;;
      let phCategory := getSoilPhCategory (Some ph) in
      let advice :=
        if negb (suitable soilSuitability) then
          let advice := push_warning (message soilSuitability) advice in
          match recommendation soilSuitability with
          | Some r => push_action r advice
          | None => advice
          end
        else
          push_tip ("Soil pH " ++ numToString ph ++ " is optimal for "
                      ++ cropType ++ " growth") advice in
      let advice :=
        match phCategory with
        | Some c =>
            push_tip ("Soil category: " ++ Config.category_description c)
                     advice
        | None => advice
        end in
      Ok (set_soil_ph_analysis
            ("Soil pH " ++ numToString ph ++ " analysis: "
               ++ message soilSuitability) advice)
  end.

(** Growth state specific actions: the [switch (growthState)]. *)
Definition growthStateActions (growthState : string) : Advice -> Advice :=
  if growthState =? "germination" then
    seq [ push_action
            "Ensure consistent soil moisture for seed germination";
          push_action
            "Protect seedlings from extreme weather conditions" ]
  else if growthState =? "vegetative" then
    seq [ push_action
            "Provide adequate nitrogen for leaf and stem development";
          push_action
            "Control weeds to reduce competition for nutrients" ]
  else if growthState =? "flowering" then
    seq [ push_action
            "Ensure adequate water during flowering to prevent flower drop";
          push_action
            "Avoid spraying pesticides during flowering to protect pollinators" ]
  else if growthState =? "fruiting" then
    seq [ push_action
            "Provide balanced nutrition for fruit development";
          push_action
            "Support heavy fruit clusters to prevent breakage" ]
  else seq [].

(** Add growth state specific advice *)
Definition growthStateAdvice (growthState : option string)
    (advice : Advice) : result Advice :=
  if truthy_ostr growthState then
    growthInfo <- getGrowthStateInfo growthState ;;
    match growthInfo with
    | Some info =>
        Ok (seq
              [ push_tip
                  ("Current growth stage: "
                     ++ orUndefined Config.stage_description
                                    (stateInfo info)
                     ++ " ("
                     ++ orUndefined Config.stage_duration (stateInfo info)
                     ++ ")");
                set_growth_stage_advice
                  ("Growth stage " ++ state info ++ ": "
                     ++ orUndefined Config.stage_description
                                    (stateInfo info));
                growthStateActions (state info) ]
              advice)
    | None => Ok advice
    end
  else Ok advice.

(** [crop.varieties[variety]], when [variety] and [crop.varieties] are
    truthy. *)
Definition lookupVariety (crop : prop Config.Crop)
    (variety : option string) : prop Config.Variety :=
  match variety, cropField Config.varieties crop with
  | Some v, Some vs => if truthy_str v then JS.get vs v else Undefined
  | _, _ => Undefined
  end.

Definition isLow (varietyInfo : prop Config.Variety) : bool :=
  match varietyInfo with
  | Own v => Config.droughtResistance v =? "low"
  | _ => false
  end.

(** Add variety specific advice *)
Definition varietyAdvice (crop : prop Config.Crop)
    (variety : option string) (forecastSummary : ForecastSummary)
    (advice : Advice) : Advice :=
  let varietyInfo := lookupVariety crop variety in
  if truthy_prop varietyInfo then
    let name := match variety with
                | Some v => v
                | None => EmptyString
                end in
    let description :=
      orUndefined Config.variety_description varietyInfo in
    let resistance := orUndefined Config.droughtResistance varietyInfo in
    seq [ push_tip ("Variety: " ++ description);
          push_tip ("Drought resistance: " ++ resistance);
          set_variety_specific_tips
            ("Variety " ++ name ++ ": " ++ description ++ " with "
               ++ resistance ++ " drought resistance");
          when (isLow varietyInfo
                && Qeqb (totalRainfall forecastSummary) 0)%bool
            (seq [ push_warning
                     "Low drought resistance variety selected during dry conditions";
                   push_action
                     "Increase irrigation frequency for this variety" ]) ]
        advice
  else advice.

(** Season-specific actions and resources: the [switch (season)]. *)
Definition seasonAdvice (season : string) : Advice -> Advice :=
  if season =? "shortDry" then
    seq [ push_action
            "Prepare irrigation systems for water-dependent crops";
          push_action "Apply mulch to retain soil moisture";
          push_action "Consider drought-resistant crop varieties";
          push_resource
            (mkResource "Irrigation equipment" "Water delivery to crops"
               "As needed based on field size" "50,000-200,000 RWF"
               "Local agricultural supply stores");
          push_resource
            (mkResource "Organic mulch" "Soil moisture retention"
               "2-3 tons per hectare" "15,000-25,000 RWF per ton"
               "Local farms, agricultural cooperatives") ]
  else if season =? "longRains" then
    seq [ push_action "Ensure proper drainage systems are in place";
          push_action "Plant crops that thrive in wet conditions";
          push_action
            "Monitor for fungal diseases due to high humidity";
          push_resource
            (mkResource "Drainage materials" "Prevent waterlogging"
               "As needed for field drainage" "20,000-50,000 RWF"
               "Construction supply stores");
          push_resource
            (mkResource "Fungicides" "Prevent fungal diseases"
               "2-3 applications per season"
               "5,000-15,000 RWF per application"
               "Agricultural chemical suppliers") ]
  else if season =? "longDry" then
    seq [ push_action "Implement water conservation techniques";
          push_action "Use shade nets for sensitive crops";
          push_action "Focus on drought-tolerant crops";
          push_resource
            (mkResource "Shade nets" "Protect crops from excessive sun"
               "Cover entire field area" "30,000-80,000 RWF per hectare"
               "Agricultural supply stores");
          push_resource
            (mkResource "Water storage containers"
               "Store collected rainwater" "1000-5000 liters capacity"
               "25,000-100,000 RWF"
               "Hardware stores, agricultural suppliers") ]
  else if season =? "shortRains" then
    seq [ push_action "Take advantage of moisture for planting";
          push_action "Prepare for the upcoming dry season";
          push_action "Harvest crops before heavy rains";
          push_resource
            (mkResource "Planting tools" "Efficient crop planting"
               "1 set per farmer" "15,000-30,000 RWF"
               "Agricultural tool stores");
          push_resource
            (mkResource "Harvesting equipment" "Timely crop harvesting"
               "As needed for crop type" "10,000-50,000 RWF"
               "Agricultural equipment suppliers") ]
  else seq [].

(** Weather-specific actions and resources *)
Definition weatherAdvice (forecastSummary : ForecastSummary)
  : Advice -> Advice :=
  seq [ when (Qeqb (totalRainfall forecastSummary) 0)
          (seq [ push_action
                   "Schedule irrigation for water-dependent crops";
                 push_action "Check soil moisture levels regularly";
                 push_resource
                   (mkResource "Soil moisture meter"
                      "Monitor soil water content" "1 per field"
                      "8,000-15,000 RWF" "Agricultural supply stores") ]);
        when (Nat.ltb 0 (heavyRainHours forecastSummary))
          (seq [ push_action
                   "Secure any loose structures or equipment";
                 push_action "Ensure drainage channels are clear";
                 push_resource
                   (mkResource "Drainage tools" "Clear drainage channels"
                      "1 set per field" "5,000-12,000 RWF"
                      "Hardware stores") ]);
        when (Qgeb (maxWindSpeed forecastSummary)
                   Config.weatherThresholds.windSpeed.warning)
          (seq [ push_action "Provide wind protection for tall crops";
                 push_action "Secure trellises and support structures";
                 push_resource
                   (mkResource "Wind barriers"
                      "Protect crops from wind damage"
                      "Perimeter of field"
                      "20,000-60,000 RWF per hectare"
                      "Agricultural supply stores") ]) ].

(** [season === 'longRains' ? a : b] *)
Definition risk (season a b : string) : string :=
  if season =? "longRains" then a else b.

(** Crop-specific resources and diseases: the
    [switch (cropType.toLowerCase())]. *)
Definition cropAdvice (cropType season : string) : Advice -> Advice :=
  let c := toLowerCase cropType in
  if c =? "maize" then
    seq [ push_tip
            "Plant in rows with proper spacing (75cm between rows)";
          push_tip "Apply nitrogen fertilizer in split applications";
          push_tip "Control weeds early in the growing season";
          push_resource
            (mkResource "Nitrogen fertilizer (NPK)"
               "Provide essential nutrients for growth"
               "200-300 kg per hectare"
               "80,000-120,000 RWF per hectare"
               "Agricultural cooperatives, fertilizer suppliers");
          push_resource
            (mkResource "Weed control herbicides"
               "Control competing weeds" "2-3 applications per season"
               "15,000-25,000 RWF per application"
               "Agricultural chemical suppliers");
          push_disease
            (mkDisease "Maize Lethal Necrosis"
               "Yellowing leaves, stunted growth, poor grain development"
               "High humidity, poor drainage, infected seeds"
               "Use certified seeds, maintain field hygiene, proper spacing"
               "Remove infected plants, apply fungicides if early detected"
               (risk season "High" "Medium"));
          push_disease
            (mkDisease "Common Rust"
               "Reddish-brown pustules on leaves, reduced photosynthesis"
               "High humidity, dense planting, poor air circulation"
               "Plant resistant varieties, maintain proper spacing"
               "Apply fungicides, remove infected plant debris"
               (risk season "High" "Low")) ]
  else if c =? "beans" then
    seq [ push_tip "Use trellises for climbing varieties";
          push_tip "Plant in well-drained soil with good organic matter";
          push_tip "Harvest pods when they are young and tender";
          push_resource
            (mkResource "Trellis materials"
               "Support climbing bean varieties"
               "Poles and strings for entire field"
               "25,000-50,000 RWF per hectare"
               "Local hardware stores, agricultural suppliers");
          push_resource
            (mkResource "Organic compost"
               "Improve soil fertility and structure"
               "5-10 tons per hectare" "20,000-40,000 RWF per ton"
               "Local farms, agricultural cooperatives");
          push_disease
            (mkDisease "Bean Anthracnose"
               "Dark, sunken lesions on pods and stems"
               "Wet weather, poor air circulation, infected seeds"
               "Use disease-free seeds, crop rotation, proper spacing"
               "Remove infected plants, apply copper-based fungicides"
               (risk season "High" "Medium"));
          push_disease
            (mkDisease "Bean Rust"
               "Orange-brown pustules on leaves, defoliation"
               "High humidity, dense planting, poor drainage"
               "Plant resistant varieties, maintain field hygiene"
               "Apply fungicides, remove infected debris"
               (risk season "High" "Low")) ]
  else if c =? "potatoes" then
    seq [ push_tip "Plant in loose, well-drained soil";
          push_tip "Hill soil around plants as they grow";
          push_tip "Control potato beetles and other pests";
          push_resource
            (mkResource "Potato hilling tools"
               "Build soil mounds around potato plants"
               "1 set per farmer" "8,000-15,000 RWF"
               "Agricultural tool stores");
          push_resource
            (mkResource "Insecticides"
               "Control potato beetles and other pests"
               "2-3 applications per season"
               "12,000-20,000 RWF per application"
               "Agricultural chemical suppliers");
          push_disease
            (mkDisease "Late Blight"
               "Dark lesions on leaves and stems, rapid plant death"
               "Cool, wet weather, poor air circulation"
               "Plant resistant varieties, proper spacing, avoid overhead irrigation"
               "Apply copper-based fungicides, remove infected plants"
               (risk season "High" "Low"));
          push_disease
            (mkDisease "Early Blight"
               "Brown spots with concentric rings on leaves"
               "Warm, humid weather, poor nutrition"
               "Maintain plant health, proper fertilization, crop rotation"
               "Apply fungicides, remove infected leaves"
               (risk season "Medium" "Low")) ]
  else if c =? "bananas" then
    seq [ push_tip "Provide regular watering and fertilization";
          push_tip "Remove suckers to maintain single stem";
          push_tip "Support heavy bunches with props";
          push_resource
            (mkResource "Banana props" "Support heavy fruit bunches"
               "1 prop per bearing plant" "2,000-5,000 RWF each"
               "Local craftsmen, agricultural suppliers");
          push_resource
            (mkResource "Potassium fertilizer"
               "Essential for banana fruit development"
               "300-500 kg per hectare"
               "90,000-150,000 RWF per hectare"
               "Agricultural cooperatives, fertilizer suppliers");
          push_disease
            (mkDisease "Panama Disease (Fusarium Wilt)"
               "Yellowing leaves, wilting, plant death"
               "Infected soil, poor drainage, monoculture"
               "Use disease-free planting material, crop rotation, good drainage"
               "Remove infected plants, soil fumigation if severe"
               (risk season "High" "Medium"));
          push_disease
            (mkDisease "Black Sigatoka"
               "Dark streaks on leaves, reduced fruit quality"
               "High humidity, poor air circulation, dense planting"
               "Maintain proper spacing, remove infected leaves, fungicide application"
               "Apply systemic fungicides, remove infected leaves"
               (risk season "High" "Medium")) ]
  else seq [].

(** Add weather warnings: [advice.warnings.push(...forecastSummary.warnings)]
    when the summary has them. *)
Definition weatherWarnings (forecastSummary : ForecastSummary)
    (advice : Advice) : Advice :=
  match WeatherUtils.warnings forecastSummary with
  | Some ws => set_warnings (warnings advice ++ ws) advice
  | None => advice
  end.

Definition forecastNarrative (forecastSummary : ForecastSummary) : string :=
  "Weather forecast for next 48 hours: "
    ++ numToString (totalRainfall forecastSummary) ++ "mm rainfall, "
    ++ xnumToString (minTemperature forecastSummary) ++ "°C to "
    ++ xnumToString (maxTemperature forecastSummary) ++ "°C, wind up to "
    ++ numToString (maxWindSpeed forecastSummary) ++ " km/h".

Definition generateBasicSeasonalAdvice (cropType season : string)
    (forecastSummary : ForecastSummary) (additionalData : AdditionalData)
  : result Advice :=
  crop <- getCropInfo cropType ;;
  let advice :=
    {| forecast_summary := forecastNarrative forecastSummary;
       season := season;
       crop := cropType;
       soil_ph_analysis := EmptyString;
       growth_stage_advice := EmptyString;
       variety_specific_tips := EmptyString;
       actions := [];
       resources_needed := [];
       possible_diseases := [];
       warnings := [];
       productivity_tips := [] |} in
  advice <- soilPhAdvice cropType (soilPh additionalData) advice ;;
  advice <- growthStateAdvice (growthState additionalData) advice ;;
  let advice :=
    varietyAdvice crop (variety additionalData) forecastSummary advice in
  let advice := seasonAdvice season advice in
  let advice := weatherAdvice forecastSummary advice in
  let advice := cropAdvice cropType season advice in
  let advice := weatherWarnings forecastSummary advice in
  Ok advice.

(** [cropType && config.crops[cropType.toLowerCase()]] *)
Definition validateCropType (cropType : string) : bool :=
  (truthy_str cropType
   && truthy_prop (JS.get Config.crops (toLowerCase cropType)))%bool.

(** [Object.keys(config.crops)] *)
Definition getSupportedCrops : list string := map fst Config.crops.

(** [crop.varieties || {}] *)
Definition getCropVarieties (cropType : string)
  : result (list (string * Config.Variety)) :=
  crop <- getCropInfo cropType ;;
  Ok match cropField Config.varieties crop with
     | Some vs => vs
     | None => []
     end.

(** [crop.growthStates || [...]] *)
Definition getCropGrowthStates (cropType : string) : result (list string) :=
  crop <- getCropInfo cropType ;;
  Ok match cropField Config.cropGrowthStates crop with
     | Some gs => gs
     | None => ["germination"; "vegetative"; "flowering"; "fruiting"]
     end.

(** An inherited property has no [season]: both comparisons are false. *)
Definition isCropSuitableForSeason (cropType season : string)
  : result bool :=
  crop <- getCropInfo cropType ;;
  Ok match crop with
     | Own c =>
         if Config.season c =? "all" then true
         else Config.season c =? season
     | _ => false
     end.

(** [crop.waterNeeds], [undefined] on an inherited property. *)
Definition getCropWaterRequirement (cropType : string)
  : result (option string) :=
  crop <- getCropInfo cropType ;;
  Ok match crop with
     | Own c => Some (Config.waterNeeds c)
     | _ => None
     end.

(** [crop.growthPeriod] *)
Definition getCropGrowthPeriod (cropType : string)
  : result (option string) :=
  crop <- getCropInfo cropType ;;
  Ok match crop with
     | Own c => Some (Config.growthPeriod c)
     | _ => None
     end.

End CropUtils.

(* ================================================================== *)
(** ** JSON values and [JSON.parse] *)

Module JSON.

#[warnings="-register-all"] Inductive json : Type :=
| JNull
| JBool (b : bool)
| JNumber (q : Q)
| JString (s : string)
| JArray (items : list json)
| JObject (fields : list (string * json)).

(** Truthiness of a parsed value. *)
Definition truthy (v : json) : bool :=
  match v with
  | JNull => false
  | JBool b => b
  | JNumber q => truthy_num q
  | JString s => truthy_str s
  | JArray _ | JObject _ => true
  end.

Definition truthy_opt (o : option json) : bool :=
  match o with Some v => truthy v | None => false end.

(** [obj[key] = v]: an existing key keeps its place. *)
Fixpoint set (key : string) (v : json) (fields : list (string * json))
  : list (string * json) :=
  match fields with
  | [] => [(key, v)]
  | (k, x) :: rest =>
      if String.eqb k key then (k, v) :: rest
      else (k, x) :: set key v rest
  end.

Fixpoint remove (key : string) (fields : list (string * json))
  : list (string * json) :=
  match fields with
  | [] => []
  | (k, x) :: rest =>
      if String.eqb k key then remove key rest
      else (k, x) :: remove key rest
  end.

(** *** The parser: RFC 8259 text, by recursive descent *)

Definition is_ws (c : ascii) : bool :=
  let n := nat_of_ascii c in
  (Nat.eqb n 32 || Nat.eqb n 9 || Nat.eqb n 10 || Nat.eqb n 13)%bool.

Fixpoint skip_ws (s : string) : string :=
  match s with
  | String c r => if is_ws c then skip_ws r else s
  | EmptyString => s
  end.

Definition digit_of (c : ascii) : option Z :=
  let n := nat_of_ascii c in
  if (Nat.leb 48 n && Nat.leb n 57)%bool then Some (Z.of_nat (n - 48))
  else None.

Definition hex_of (c : ascii) : option nat :=
  let n := nat_of_ascii c in
  if (Nat.leb 48 n && Nat.leb n 57)%bool then Some (n - 48)%nat
  else if (Nat.leb 65 n && Nat.leb n 70)%bool then Some (n - 55)%nat
  else if (Nat.leb 97 n && Nat.leb n 102)%bool then Some (n - 87)%nat
  else None.

(** A run of digits: its value on top of [acc], its length, the rest. *)
Fixpoint digits (acc : Z) (n : nat) (s : string) : Z * nat * string :=
  match s with
  | String c r =>
      match digit_of c with
      | Some d => digits (acc * 10 + d)%Z (S n) r
      | None => (acc, n, s)
      end
  | EmptyString => (acc, n, s)
  end.

(** [m * 10^e] *)
Definition scale (m e : Z) : Q :=
  if (0 <=? e)%Z then inject_Z (m * 10 ^ e)
  else m # Z.to_pos (10 ^ (- e)).

Definition number (s : string) : option (json * string) :=
  let '(neg, s) :=
    match s with
    | String "-" r => (true, r)
    | _ => (false, s)
    end in
  let int_part :=
    match s with
    | String "0" r => Some (0%Z, r)
    | _ => match digits 0 0 s with
           | (_, O, _) => None
           | (m, _, r) => Some (m, r)
           end
    end in
  match int_part with
  | None => None
  | Some (m, s) =>
      let frac :=
        match s with
        | String "." r =>
            match digits m 0 r with
            | (_, O, _) => None
            | (m', k, r') => Some (m', Z.of_nat k, r')
            end
        | _ => Some (m, 0%Z, s)
        end in
      match frac with
      | None => None
      | Some (m, k, s) =>
          let expo (r : string) :=
            let '(eneg, r) :=
              match r with
              | String "-" r' => (true, r')
              | String "+" r' => (false, r')
              | _ => (false, r)
              end in
            match digits 0 0 r with
            | (_, O, _) => None
            | (e, _, r') => Some ((if eneg then - e else e)%Z, r')
            end in
          let exponent :=
            match s with
            | String "e" r => expo r
            | String "E" r => expo r
            | _ => Some (0%Z, s)
            end in
          match exponent with
          | None => None
          | Some (e, s) =>
              let q := scale m (e - k) in
              Some (JNumber (if neg then - q else q), s)
          end
      end
  end.

(** The UTF-8 bytes of the code unit [\uXXXX]. *)
Definition utf8 (n : nat) (rest : string) : string :=
  if Nat.ltb n 128 then String (ascii_of_nat n) rest
  else if Nat.ltb n 2048 then
    String (ascii_of_nat (192 + n / 64))
      (String (ascii_of_nat (128 + n mod 64)) rest)
  else
    String (ascii_of_nat (224 + n / 4096))
      (String (ascii_of_nat (128 + (n / 64) mod 64))
         (String (ascii_of_nat (128 + n mod 64)) rest)).

(** The characters of a string literal, after its opening quote. *)
Fixpoint chars (s : string) : option (string * string) :=
  let cons c r :=
    match chars r with
    | Some (t, rest) => Some (String c t, rest)
    | None => None
    end in
  match s with
  | EmptyString => None
  | String c r =>
      if Ascii.eqb c (ascii_of_nat 34) then Some (EmptyString, r)
      else if Ascii.eqb c "\" then
        match r with
        | String e r' =>
            if Ascii.eqb e (ascii_of_nat 34) then cons e r'
            else if Ascii.eqb e "\" then cons e r'
            else if Ascii.eqb e "/" then cons e r'
            else if Ascii.eqb e "b" then cons (ascii_of_nat 8) r'
            else if Ascii.eqb e "f" then cons (ascii_of_nat 12) r'
            else if Ascii.eqb e "n" then cons (ascii_of_nat 10) r'
            else if Ascii.eqb e "r" then cons (ascii_of_nat 13) r'
            else if Ascii.eqb e "t" then cons (ascii_of_nat 9) r'
            else if Ascii.eqb e "u" then
              match r' with
              | String h1 (String h2 (String h3 (String h4 r''))) =>
                  match hex_of h1, hex_of h2, hex_of h3, hex_of h4,
                        chars r'' with
                  | Some a, Some b, Some c', Some d, Some (t, rest) =>
                      Some (utf8 (((a * 16 + b) * 16 + c') * 16 + d) t,
                            rest)
                  | _, _, _, _, _ => None
                  end
              | _ => None
              end
            else None
        | EmptyString => None
        end
      else if Nat.ltb (nat_of_ascii c) 32 then None
      else cons c r
  end.

Definition literal (word : string) (v : json) (s : string)
  : option (json * string) :=
  if startsWith word s
  then Some (v, String.substring (String.length word)
                  (String.length s - String.length word) s)
  else None.

(** White space may follow a value. *)
Definition trailing (r : option (json * string)) : option (json * string) :=
  match r with
  | Some (v, rest) => Some (v, skip_ws rest)
  | None => None
  end.

Fixpoint value (fuel : nat) (s : string) : option (json * string) :=
  match fuel with
  | O => None
  | S fuel =>
      trailing
        match skip_ws s with
        | String "{" r =>
            match skip_ws r with
            | String "}" r' => Some (JObject [], r')
            | r' => match members fuel r' [] with
                    | Some (fs, rest) => Some (JObject fs, rest)
                    | None => None
                    end
            end
        | String "[" r =>
            match skip_ws r with
            | String "]" r' => Some (JArray [], r')
            | r' => match elements fuel r' with
                    | Some (xs, rest) => Some (JArray xs, rest)
                    | None => None
                    end
            end
        | String c r as s' =>
            if Ascii.eqb c (ascii_of_nat 34) then
              match chars r with
              | Some (t, rest) => Some (JString t, rest)
              | None => None
              end
            else if Ascii.eqb c "t" then literal "true" (JBool true) s'
            else if Ascii.eqb c "f" then literal "false" (JBool false) s'
            else if Ascii.eqb c "n" then literal "null" JNull s'
            else number s'
        | EmptyString => None
        end
  end

(** [value (',' value)* ']'] *)
with elements (fuel : nat) (s : string) : option (list json * string) :=
  match fuel with
  | O => None
  | S fuel =>
      match value fuel s with
      | Some (v, String "," r) =>
          match elements fuel r with
          | Some (vs, rest) => Some (v :: vs, rest)
          | None => None
          end
      | Some (v, String "]" r) => Some ([v], r)
      | _ => None
      end
  end

(** [string ':' value (',' string ':' value)* '}'], a later value for a
    key replacing the earlier one. *)
with members (fuel : nat) (s : string) (acc : list (string * json))
  : option (list (string * json) * string) :=
  match fuel with
  | O => None
  | S fuel =>
      match skip_ws s with
      | String q r =>
          if Ascii.eqb q (ascii_of_nat 34) then
            match chars r with
            | Some (key, rest) =>
                match skip_ws rest with
                | String ":" r' =>
                    match value fuel r' with
                    | Some (v, String "," r'') =>
                        members fuel r'' (set key v acc)
                    | Some (v, String "}" r'') =>
                        Some (set key v acc, r'')
                    | _ => None
                    end
                | _ => None
                end
            | None => None
            end
          else None
      | EmptyString => None
      end
  end.

(** The engine's message for a malformed text is not modelled: one
    message stands for all of them. *)
Definition syntaxError : exn := SyntaxError "Unexpected token in JSON".

(** [JSON.parse(text)], with fuel enough for every nesting of [text]. *)
Definition parse (text : string) : result json :=
  match value (2 * String.length text + 2) text with
  | Some (v, EmptyString) => Ok v
  | _ => Throw syntaxError
  end.

End JSON.

Import JSON.

(* ================================================================== *)
(** ** services/weatherService.js *)

Module WeatherService.

Definition apiKey (w : World) : option string := OPENWEATHER_API_KEY w.

(** [!!this.apiKey] *)
Definition isAvailable (w : World) : bool := truthy_ostr (apiKey w).

(** [error.response.data?.message || 'Unknown error'] *)
Definition orUnknown (msg : option string) : string :=
  match msg with
  | Some m => if truthy_str m then m else "Unknown error"
  | None => "Unknown error"
  end.

Definition getForecast (w : World) (lat lon : Q)
  : result (option ForecastData) :=
  if negb (isAvailable w) then
    Throw (Error "OpenWeather API key not configured")
  else
    match openWeather w lat lon with
    | Response data => Ok data
    | StatusError status msg =>
        let message := orUnknown msg in
        if (status =? 401)%Z then
          Throw (Error "Invalid OpenWeather API key")
        else if (status =? 404)%Z then Throw (Error "Location not found")
        else if (status =? 429)%Z then
          Throw (Error "OpenWeather API rate limit exceeded")
        else if (status =? 500)%Z then
          Throw (Error "OpenWeather API server error")
        else Throw (Error ("OpenWeather API error: " ++ message))
    | CodeError code msg =>
        if code =? "ECONNABORTED" then
          Throw (Error "OpenWeather API request timeout")
        else if code =? "ENOTFOUND" then
          Throw (Error "Unable to connect to OpenWeather API")
        else Throw (Error ("Weather service error: " ++ msg))
    | OtherError msg => Throw (Error ("Weather service error: " ++ msg))
    end.

End WeatherService.

(* ================================================================== *)
(** ** services/geminiService.js *)

Module GeminiService.

Import WeatherUtils CropUtils.

Definition apiKey (w : World) : option string := GEMINI_API_KEY w.

(** [!!this.apiKey] *)
Definition isAvailable (w : World) : bool := truthy_ostr (apiKey w).

(** The [metadata] the parser attaches. *)
Record Metadata : Type := {
  generated_at : string;
  source : string;
  weather_data : ForecastSummary;
  additional_data : AdditionalData;
  prompt_version : string
}.

(** The parsed object: its properties other than [metadata], and the
    [metadata] that replaces whatever the text had under that key. *)
Record Advice : Type := {
  fields : list (string * json);
  metadata : Metadata
}.

Definition requiredFields : list string :=
  ["forecast_summary"; "season"; "crop"; "actions"; "warnings";
   "productivity_tips"].

Definition noJsonFound : exn := Error "No JSON found in AI response".

Definition missingFields (missing : list string) : exn :=
  Error ("Missing required fields in AI response: " ++ join ", " missing).

(** Reading a property of [null]. *)
Definition nullTypeError : exn :=
  TypeError "Cannot read properties of null (reading 'forecast_summary')".

(** [if (!Array.isArray(advice[key])) advice[key] = [];] *)
Definition ensureArray (key : string) (fields : list (string * json))
  : list (string * json) :=
  match JS.assoc key fields with
  | Some (JArray _) => fields
  | _ => JSON.set key (JArray []) fields
  end.

(** Validate the structure, normalise the arrays, add the metadata. *)
Definition validateStructure (w : World) (advice : json)
    (forecastSummary : ForecastSummary) (additionalData : AdditionalData)
  : result Advice :=
  match advice with
  | JNull => Throw nullTypeError
  | JObject fields =>
      let missing :=
        filter (fun field => negb (truthy_opt (JS.assoc field fields)))
               requiredFields in
      if Nat.ltb 0 (List.length missing) then
        Throw (missingFields missing)
      else
        (* Ensure arrays are actually arrays *)
        let fields := ensureArray "actions" fields in
        let fields := ensureArray "warnings" fields in
        let fields := ensureArray "productivity_tips" fields in
        (* Add metadata *)
        Ok {| fields := JSON.remove "metadata" fields;
              metadata :=
                {| generated_at := now w;
                   source := "gemini_ai";
                   weather_data := forecastSummary;
                   additional_data := additionalData;
                   prompt_version := "2.0" |} |}
  | _ =>
      (* a number, string, boolean or array has none of the fields *)
      Throw (missingFields requiredFields)
  end.

(** The body of the [try] block of [parseAIResponse]. *)
Definition parseAIResponse_try (w : World) (aiResponse : string)
    (forecastSummary : ForecastSummary) (season cropType : string)
    (additionalData : AdditionalData) : result Advice :=
  (* Try to extract JSON from the response *)
  let jsonStart := indexOf "{" aiResponse in
  let jsonEnd := lastIndexOf "}" aiResponse in
  match jsonStart, jsonEnd with
  | Some jsonStart, Some jsonEnd =>
      let jsonString := JS.substring jsonStart (jsonEnd + 1) aiResponse in
      advice <- JSON.parse jsonString ;;
      validateStructure w advice forecastSummary additionalData
  | _, _ => Throw noJsonFound
  end.

Definition parseAIResponse (w : World) (aiResponse : string)
    (forecastSummary : ForecastSummary) (season cropType : string)
    (additionalData : AdditionalData) : result Advice :=
  try_catch
    (parseAIResponse_try w aiResponse forecastSummary season cropType
       additionalData)
    (fun parseError =>
       Throw (Error ("Failed to parse AI response: "
                       ++ JS.message parseError))).

(** The prompt is built from the context and sent; the answer of the
    service is whatever the world holds ([Env.gemini]). *)
Definition generateAdvice (w : World) (forecastSummary : ForecastSummary)
    (season cropType : string) (additionalData : AdditionalData)
  : result Advice :=
  if negb (isAvailable w) then
    Throw (Error "Gemini API key not configured")
  else
    match gemini w with
    | Response aiResponse =>
        try_catch
          (match aiResponse with
           | Some text =>
               if truthy_str text then
                 parseAIResponse w text forecastSummary season cropType
                   additionalData
               else Throw (Error "Invalid response format from Gemini API")
           | None => Throw (Error "Invalid response format from Gemini API")
           end)
          (fun error =>
             Throw (Error ("Gemini service error: "
                             ++ JS.message error)))
    | StatusError status msg =>
        let message := WeatherService.orUnknown msg in
        if (status =? 400)%Z then
          Throw (Error ("Gemini API request error: " ++ message))
        else if (status =? 401)%Z then
          Throw (Error "Invalid Gemini API key")
        else if (status =? 403)%Z then
          Throw (Error "Gemini API access denied")
        else if (status =? 429)%Z then
          Throw (Error "Gemini API rate limit exceeded")
        else if (status =? 500)%Z then
          Throw (Error "Gemini API server error")
        else Throw (Error ("Gemini API error: " ++ message))
    | CodeError code msg =>
        if code =? "ECONNABORTED" then
          Throw (Error "Gemini API request timeout")
        else Throw (Error ("Gemini service error: " ++ msg))
    | OtherError msg => Throw (Error ("Gemini service error: " ++ msg))
    end.

End GeminiService.

(* ================================================================== *)
(** ** services/adviceService.js *)

Module AdviceService.

Import WeatherUtils CropUtils.

(** The request: every property may be missing. *)
Record Options : Type := {
  opt_lat : option Q;
  opt_lon : option Q;
  opt_crop : option string;
  opt_soilPh : option Q;
  opt_growthState : option string;
  opt_variety : option string;
  opt_useAI : option bool
}.

(** The final [metadata]: the generator's own properties when the advice
    came from it ([...advice.metadata]), then the ones stamped here. *)
Record Metadata : Type := {
  source : option string;
  weather_data : option ForecastSummary;
  prompt_version : option string;
  generated_at : string;
  location : Q * Q;
  season_info : SeasonInfo;
  weather_service_available : bool;
  ai_service_available : bool;
  advice_source : string;
  additional_data : AdditionalData;
  api_version : string
}.

(** The advice object, from the rule table or from the generator. *)
Inductive Body : Type :=
| RuleBased (advice : CropUtils.Advice)
| Generated (fields : list (string * json)).

Record Advice : Type := {
  body : Body;
  metadata : Metadata
}.

Definition validateAndSetCoordinates (lat lon : option Q)
  : result (Q * Q) :=
  match lat, lon with
  | Some la, Some lo =>
      if (truthy_num la && truthy_num lo)%bool then
        if negb (validateCoordinates la lo) then
          Throw (Error "Invalid coordinates provided")
        else Ok (la, lo)
      else
        (* Use default coordinates (Kigali, Rwanda) *)
        Ok getDefaultCoordinates
  | _, _ => Ok getDefaultCoordinates
  end.

Definition validGrowthStates : list string :=
  ["germination"; "vegetative"; "flowering"; "fruiting"].

Definition validateAdditionalData (options : Options)
  : result AdditionalData :=
  (* Validate soil pH *)
  soilPh <-
    match opt_soilPh options with
    | Some ph =>
        if (Qltb ph 4 || Qgtb ph (85 # 10))%bool then
          Throw (Error "Soil pH must be a number between 4.0 and 8.5")
        else Ok (Some ph)
    | None => Ok None
    end ;;
  (* Validate growth state *)
  growthState <-
    match opt_growthState options with
    | Some g =>
        if truthy_str g then
          if negb (includes validGrowthStates (toLowerCase g)) then
            Throw (Error ("Invalid growth state. Must be one of: "
                            ++ join ", " validGrowthStates))
          else Ok (Some (toLowerCase g))
        else Ok None
    | None => Ok None
    end ;;
  (* Validate variety *)
  variety <-
    match opt_variety options with
    | Some v =>
        if truthy_str v then
          if negb (truthy_str (trim v)) then
            Throw (Error "Variety must be a non-empty string")
          else Ok (Some (trim v))
        else Ok None
    | None => Ok None
    end ;;
  Ok {| soilPh := soilPh; growthState := growthState;
        variety := variety |}.

(** The summary that stands in when the weather service fails. *)
Definition basicForecastSummary (lat lon : Q) : ForecastSummary :=
  {| totalRainfall := 0;
     maxTemperature := Finite 25;
     minTemperature := Finite 15;
     maxWindSpeed := 10;
     rainHours := 0;
     heavyRainHours := 0;
     windHours := 0;
     conditions := ["unknown"];
     forecastPeriod := "48 hours";
     WeatherUtils.location :=
       {| lat := lat; lon := lon; name := "Unknown" |};
     WeatherUtils.warnings := None |}.

(** [forecastSummary.warnings = weatherWarnings] *)
Definition setWarnings (ws : list string) (s : ForecastSummary)
  : ForecastSummary :=
  {| totalRainfall := totalRainfall s;
     maxTemperature := maxTemperature s;
     minTemperature := minTemperature s;
     maxWindSpeed := maxWindSpeed s;
     rainHours := rainHours s;
     heavyRainHours := heavyRainHours s;
     windHours := windHours s;
     conditions := conditions s;
     forecastPeriod := forecastPeriod s;
     WeatherUtils.location := WeatherUtils.location s;
     WeatherUtils.warnings := Some ws |}.

(** Fetch weather forecast: the inner [try]/[catch], which leaves the
    summary and the weather warnings. *)
Definition fetchForecast (w : World) (lat lon : Q)
  : ForecastSummary * list string :=
  let weatherWarnings := [] in
  let attempt :=
    forecastData <- WeatherService.getForecast w lat lon ;;
    forecastSummary <- summarizeForecast forecastData ;;
    Ok (forecastSummary, generateWeatherWarnings forecastSummary) in
  match attempt with
  | Ok r => r
  | Throw weatherError =>
      (* Create a basic forecast summary if weather service fails *)
      (basicForecastSummary lat lon, weatherWarnings)
  end.

(** [advice.warnings = [...weatherWarnings, ...advice.warnings]] *)
Definition prependWarnings (weatherWarnings : list string)
    (fields : list (string * json)) : list (string * json) :=
  match JS.assoc "warnings" fields with
  | Some (JArray ws) =>
      JSON.set "warnings" (JArray (map JString weatherWarnings ++ ws))
               fields
  | _ => fields
  end.

(** [options.useAI !== false && this.geminiService.isAvailable()] *)
Definition useAI (w : World) (options : Options) : bool :=
  (negb match opt_useAI options with
        | Some false => true
        | _ => false
        end
   && GeminiService.isAvailable w)%bool.

(** Add metadata: [{ ...advice.metadata, generated_at, ... }], where
    [generated] is the metadata the advice came with, if any. *)
Definition stamp (w : World) (options : Options) (lat lon : Q)
    (seasonInfo : SeasonInfo) (additionalData : AdditionalData)
    (generated : option GeminiService.Metadata) : Metadata :=
  {| source := option_map GeminiService.source generated;
     weather_data := option_map GeminiService.weather_data generated;
     prompt_version := option_map GeminiService.prompt_version generated;
     generated_at := now w;
     location := (lat, lon);
     season_info := seasonInfo;
     weather_service_available := WeatherService.isAvailable w;
     ai_service_available := GeminiService.isAvailable w;
     advice_source :=
       if useAI w options then "gemini_ai" else "basic_seasonal";
     additional_data := additionalData;
     api_version := "1.0.0" |}.

(** The second half of the [try] block of [generateAdvice], once the
    request is validated: season, forecast, advice, metadata. *)
Definition synthesize (w : World) (options : Options) (lat lon : Q)
    (cropType : string) (additionalData : AdditionalData)
  : result Advice :=
  (* Detect current season *)
  let seasonInfo := detectCurrentSeason w in
  (* Fetch weather forecast *)
  let '(forecastSummary, weatherWarnings) := fetchForecast w lat lon in
  (* Add weather warnings to forecast summary *)
  let forecastSummary := setWarnings weatherWarnings forecastSummary in
  (* Generate advice using AI or fallback *)
  let metadata := stamp w options lat lon seasonInfo additionalData in
  let basic :=
    advice <- generateBasicSeasonalAdvice cropType
                (WeatherUtils.season seasonInfo) forecastSummary
                additionalData ;;
    Ok {| body := RuleBased advice; metadata := metadata None |} in
  if useAI w options then
    match GeminiService.generateAdvice w forecastSummary
            (WeatherUtils.season seasonInfo) cropType additionalData with
    | Ok advice =>
        (* Add weather warnings to AI advice *)
        let fields :=
          if Nat.ltb 0 (List.length weatherWarnings)
          then prependWarnings weatherWarnings
                 (GeminiService.fields advice)
          else GeminiService.fields advice in
        Ok {| body := Generated fields;
              metadata := metadata (Some (GeminiService.metadata advice)) |}
    | Throw aiError =>
        (* Fallback to basic advice *)
        basic
    end
  else
    (* Use basic seasonal advice *)
    basic.

(** The body of the [try] block of [generateAdvice]. *)
Definition generateAdvice_try (w : World) (options : Options)
  : result Advice :=
  (* Validate and set default coordinates *)
  coords <- validateAndSetCoordinates (opt_lat options) (opt_lon options) ;;
  let '(lat, lon) := coords in
  (* Validate crop type *)
  if negb (truthy_ostr (opt_crop options)) then
    Throw (Error "Crop type is required")
  else
  let cropType :=
    toLowerCase match opt_crop options with
                | Some c => c
                | None => EmptyString
                end in
  if negb (validateCropType cropType) then
    Throw (Error ("Unsupported crop type: " ++ cropType
             ++ ". Supported crops: maize, beans, potatoes, bananas"))
  else
  (* Validate additional fields *)
  additionalData <- validateAdditionalData options ;;
  synthesize w options lat lon cropType additionalData.

Definition generateAdvice (w : World) (options : Options)
  : result Advice :=
  try_catch (generateAdvice_try w options)
    (fun error =>
       Throw (Error ("Failed to generate advice: " ++ JS.message error))).

Definition getAvailableCrops : list string :=
  ["maize"; "beans"; "potatoes"; "bananas"].

Definition getCropVarieties (cropType : string)
  : result (list (string * Config.Variety)) :=
  if negb (validateCropType cropType) then
    Throw (Error ("Unsupported crop type: " ++ cropType))
  else CropUtils.getCropVarieties cropType.

Definition getGrowthStates : list string :=
  ["germination"; "vegetative"; "flowering"; "fruiting"].

Definition getCurrentSeason (w : World) : SeasonInfo :=
  detectCurrentSeason w.

(** The forecast [getBasicAdvice] works with; it has no [warnings]. *)
Definition basicForecast : ForecastSummary :=
  {| totalRainfall := 0;
     maxTemperature := Finite 25;
     minTemperature := Finite 15;
     maxWindSpeed := 10;
     rainHours := 0;
     heavyRainHours := 0;
     windHours := 0;
     conditions := ["unknown"];
     forecastPeriod := "48 hours";
     WeatherUtils.location :=
       {| lat := - (19441 # 10000); lon := 300619 # 10000;
          name := "Kigali, Rwanda" |};
     WeatherUtils.warnings := None |}.

(** Get basic advice without external API calls; the additional data
    are passed on as they come. *)
Definition getBasicAdvice (w : World) (cropType : string)
    (additionalData : AdditionalData) : result CropUtils.Advice :=
  if negb (validateCropType cropType) then
    Throw (Error ("Unsupported crop type: " ++ cropType))
  else
    let seasonInfo := detectCurrentSeason w in
    generateBasicSeasonalAdvice cropType (WeatherUtils.season seasonInfo)
      basicForecast additionalData.

End AdviceService.

(* ================================================================== *)
(** ** Observations used in the statements *)

Module Observe.

Import WeatherUtils CropUtils.

(** The five kinds of weather warning, in the order of emission. *)
Inductive WarningKind : Type :=
| TemperatureHigh
| TemperatureLow
| Wind
| HeavyRain
| NoRain.

Definition rank (k : WarningKind) : nat :=
  match k with
  | TemperatureHigh => 0
  | TemperatureLow => 1
  | Wind => 2
  | HeavyRain => 3
  | NoRain => 4
  end.

Definition kind_eqb (a b : WarningKind) : bool := Nat.eqb (rank a) (rank b).

(** The kind of a warning, read off the fixed text it opens with. *)
Definition kindOf (warning : string) : option WarningKind :=
  if startsWith "High temperature warning: " warning
  then Some TemperatureHigh
  else if startsWith "Low temperature warning: " warning
  then Some TemperatureLow
  else if startsWith "Dangerous wind conditions: " warning
  then Some Wind
  else if startsWith "Wind warning: " warning then Some Wind
  else if startsWith "Heavy rainfall expected: " warning
  then Some HeavyRain
  else if String.eqb warning noRainWarning then Some NoRain
  else None.

(** How many warnings of a kind a list holds. *)
Definition countKind (k : WarningKind) (ws : list string) : nat :=
  List.length
    (filter (fun w => match kindOf w with
                      | Some k' => kind_eqb k k'
                      | None => false
                      end) ws).

(** The ranks of the warnings of a list, in order. *)
Definition ranks (ws : list string) : list (option nat) :=
  map (fun w => option_map rank (kindOf w)) ws.

(** The warnings as the specification lists them: one optional warning
    per check, in the order temperature-high, temperature-low, wind
    (danger, else warning), heavy-rain, no-rain. *)
Definition warningsInOrder (fs : ForecastSummary) : list string :=
  let high :=
    if x_gt (maxTemperature fs) 35
    then [highTemperatureWarning (maxTemperature fs)] else [] in
  let low :=
    if x_lt (minTemperature fs) 10
    then [lowTemperatureWarning (minTemperature fs)] else [] in
  let wind :=
    if Qgeb (maxWindSpeed fs) 40
    then [dangerousWindWarning (maxWindSpeed fs)]
    else if Qgeb (maxWindSpeed fs) 20
    then [windWarning (maxWindSpeed fs)] else [] in
  let heavy :=
    if Nat.ltb 0 (heavyRainHours fs)
    then [heavyRainWarning (heavyRainHours fs)] else [] in
  let norain :=
    if (Qeqb (totalRainfall fs) 0 && Nat.eqb (rainHours fs) 0)%bool
    then [noRainWarning] else [] in
  (high ++ low ++ wind ++ heavy ++ norain)%list.

(** Strictly increasing ranks from [bound] on: the warnings come in the
    fixed order and no kind comes twice. *)
Fixpoint increasing (bound : nat) (rs : list (option nat)) : bool :=
  match rs with
  | [] => true
  | Some r :: rest => (Nat.leb bound r && increasing (S r) rest)%bool
  | None :: _ => false
  end.

(** The precipitation of the intervals that report one. *)
Definition precipitation (p : ForecastPoint) : list Q :=
  match rain3h p with
  | Some r => [r]
  | None => []
  end.

Definition precipitations (points : list ForecastPoint) : list Q :=
  flat_map precipitation points.

Definition Qsum (qs : list Q) : Q := fold_right Qplus 0 qs.

Definition count (f : Q -> bool) (qs : list Q) : nat :=
  List.length (filter f qs).

(** The six bands of [config.soilPhCategories], from their [range]. *)
Definition bands : list (Q * Q * Config.SoilPhCategory) :=
  [ (4, 5, Config.soilPhCategories.very_acidic);
    (51 # 10, 6, Config.soilPhCategories.acidic);
    (61 # 10, 65 # 10, Config.soilPhCategories.slightly_acidic);
    (66 # 10, 73 # 10, Config.soilPhCategories.neutral);
    (74 # 10, 78 # 10, Config.soilPhCategories.slightly_alkaline);
    (79 # 10, 85 # 10, Config.soilPhCategories.alkaline) ].

Definition inBand (ph : Q) (band : Q * Q * Config.SoilPhCategory) : Prop :=
  fst (fst band) <= ph /\ ph <= snd (fst band).

(** A payload without forecast points: absent, without a list, or with
    an empty one. *)
Definition noPoints (d : option ForecastData) : Prop :=
  match d with
  | Some data =>
      match data_list data with
      | Some (_ :: _) => False
      | _ => True
      end
  | None => True
  end.

(** A payload without a location descriptor. *)
Definition noLocation (d : option ForecastData) : Prop :=
  match d with
  | Some data => city data = None
  | None => True
  end.

(** What every step of the advisor leaves alone: the forecast
    narrative, the season and the crop of the advice, and the actions
    already there. *)
Definition grows (a b : Advice) : Prop :=
  forecast_summary b = forecast_summary a
  /\ season b = season a /\ crop b = crop a
  /\ (List.length (actions a) <= List.length (actions b))%nat.

(** The three narrative fields. *)
Definition narratives (a : Advice) : string * string * string :=
  (soil_ph_analysis a, growth_stage_advice a, variety_specific_tips a).

(** No warning of the advice is one of the weather generator's. *)
Definition quiet (ws : list string) : Prop :=
  Forall (fun x => kindOf x = None) ws.

Definition fourSeasons : list string :=
  ["shortDry"; "longRains"; "longDry"; "shortRains"].

Definition fourCrops : list string :=
  ["maize"; "beans"; "potatoes"; "bananas"].


(** Whether the advice carries a forecast narrative. *)
Definition narrativePopulated (advice : AdviceService.Advice) : bool :=
  match AdviceService.body advice with
  | AdviceService.RuleBased a => truthy_str (forecast_summary a)
  | AdviceService.Generated fields =>
      truthy_opt (JS.assoc "forecast_summary" fields)
  end.

(** The number of a month, from its English name. *)
Definition monthNumber (name : string) : option Z :=
  let names :=
    [ ("January", 1%Z); ("February", 2%Z); ("March", 3%Z); ("April", 4%Z);
      ("May", 5%Z); ("June", 6%Z); ("July", 7%Z); ("August", 8%Z);
      ("September", 9%Z); ("October", 10%Z); ("November", 11%Z);
      ("December", 12%Z) ] in
  JS.assoc name names.


(** The wind speeds of the intervals that report one. *)
Definition windSpeeds (points : list ForecastPoint) : list Q :=
  flat_map (fun p => match wind_speed p with
                     | Some v => [v]
                     | None => []
                     end) points.

(** How many of the three weather checks of the advisor fire. *)
Definition weatherTriggers (fs : ForecastSummary) : nat :=
  ((if Qeqb (totalRainfall fs) 0 then 1 else 0)
   + (if Nat.ltb 0 (heavyRainHours fs) then 1 else 0)
   + (if Qgeb (maxWindSpeed fs) 20 then 1 else 0))%nat.

(** The values a parsed answer has under the three list fields. *)
Definition isArray (o : option json) : bool :=
  match o with
  | Some (JArray _) => true
  | _ => false
  end.


(** The same world with another answer of the advice generator. *)
Definition withGemini (answer : Http (option string)) (w : World) : World :=
  {| OPENWEATHER_API_KEY := OPENWEATHER_API_KEY w;
     GEMINI_API_KEY := GEMINI_API_KEY w;
     month := month w;
     now := now w;
     openWeather := openWeather w;
     gemini := answer |}.

(** The rain amounts the loop adds up: those that are not zero. *)
Definition rainAmounts (points : list ForecastPoint) : list Q :=
  filter truthy_num (precipitations points).

(** The sum of a list as the loop computes it: in doubles, from the
    left. *)
Definition runningSum (qs : list Q) : Q := fold_left Double.add qs 0.


(** A whole number of at most 40 bits. *)
Definition smallWhole (q : Q) : Prop :=
  exists n : Z, q == inject_Z n /\ (Z.abs n <= 2 ^ 40)%Z.

(** An amount the doubles have room for, sixteen times over. *)
Definition inRange (q : Q) : Prop := Qabs q <= 2 ^ 1000.

(** The forecast of a request cannot be had: the provider call fails, or
    its payload cannot be summarized. *)
Definition forecastFails (w : World) (lat lon : Q) : Prop :=
  (exists e, WeatherService.getForecast w lat lon = Throw e)
  \/ (exists d e,
        WeatherService.getForecast w lat lon = Ok d
        /\ WeatherUtils.summarizeForecast d = Throw e).

End Observe.

Import Observe.

(* ================================================================== *)
(** ** Sample inputs *)

Module Examples.

Import WeatherUtils CropUtils AdviceService.

Definition kigali : City :=
  {| coord_lat := Config.defaultLat; coord_lon := Config.defaultLon;
     city_name := "Kigali" |}.

(** A payload whose list is empty, with a location. *)
Definition emptyPayload : option ForecastData :=
  Some {| data_list := Some []; city := Some kigali |}.

(** A hot, dry and windy forecast. *)
Definition hotAndDry : ForecastSummary :=
  {| totalRainfall := 0;
     maxTemperature := Finite 36;
     minTemperature := Finite 18;
     maxWindSpeed := 45;
     rainHours := 0;
     heavyRainHours := 0;
     windHours := 3;
     conditions := ["wind"; "high_temperature"];
     forecastPeriod := "48 hours";
     WeatherUtils.location :=
       {| lat := Config.defaultLat; lon := Config.defaultLon;
          name := "Kigali" |};
     WeatherUtils.warnings := None |}.

Definition point (rain : Q) : ForecastPoint :=
  {| main_temp := 293; rain3h := Some rain; wind_speed := Some 2;
     weather := [] |}.

Definition showers : ForecastData :=
  {| data_list := Some [point 0; point 20; point 0; point 0];
     city := Some kigali |}.

Definition calm : ForecastSummary :=
  {| totalRainfall := 12;
     maxTemperature := Finite 27;
     minTemperature := Finite 16;
     maxWindSpeed := 9;
     rainHours := 4;
     heavyRainHours := 0;
     windHours := 0;
     conditions := ["rain"];
     forecastPeriod := "48 hours";
     WeatherUtils.location :=
       {| lat := Config.defaultLat; lon := Config.defaultLon;
          name := "Kigali" |};
     WeatherUtils.warnings := Some [] |}.

Definition dq : string := String (ascii_of_nat 34) EmptyString.

Definition quoted (s : string) : string := dq ++ s ++ dq.

(** [noise {"forecast_summary":"x","season":"longDry","crop":"maize",
    "actions":[],"warnings":[],"productivity_tips":[]} trailing] *)
Definition noisyAnswer : string :=
  "noise {" ++ quoted "forecast_summary" ++ ":" ++ quoted "x" ++ ","
    ++ quoted "season" ++ ":" ++ quoted "longDry" ++ ","
    ++ quoted "crop" ++ ":" ++ quoted "maize" ++ ","
    ++ quoted "actions" ++ ":[],"
    ++ quoted "warnings" ++ ":[],"
    ++ quoted "productivity_tips" ++ ":[]} trailing".


Definition anyWorld : World :=
  {| OPENWEATHER_API_KEY := None;
     GEMINI_API_KEY := Some "key";
     month := 7;
     now := "2025-07-01T08:00:00.000Z";
     openWeather := fun _ _ => OtherError "connect ECONNREFUSED";
     gemini := Response (Some noisyAnswer) |}.

(** A request for maize advice at the default location. *)
Definition maizeRequest : Options :=
  {| opt_lat := None; opt_lon := None; opt_crop := Some "maize";
     opt_soilPh := None; opt_growthState := None; opt_variety := None;
     opt_useAI := None |}.

(** A world whose generator is configured and answers with prose. *)
Definition proseWorld : World :=
  {| OPENWEATHER_API_KEY := None;
     GEMINI_API_KEY := Some "key";
     month := 7;
     now := "2025-07-01T08:00:00.000Z";
     openWeather := fun _ _ => OtherError "connect ECONNREFUSED";
     gemini := Response (Some "Plant early and water well.") |}.

(** A world whose weather service is configured and times out. *)
Definition timeoutWorld : World :=
  {| OPENWEATHER_API_KEY := Some "key";
     GEMINI_API_KEY := None;
     month := 7;
     now := "2025-07-01T08:00:00.000Z";
     openWeather :=
       fun _ _ => CodeError "ECONNABORTED" "timeout of 10000ms exceeded";
     gemini := OtherError "connect ECONNREFUSED" |}.

(** A world without any API key: both services fail. *)
Definition offlineWorld : World :=
  {| OPENWEATHER_API_KEY := None;
     GEMINI_API_KEY := None;
     month := 11;
     now := "2025-11-03T06:30:00.000Z";
     openWeather := fun _ _ => OtherError "connect ECONNREFUSED";
     gemini := OtherError "connect ECONNREFUSED" |}.

(** One interval with a gale of 25 m/s. *)
Definition windyPoint : ForecastPoint :=
  {| main_temp := 300; rain3h := None; wind_speed := Some 25;
     weather := [] |}.

Definition gale : ForecastData :=
  {| data_list := Some [windyPoint]; city := Some kigali |}.

(** Two intervals with 0.05 and 2.3 mm of rain. *)
Definition drizzle : ForecastData :=
  {| data_list := Some [point (5 # 100); point (23 # 10)];
     city := Some kigali |}.

(** One interval with a negative amount. *)
Definition negativeReading : ForecastData :=
  {| data_list := Some [point (-1)]; city := Some kigali |}.

(** A world whose weather service is configured and answers with a
    payload that has no point list. *)
Definition badPayloadWorld : World :=
  {| OPENWEATHER_API_KEY := Some "key";
     GEMINI_API_KEY := None;
     month := 7;
     now := "2025-07-01T08:00:00.000Z";
     openWeather :=
       fun _ _ => Response (Some {| data_list := None; city := None |});
     gemini := OtherError "connect ECONNREFUSED" |}.

(** A world where both services are configured and answer. *)
Definition onlineWorld : World :=
  {| OPENWEATHER_API_KEY := Some "key";
     GEMINI_API_KEY := Some "key";
     month := 4;
     now := "2025-04-12T09:15:00.000Z";
     openWeather := fun _ _ => Response (Some gale);
     gemini := Response (Some noisyAnswer) |}.

(** The maize request with the generator switched off. *)
Definition plainRequest : Options :=
  {| opt_lat := None; opt_lon := None; opt_crop := Some "maize";
     opt_soilPh := None; opt_growthState := None; opt_variety := None;
     opt_useAI := Some false |}.

(** A request for a crop the table does not have. *)
Definition riceRequest : Options :=
  {| opt_lat := Some (-2); opt_lon := Some 30; opt_crop := Some "Rice";
     opt_soilPh := None; opt_growthState := None; opt_variety := None;
     opt_useAI := None |}.

End Examples.

Import Examples.

Section WeatherWarnings.

Import WeatherUtils Observe.

(** The pushes of [generateWeatherWarnings] leave five segments, each
    empty or one warning long, in the order of the checks. *)
Lemma generateWeatherWarnings_segments fs :
  generateWeatherWarnings fs = warningsInOrder fs.
Proof.
  unfold generateWeatherWarnings, warningsInOrder, push.
  change Config.weatherThresholds.temperature.max with 35.
  change Config.weatherThresholds.temperature.min with 10.
  change Config.weatherThresholds.windSpeed.danger with 40.
  change Config.weatherThresholds.windSpeed.warning with 20.
  destruct (x_gt (maxTemperature fs) 35);
    destruct (x_lt (minTemperature fs) 10);
    destruct (Qgeb (maxWindSpeed fs) 40);
    destruct (Qgeb (maxWindSpeed fs) 20);
    destruct (Nat.ltb 0 (heavyRainHours fs));
    destruct (Qeqb (totalRainfall fs) 0 && Nat.eqb (rainHours fs) 0)%bool;
    reflexivity.
Qed.

End WeatherWarnings.

Section WarningKinds.

Import WeatherUtils Observe.

Lemma kindOf_high t : kindOf (highTemperatureWarning t) = Some TemperatureHigh.
Proof. reflexivity. Qed.

Lemma kindOf_low t : kindOf (lowTemperatureWarning t) = Some TemperatureLow.
Proof. reflexivity. Qed.

Lemma kindOf_danger v : kindOf (dangerousWindWarning v) = Some Wind.
Proof. reflexivity. Qed.

Lemma kindOf_wind v : kindOf (windWarning v) = Some Wind.
Proof. reflexivity. Qed.

Lemma kindOf_heavy n : kindOf (heavyRainWarning n) = Some HeavyRain.
Proof. reflexivity. Qed.

Lemma kindOf_norain : kindOf noRainWarning = Some NoRain.
Proof. reflexivity. Qed.

End WarningKinds.

Section WarningOrder.

Import WeatherUtils Observe.

Variable fs : ForecastSummary.

Lemma In_optional (b : bool) (m x : string) :
  In x (if b then [m] else []) <-> b = true /\ m = x.
Proof.
  destruct b; simpl; intuition congruence.
Qed.

Lemma In_wind_segment (x : string) :
  In x (if Qgeb (maxWindSpeed fs) 40
        then [dangerousWindWarning (maxWindSpeed fs)]
        else if Qgeb (maxWindSpeed fs) 20
        then [windWarning (maxWindSpeed fs)] else [])
  <-> (Qgeb (maxWindSpeed fs) 40 = true
       /\ dangerousWindWarning (maxWindSpeed fs) = x)
      \/ (Qgeb (maxWindSpeed fs) 40 = false
          /\ Qgeb (maxWindSpeed fs) 20 = true
          /\ windWarning (maxWindSpeed fs) = x).
Proof.
  destruct (Qgeb (maxWindSpeed fs) 40), (Qgeb (maxWindSpeed fs) 20);
    simpl; intuition congruence.
Qed.

(** Membership in the result, check by check. *)
Lemma In_generateWeatherWarnings (x : string) :
  In x (generateWeatherWarnings fs) <->
    (x_gt (maxTemperature fs) 35 = true
     /\ highTemperatureWarning (maxTemperature fs) = x)
    \/ (x_lt (minTemperature fs) 10 = true
        /\ lowTemperatureWarning (minTemperature fs) = x)
    \/ ((Qgeb (maxWindSpeed fs) 40 = true
         /\ dangerousWindWarning (maxWindSpeed fs) = x)
        \/ (Qgeb (maxWindSpeed fs) 40 = false
            /\ Qgeb (maxWindSpeed fs) 20 = true
            /\ windWarning (maxWindSpeed fs) = x))
    \/ (Nat.ltb 0 (heavyRainHours fs) = true
        /\ heavyRainWarning (heavyRainHours fs) = x)
    \/ ((Qeqb (totalRainfall fs) 0 && Nat.eqb (rainHours fs) 0)%bool = true
        /\ noRainWarning = x).
Proof.
  rewrite generateWeatherWarnings_segments. unfold warningsInOrder.
  cbv zeta. rewrite !in_app_iff, !In_optional, In_wind_segment.
  reflexivity.
Qed.

Lemma ranks_in_order :
  increasing 0 (ranks (generateWeatherWarnings fs)) = true.
Proof.
  rewrite generateWeatherWarnings_segments. unfold warningsInOrder, ranks.
  destruct (x_gt (maxTemperature fs) 35);
    destruct (x_lt (minTemperature fs) 10);
    destruct (Qgeb (maxWindSpeed fs) 40);
    destruct (Qgeb (maxWindSpeed fs) 20);
    destruct (Nat.ltb 0 (heavyRainHours fs));
    destruct (Qeqb (totalRainfall fs) 0 && Nat.eqb (rainHours fs) 0)%bool;
    reflexivity.
Qed.

Lemma countKind_generateWeatherWarnings (k : WarningKind) :
  countKind k (generateWeatherWarnings fs) =
    match k with
    | TemperatureHigh => if x_gt (maxTemperature fs) 35 then 1 else 0
    | TemperatureLow => if x_lt (minTemperature fs) 10 then 1 else 0
    | Wind => if Qgeb (maxWindSpeed fs) 40 then 1
              else if Qgeb (maxWindSpeed fs) 20 then 1 else 0
    | HeavyRain => if Nat.ltb 0 (heavyRainHours fs) then 1 else 0
    | NoRain =>
        if (Qeqb (totalRainfall fs) 0 && Nat.eqb (rainHours fs) 0)%bool
        then 1 else 0
    end%nat.
Proof.
  rewrite generateWeatherWarnings_segments.
  unfold warningsInOrder, countKind.
  destruct k;
    destruct (x_gt (maxTemperature fs) 35);
    destruct (x_lt (minTemperature fs) 10);
    destruct (Qgeb (maxWindSpeed fs) 40);
    destruct (Qgeb (maxWindSpeed fs) 20);
    destruct (Nat.ltb 0 (heavyRainHours fs));
    destruct (Qeqb (totalRainfall fs) 0 && Nat.eqb (rainHours fs) 0)%bool;
    reflexivity.
Qed.

Lemma noRain_iff :
  In noRainWarning (generateWeatherWarnings fs) <->
    totalRainfall fs == 0 /\ rainHours fs = 0%nat.
Proof.
  rewrite In_generateWeatherWarnings. split.
  - intros [[_ H] | [[_ H] | [[[_ H] | (_ & _ & H)] | [[_ H] | [H _]]]]];
      try (apply (f_equal kindOf) in H; discriminate H).
    apply andb_true_iff in H. destruct H as [Hq Hn].
    split; [apply Qeq_bool_iff, Hq | apply Nat.eqb_eq, Hn].
  - intros [Hq Hn]. do 4 right. split; [| reflexivity].
    apply andb_true_iff. split;
      [apply Qeq_bool_iff, Hq | apply Nat.eqb_eq, Hn].
Qed.

End WarningOrder.

(* ================================================================== *)
(** ** Double-precision arithmetic *)

Section Powers.

Lemma pow2_pos (e : Z) : 0 < 2 ^ e.
Proof. apply Qpower_0_lt. reflexivity. Qed.

Lemma pow2_le (a b : Z) : (a <= b)%Z -> 2 ^ a <= 2 ^ b.
Proof. intros H. apply Qpower_le_compat_l; [exact H | discriminate]. Qed.

Lemma pow2_lt (a b : Z) : (a < b)%Z -> 2 ^ a < 2 ^ b.
Proof. intros H. apply Qpower_lt_compat_l; [exact H | reflexivity]. Qed.

Lemma pow2_plus (a b : Z) : 2 ^ (a + b) == 2 ^ a * 2 ^ b.
Proof. apply Qpower_plus. discriminate. Qed.

Lemma pow2_succ (e : Z) : 2 ^ (e + 1) == 2 * 2 ^ e.
Proof. rewrite pow2_plus. change (2 ^ 1) with 2. ring. Qed.

Lemma pow2_Z (k : Z) : (0 <= k)%Z -> inject_Z (2 ^ k) == 2 ^ k.
Proof. intros H. apply (Zpower_Qpower 2 k H). Qed.

Lemma pow2_plus_minus (a b : Z) : 2 ^ (a - b) == 2 ^ a * 2 ^ (- b).
Proof. rewrite <- pow2_plus. reflexivity. Qed.

End Powers.

Section Exponent.

Lemma Qabs_frac (q : Q) :
  Qabs q == inject_Z (Z.abs (Qnum q)) / inject_Z (Zpos (Qden q)).
Proof.
  destruct q as [n d]. simpl. rewrite (Qmake_Qdiv (Z.abs n) d). reflexivity.
Qed.

Lemma exponent_spec (q : Q) :
  ~ q == 0 ->
  2 ^ Double.exponent q <= Qabs q /\ Qabs q < 2 ^ (Double.exponent q + 1).
Proof.
  intros Hq. unfold Double.exponent.
  set (n := Z.abs (Qnum q)). set (d := Zpos (Qden q)).
  assert (Hn : (0 < n)%Z).
  { subst n. destruct q as [m k]. simpl.
    assert (m <> 0)%Z.
    { intros ->. apply Hq. reflexivity. }
    lia. }
  assert (Hd : (0 < d)%Z) by (subst d; lia).
  destruct (Z.log2_spec n Hn) as [Ln Un].
  destruct (Z.log2_spec d Hd) as [Ld Ud].
  assert (Pn := Z.log2_nonneg n). assert (Pd := Z.log2_nonneg d).
  set (ln := Z.log2 n) in *. set (ld := Z.log2 d) in *.
  replace (Z.succ ln) with (ln + 1)%Z in Un by lia.
  replace (Z.succ ld) with (ld + 1)%Z in Ud by lia.
  assert (QLn : 2 ^ ln <= inject_Z n).
  { rewrite <- pow2_Z by exact Pn. rewrite <- Zle_Qle. exact Ln. }
  assert (QUn : inject_Z n < 2 * 2 ^ ln).
  { rewrite <- pow2_succ, <- pow2_Z by lia. rewrite <- Zlt_Qlt. exact Un. }
  assert (QLd : 2 ^ ld <= inject_Z d).
  { rewrite <- pow2_Z by exact Pd. rewrite <- Zle_Qle. exact Ld. }
  assert (QUd : inject_Z d < 2 * 2 ^ ld).
  { rewrite <- pow2_succ, <- pow2_Z by lia. rewrite <- Zlt_Qlt. exact Ud. }
  assert (E0 : 2 ^ (ln - ld) * 2 ^ ld == 2 ^ ln).
  { rewrite <- pow2_plus. replace (ln - ld + ld)%Z with ln by lia.
    reflexivity. }
  assert (Habs : Qabs q * inject_Z d == inject_Z n).
  { rewrite Qabs_frac. fold n d. field.
    intros K. rewrite K in QLd. assert (P := pow2_pos ld). lra. }
  assert (A := pow2_pos ln). assert (B := pow2_pos ld).
  assert (C := pow2_pos (ln - ld)).
  assert (Dpos : 0 < inject_Z d) by lra.
  assert (Qpos : 0 <= Qabs q) by apply Qabs_nonneg.
  set (x := Qabs q) in *. set (D := inject_Z d) in *.
  set (N := inject_Z n) in *. set (a := 2 ^ ln) in *. set (b := 2 ^ ld) in *.
  destruct (Qle_bool (2 ^ (ln - ld)) x) eqn:T.
  - apply Qle_bool_iff in T. split; [exact T |].
    rewrite pow2_succ. set (c := 2 ^ (ln - ld)) in *.
    apply Qnot_le_lt. intros K.
    assert (H1 : 2 * c * D <= x * D) by (apply Qmult_le_compat_r; lra).
    assert (H2 : b * c <= D * c) by (apply Qmult_le_compat_r; lra).
    lra.
  - assert (T' : x < 2 ^ (ln - ld)).
    { apply Qnot_le_lt. intros K. apply Qle_bool_iff in K. congruence. }
    replace (ln - ld - 1 + 1)%Z with (ln - ld)%Z by lia.
    split; [| exact T'].
    assert (E1 : 2 * 2 ^ (ln - ld - 1) == 2 ^ (ln - ld)).
    { rewrite <- pow2_succ.
      replace (ln - ld - 1 + 1)%Z with (ln - ld)%Z by lia. reflexivity. }
    assert (C' := pow2_pos (ln - ld - 1)).
    set (c := 2 ^ (ln - ld)) in *. set (h := 2 ^ (ln - ld - 1)) in *.
    apply Qnot_lt_le. intros K.
    assert (H1 : x * D <= h * D) by (apply Qmult_le_compat_r; lra).
    assert (H4 : D * h < (2 * b) * h) by (apply Qmult_lt_compat_r; lra).
    assert (H3 : (2 * b) * h == c * b) by (rewrite <- E1; ring).
    lra.
Qed.

End Exponent.

Section Nearest.

Lemma exponent_unique (x : Q) (a b : Z) :
  2 ^ a <= x -> x < 2 ^ (a + 1) -> 2 ^ b <= x -> x < 2 ^ (b + 1) -> a = b.
Proof.
  intros La Ua Lb Ub.
  destruct (Z.lt_trichotomy a b) as [H | [H | H]]; [| exact H |]; exfalso.
  - assert (K := pow2_le (a + 1) b). assert (a + 1 <= b)%Z by lia.
    specialize (K H0). lra.
  - assert (K := pow2_le (b + 1) a). assert (b + 1 <= a)%Z by lia.
    specialize (K H0). lra.
Qed.

Lemma exponent_comp (a b : Q) :
  a == b -> ~ a == 0 -> Double.exponent a = Double.exponent b.
Proof.
  intros E Ha.
  assert (Hb : ~ b == 0) by (rewrite <- E; exact Ha).
  destruct (exponent_spec a Ha) as [La Ua].
  destruct (exponent_spec b Hb) as [Lb Ub].
  assert (EA : Qabs a == Qabs b) by (apply Qabs_wd; exact E).
  rewrite EA in La, Ua.
  exact (exponent_unique (Qabs b) _ _ La Ua Lb Ub).
Qed.

Lemma nearestEven_comp (a b : Q) :
  a == b -> Double.nearestEven a = Double.nearestEven b.
Proof.
  intros E. unfold Double.nearestEven.
  rewrite (Qfloor_comp a b E).
  assert (C : Qcompare (a - inject_Z (Qfloor b)) (1 # 2)
              = Qcompare (b - inject_Z (Qfloor b)) (1 # 2)).
  { apply Qcompare_comp; [rewrite E |]; reflexivity. }
  rewrite C. reflexivity.
Qed.

Lemma nearest_comp (a b : Q) : a == b -> Double.nearest a == Double.nearest b.
Proof.
  intros E. unfold Double.nearest.
  destruct (Qeq_bool a 0) eqn:Za.
  - apply Qeq_bool_iff in Za.
    assert (Zb : Qeq_bool b 0 = true)
      by (apply Qeq_bool_iff; rewrite <- E; exact Za).
    rewrite Zb. reflexivity.
  - assert (Ha : ~ a == 0).
    { intros K. apply Qeq_bool_iff in K. congruence. }
    assert (Zb : Qeq_bool b 0 = false).
    { apply not_true_iff_false. intros K. apply Qeq_bool_iff in K.
      apply Ha. rewrite E. exact K. }
    rewrite Zb. unfold Double.ulp.
    rewrite (exponent_comp a b E Ha).
    rewrite (nearestEven_comp
               (a / 2 ^ (Z.max (Double.exponent b) (-1022) - 52))
               (b / 2 ^ (Z.max (Double.exponent b) (-1022) - 52)))
      by (rewrite E; reflexivity).
    reflexivity.
Qed.

Lemma nearestEven_Z (n : Z) : Double.nearestEven (inject_Z n) = n.
Proof.
  unfold Double.nearestEven. rewrite Qfloor_Z.
  assert (C : Qcompare (inject_Z n - inject_Z n) (1 # 2) = Lt).
  { apply Qlt_alt. setoid_replace (inject_Z n - inject_Z n) with 0 by ring.
    reflexivity. }
  rewrite C. reflexivity.
Qed.

Lemma nearestEven_bounds (y : Q) :
  inject_Z (Double.nearestEven y) - (1 # 2) <= y
  /\ y <= inject_Z (Double.nearestEven y) + (1 # 2).
Proof.
  unfold Double.nearestEven.
  assert (L := Qfloor_le y). assert (U := Qlt_floor y).
  rewrite inject_Z_plus in U. change (inject_Z 1) with 1 in U.
  destruct (Qcompare (y - inject_Z (Qfloor y)) (1 # 2)) eqn:C.
  - apply Qeq_alt in C.
    destruct (Z.even (Qfloor y));
      rewrite ?inject_Z_plus; change (inject_Z 1) with 1; lra.
  - apply Qlt_alt in C. lra.
  - apply Qgt_alt in C. rewrite inject_Z_plus. change (inject_Z 1) with 1.
    lra.
Qed.




Lemma ulp_pos (q : Q) : 0 < Double.ulp q.
Proof. apply pow2_pos. Qed.


(** The spacing of the doubles around a number: at most [2^-52] of it,
    or the spacing of the subnormal numbers. *)
Lemma ulp_bound (q : Q) :
  ~ q == 0 ->
  Double.ulp q <= Qabs q * 2 ^ (-52) \/ Double.ulp q == 2 ^ (-1074).
Proof.
  intros Hq. destruct (exponent_spec q Hq) as [L _].
  unfold Double.ulp.
  destruct (Z.max_spec (Double.exponent q) (-1022)) as [[_ ->] | [_ ->]].
  - right. reflexivity.
  - left. rewrite pow2_plus_minus. apply Qmult_le_compat_r; [exact L |].
    apply Qlt_le_weak, pow2_pos.
Qed.

End Nearest.

Section NearestDouble.

Lemma nearest_zero (q : Q) : q == 0 -> Double.nearest q == 0.
Proof.
  intros H. unfold Double.nearest.
  apply Qeq_bool_iff in H. rewrite H. reflexivity.
Qed.

Lemma nearest_nonzero (q : Q) :
  ~ q == 0 ->
  Double.nearest q
  = inject_Z (Double.nearestEven (q / Double.ulp q)) * Double.ulp q.
Proof.
  intros H. unfold Double.nearest.
  destruct (Qeq_bool q 0) eqn:Z; [| reflexivity].
  apply Qeq_bool_iff in Z. contradiction.
Qed.

(** Rounding moves a number by half the spacing at most. *)
Lemma nearest_half_ulp (q : Q) :
  ~ q == 0 -> Qabs (Double.nearest q - q) <= Double.ulp q * (1 # 2).
Proof.
  intros H. rewrite (nearest_nonzero q H).
  assert (U := ulp_pos q). set (u := Double.ulp q) in *.
  destruct (nearestEven_bounds (q / u)) as [L R].
  set (N := inject_Z (Double.nearestEven (q / u))) in *.
  assert (E : q / u * u == q) by (field; lra).
  assert (L' : (N - (1 # 2)) * u <= q / u * u)
    by (apply Qmult_le_compat_r; lra).
  assert (R' : q / u * u <= (N + (1 # 2)) * u)
    by (apply Qmult_le_compat_r; lra).
  rewrite E in L', R'.
  apply Qabs_Qle_condition. split.
  - setoid_replace (N * u - q) with (- (q - (N + (1 # 2)) * u) - u * (1 # 2))
      by ring. lra.
  - setoid_replace (N * u - q) with ((N - (1 # 2)) * u - q + u * (1 # 2))
      by ring. lra.
Qed.

(** The relative error of a rounding is [2^-53], the absolute error
    among the subnormal numbers [2^-1075]. *)
Lemma nearest_close (q : Q) :
  Qabs (Double.nearest q - q) <= Qabs q * 2 ^ (-53) + 2 ^ (-1075).
Proof.
  assert (P := pow2_pos (-1075)). assert (A := Qabs_nonneg q).
  assert (P53 := pow2_pos (-53)).
  destruct (Qeq_dec q 0) as [Z | H].
  - assert (E : Double.nearest q - q == 0)
      by (rewrite (nearest_zero q Z), Z; reflexivity).
    rewrite E. simpl Qabs.
    assert (0 <= Qabs q * 2 ^ (-53)) by (apply Qmult_le_0_compat; lra).
    lra.
  - assert (M := nearest_half_ulp q H).
    assert (E53 : 2 ^ (-52) * (1 # 2) == 2 ^ (-53)) by reflexivity.
    assert (E1075 : 2 ^ (-1074) * (1 # 2) == 2 ^ (-1075)) by reflexivity.
    assert (0 <= Qabs q * 2 ^ (-53)) by (apply Qmult_le_0_compat; lra).
    destruct (ulp_bound q H) as [B | B].
    + assert (Double.ulp q * (1 # 2) <= Qabs q * 2 ^ (-52) * (1 # 2))
        by (apply Qmult_le_compat_r; [exact B | discriminate]).
      setoid_replace (Qabs q * 2 ^ (-52) * (1 # 2))
        with (Qabs q * (2 ^ (-52) * (1 # 2))) in H1 by ring.
      rewrite E53 in H1. lra.
    + rewrite B, E1075 in M. lra.
Qed.





(** A whole number of at most 53 bits is a double. *)
Lemma nearest_whole (n : Z) :
  (Z.abs n <= 2 ^ 53)%Z -> Double.nearest (inject_Z n) == inject_Z n.
Proof.
  intros Hn. destruct (Z.eq_dec n 0) as [-> | Hz]; [reflexivity |].
  assert (Hq : ~ inject_Z n == 0).
  { intros K. apply Hz. exact (proj1 (inject_Z_injective n 0) K). }
  rewrite (nearest_nonzero _ Hq).
  destruct (exponent_spec _ Hq) as [L _].
  assert (He : (Double.exponent (inject_Z n) <= 53)%Z).
  { destruct (Z_le_gt_dec (Double.exponent (inject_Z n)) 53) as [K | K];
      [exact K | exfalso].
    assert (P := pow2_lt 53 (Double.exponent (inject_Z n))).
    assert (53 < Double.exponent (inject_Z n))%Z by lia.
    specialize (P H).
    assert (A : Qabs (inject_Z n) <= 2 ^ 53).
    { rewrite <- (pow2_Z 53) by lia.
      change (Qabs (inject_Z n)) with (inject_Z (Z.abs n)).
      rewrite <- Zle_Qle. exact Hn. }
    lra. }
  unfold Double.ulp.
  set (m := (Z.max (Double.exponent (inject_Z n)) (-1022) - 52)%Z).
  assert (Hm : (m <= 1)%Z) by (subst m; lia).
  destruct (Z_le_gt_dec m 0) as [M0 | M1].
  - (* the spacing is 1 or less: the number is a multiple of it *)
    assert (E : inject_Z n / 2 ^ m == inject_Z (n * 2 ^ (- m))).
    { rewrite inject_Z_mult, pow2_Z by lia. rewrite Qpower_opp.
      reflexivity. }
    rewrite (nearestEven_comp _ _ E), nearestEven_Z.
    rewrite inject_Z_mult, pow2_Z by lia. rewrite Qpower_opp.
    field. assert (P := pow2_pos m). lra.
  - (* the spacing is 2: the number is 2^53 or its opposite *)
    assert (m = 1)%Z by lia.
    assert (Double.exponent (inject_Z n) = 53)%Z by (subst m; lia).
    rewrite H0 in L.
    assert (A : Qabs (inject_Z n) == 2 ^ 53).
    { apply Qle_antisym; [| exact L].
      rewrite <- (pow2_Z 53) by lia.
      change (Qabs (inject_Z n)) with (inject_Z (Z.abs n)).
      rewrite <- Zle_Qle. exact Hn. }
    change (Qabs (inject_Z n)) with (inject_Z (Z.abs n)) in A.
    rewrite <- (pow2_Z 53) in A by lia.
    apply (proj1 (inject_Z_injective _ _)) in A.
    rewrite H.
    destruct (Z.abs_eq_or_opp n) as [K | K]; rewrite K in A.
    + rewrite A. reflexivity.
    + assert (n = - 2 ^ 53)%Z by lia. rewrite H1. reflexivity.
Qed.

End NearestDouble.

Section Rounding.

Lemma Math_round_bounds (q : Q) :
  q - (1 # 2) < Math_round q /\ Math_round q <= q + (1 # 2).
Proof.
  unfold Math_round.
  assert (L := Qfloor_le (q + (1 # 2))).
  assert (U := Qlt_floor (q + (1 # 2))).
  rewrite inject_Z_plus in U. change (inject_Z 1) with 1 in U.
  split; lra.
Qed.

Lemma Math_round_le (a b : Q) : a <= b -> Math_round a <= Math_round b.
Proof.
  intros H. unfold Math_round. rewrite <- Zle_Qle.
  apply Qfloor_resp_le. lra.
Qed.

Lemma Math_round_integer (z : Z) : Math_round (inject_Z z) == inject_Z z.
Proof.
  unfold Math_round.
  assert (E : Qfloor (inject_Z z + (1 # 2)) = z).
  { assert (L := Qfloor_le (inject_Z z + (1 # 2))).
    assert (U := Qlt_floor (inject_Z z + (1 # 2))).
    rewrite inject_Z_plus in U. change (inject_Z 1) with 1 in U.
    assert (L' : inject_Z (Qfloor (inject_Z z + (1 # 2))) < inject_Z (z + 1)).
    { rewrite inject_Z_plus. change (inject_Z 1) with 1. lra. }
    assert (U' : inject_Z z < inject_Z (Qfloor (inject_Z z + (1 # 2)) + 1)).
    { rewrite inject_Z_plus. change (inject_Z 1) with 1. lra. }
    rewrite <- Zlt_Qlt in L', U'. lia. }
  rewrite E. reflexivity.
Qed.


End Rounding.

Section RunningSum.

Lemma Math_round_comp (a b : Q) : a == b -> Math_round a = Math_round b.
Proof.
  intros H. unfold Math_round.
  rewrite (Qfloor_comp (a + (1 # 2)) (b + (1 # 2))); [reflexivity |].
  rewrite H. reflexivity.
Qed.

Lemma add_whole (x y : Q) (a b : Z) :
  x == inject_Z a -> y == inject_Z b ->
  (Z.abs a <= 2 ^ 53)%Z -> (Z.abs b <= 2 ^ 53)%Z ->
  (Z.abs (a + b) <= 2 ^ 53)%Z ->
  Double.add x y == inject_Z (a + b).
Proof.
  intros Hx Hy Ha Hb Hab. unfold Double.add.
  assert (Ex : Double.nearest x == inject_Z a).
  { rewrite (nearest_comp x _ Hx). apply nearest_whole, Ha. }
  assert (Ey : Double.nearest y == inject_Z b).
  { rewrite (nearest_comp y _ Hy). apply nearest_whole, Hb. }
  assert (E : Double.nearest x + Double.nearest y == inject_Z (a + b)).
  { rewrite Ex, Ey, inject_Z_plus. reflexivity. }
  rewrite (nearest_comp _ _ E). apply nearest_whole, Hab.
Qed.

Lemma mul_whole (x y : Q) (a b : Z) :
  x == inject_Z a -> y == inject_Z b ->
  (Z.abs a <= 2 ^ 53)%Z -> (Z.abs b <= 2 ^ 53)%Z ->
  (Z.abs (a * b) <= 2 ^ 53)%Z ->
  Double.mul x y == inject_Z (a * b).
Proof.
  intros Hx Hy Ha Hb Hab. unfold Double.mul.
  assert (Ex : Double.nearest x == inject_Z a).
  { rewrite (nearest_comp x _ Hx). apply nearest_whole, Ha. }
  assert (Ey : Double.nearest y == inject_Z b).
  { rewrite (nearest_comp y _ Hy). apply nearest_whole, Hb. }
  assert (E : Double.nearest x * Double.nearest y == inject_Z (a * b)).
  { rewrite Ex, Ey, inject_Z_mult. reflexivity. }
  rewrite (nearest_comp _ _ E). apply nearest_whole, Hab.
Qed.

(** The additions of the loop are exact on whole numbers of at most
    40 bits, sixteen of them at most. *)
Lemma fold_add_whole (rs : list Q) :
  forall (t : Q) (T m : Z),
    t == inject_Z T -> (0 <= m)%Z -> (Z.abs T <= m * 2 ^ 40)%Z ->
    Forall smallWhole rs ->
    (m + Z.of_nat (List.length rs) <= 16)%Z ->
    exists S : Z,
      fold_left Double.add rs t == inject_Z S
      /\ inject_Z S == t + Qsum rs
      /\ (Z.abs S <= 16 * 2 ^ 40)%Z.
Proof.
  induction rs as [| r rs IH]; intros t T m Ht Hm HT Hrs Hlen.
  - exists T. simpl. split; [exact Ht |].
    split; [rewrite Ht; unfold Qsum; simpl; ring |].
    simpl in Hlen. nia.
  - inversion Hrs as [| r' rs' (n & Hr & Hn) Hrs']; subst r' rs'.
    cbn [List.length] in Hlen. cbn [fold_left].
    assert (E : Double.add t r == inject_Z (T + n)).
    { apply add_whole; try assumption; nia. }
    destruct (IH (Double.add t r) (T + n)%Z (m + 1)%Z E) as (S & F & Q & B);
      [lia | nia | exact Hrs' | lia |].
    exists S. split; [exact F |]. split; [| exact B].
    change (Qsum (r :: rs)) with (r + Qsum rs).
    rewrite Q, E, inject_Z_plus, Ht, Hr. ring.
Qed.

Lemma Qsum_rainAmounts (qs : list Q) :
  Qsum (filter truthy_num qs) == Qsum qs.
Proof.
  unfold Qsum. induction qs as [| q qs IH]; simpl; [reflexivity |].
  destruct (truthy_num q) eqn:T; simpl; rewrite IH; [reflexivity |].
  apply negb_false_iff in T. apply Qeq_bool_iff in T. rewrite T. ring.
Qed.

Lemma Forall_filter (P : Q -> Prop) (f : Q -> bool) (qs : list Q) :
  Forall P qs -> Forall P (filter f qs).
Proof.
  induction 1 as [| q qs Hq _ IH]; simpl; [constructor |].
  destruct (f q); [constructor; assumption | exact IH].
Qed.

Lemma filter_length (f : Q -> bool) (qs : list Q) :
  (List.length (filter f qs) <= List.length qs)%nat.
Proof.
  induction qs as [| q qs IH]; simpl; [lia |].
  destruct (f q); simpl; lia.
Qed.

(** [Math.round(x * 10) / 10] of a whole number of at most 49 bits is
    the number. *)
Lemma round1_whole (x : Q) (S : Z) :
  x == inject_Z S -> (Z.abs S <= 2 ^ 49)%Z -> Double.round1 x == inject_Z S.
Proof.
  intros Hx HS. unfold Double.round1.
  assert (E : Double.mul x 10 == inject_Z (S * 10)).
  { apply mul_whole; [exact Hx | reflexivity | lia | simpl; lia | lia]. }
  rewrite (Math_round_comp _ _ E), Math_round_integer, inject_Z_mult.
  field.
Qed.

(** The total is a number of tenths. *)
Lemma round1_tenths (x : Q) :
  exists k : Z, Double.round1 x = inject_Z k / 10.
Proof.
  unfold Double.round1, Math_round. eexists. reflexivity.
Qed.







(** [Math.round(x * 10) / 10] is within a twentieth of [x], up to the
    roundings of the product. *)
Lemma round1_close (x : Q) :
  Qabs (Double.round1 x - x)
  <= (1 # 20) + Qabs x * 2 ^ (-51) + 2 ^ (-1074).
Proof.
  unfold Double.round1, Double.mul.
  assert (T : Double.nearest 10 == 10) by reflexivity.
  set (a := Double.nearest x).
  assert (Ea : Qabs (a - x) <= Qabs x * 2 ^ (-53) + 2 ^ (-1075))
    by apply nearest_close.
  assert (Y : a * Double.nearest 10 == a * 10) by (rewrite T; reflexivity).
  rewrite (Math_round_comp _ _ (nearest_comp _ _ Y)).
  set (z := Double.nearest (a * 10)).
  assert (Ez : Qabs (z - a * 10) <= Qabs (a * 10) * 2 ^ (-53) + 2 ^ (-1075))
    by apply nearest_close.
  destruct (Math_round_bounds z) as [L U].
  set (k := Math_round z) in *.
  assert (Ay : Qabs (a * 10) == Qabs a * 10).
  { rewrite Qabs_Qmult. reflexivity. }
  rewrite Ay in Ez.
  assert (Aa : Qabs a <= Qabs (a - x) + Qabs x).
  { setoid_replace a with ((a - x) + x) at 1 by ring.
    apply Qabs_triangle. }
  assert (Px := Qabs_nonneg x). assert (Pa := Qabs_nonneg a).
  apply Qabs_Qle_condition in Ea. apply Qabs_Qle_condition in Ez.
  assert (E51 : 2 ^ (-51) == 4 * 2 ^ (-53)) by reflexivity.
  assert (E74 : 2 ^ (-1074) == 2 * 2 ^ (-1075)) by reflexivity.
  assert (Pe := pow2_pos (-1075)).
  rewrite E51, E74.
  set (eta := 2 ^ (-1075)) in *.
  change (2 ^ (-53)) with (1 # 9007199254740992) in *.
  set (X := Qabs x) in *. set (A := Qabs a) in *.
  assert (Ad : Qabs (a - x) <= X * (1 # 9007199254740992) + eta).
  { apply Qabs_Qle_condition. exact Ea. }
  apply Qabs_Qle_condition.
  unfold Qdiv. change (/ 10) with (1 # 10).
  split; lra.
Qed.

End RunningSum.

Section Summarizer.

Import WeatherUtils Observe.

Lemma heavy_is_truthy (r : Q) :
  Qgeb r Config.weatherThresholds.rainfall.heavy = true ->
  truthy_num r = true.
Proof.
  unfold Qgeb, truthy_num, Qeqb. intros H.
  apply Qle_bool_iff in H.
  apply negb_true_iff. apply not_true_iff_false. intros E.
  apply Qeq_bool_iff in E. rewrite E in H.
  revert H. unfold Config.weatherThresholds.rainfall.heavy, Qle. simpl. lia.
Qed.

(** What the loop has accumulated after a list of forecasts. *)
Lemma accumulate_rain (l : list ForecastPoint) :
  forall t : Totals,
    let t' := fold_left accumulate l t in
    t_totalRainfall t'
    = fold_left Double.add (rainAmounts l) (t_totalRainfall t)
    /\ t_rainHours t'
       = (t_rainHours t + count truthy_num (precipitations l))%nat
    /\ t_heavyRainHours t'
       = (t_heavyRainHours t
          + count (fun r => Qgeb r 15) (precipitations l))%nat.
Proof.
  induction l as [| p l IH]; intros t; simpl.
  - unfold count. simpl. repeat split; lia.
  - destruct (IH (accumulate t p)) as (Hs & Hr & Hh).
    unfold rainAmounts, precipitations in *. simpl.
    rewrite Hs, Hr, Hh. clear IH Hs Hr Hh.
    unfold count. rewrite !filter_app, !length_app, fold_left_app.
    unfold accumulate, precipitation.
    change Config.weatherThresholds.rainfall.heavy with 15.
    destruct (rain3h p) as [r |]; simpl.
    + destruct (truthy_num r) eqn:Ht; simpl.
      * destruct (Qgeb r 15); simpl; repeat split; lia.
      * destruct (Qgeb r 15) eqn:Hh.
        { apply heavy_is_truthy in Hh. congruence. }
        simpl. repeat split; lia.
    + repeat split; lia.
Qed.

Lemma precipitations_length (l : list ForecastPoint) :
  (List.length (precipitations l) <= List.length l)%nat.
Proof.
  unfold precipitations, precipitation.
  induction l as [| p l IH]; simpl; [lia |].
  rewrite length_app. destruct (rain3h p); simpl; lia.
Qed.

(** On amounts that are not negative, non-zero is positive. *)
Lemma count_truthy_positive (rs : list Q) :
  Forall (fun r => 0 <= r) rs ->
  count truthy_num rs = count (fun r => Qgtb r 0) rs.
Proof.
  unfold count. induction 1 as [| r rs Hr _ IH]; simpl; [reflexivity |].
  assert (E : truthy_num r = Qgtb r 0).
  { unfold truthy_num, Qgtb, Qeqb. f_equal.
    destruct (Qle_bool r 0) eqn:Hle.
    - apply Qeq_bool_iff. apply Qle_bool_iff in Hle.
      apply Qle_antisym; assumption.
    - apply not_true_iff_false. intros E. apply Qeq_bool_iff in E.
      apply not_true_iff_false in Hle. apply Hle.
      apply Qle_bool_iff. rewrite E. apply Qle_refl. }
  rewrite E. destruct (Qgtb r 0); simpl; rewrite IH; reflexivity.
Qed.

(** A payload with a point list and a location is summarized, and the
    rain figures of the summary are those of the loop. *)
Lemma summarizeForecast_ok (data : ForecastData)
    (points : list ForecastPoint) (c : City) :
  data_list data = Some points -> city data = Some c ->
  exists fs,
    summarizeForecast (Some data) = Ok fs
    /\ totalRainfall fs
       = Double.round1
           (t_totalRainfall
              (fold_left accumulate (firstn 16 points) initialTotals))
    /\ rainHours fs
       = t_rainHours (fold_left accumulate (firstn 16 points) initialTotals)
    /\ heavyRainHours fs
       = t_heavyRainHours
           (fold_left accumulate (firstn 16 points) initialTotals)
    /\ WeatherUtils.warnings fs = None.
Proof.
  intros Hl Hc. unfold summarizeForecast. rewrite Hl, Hc.
  eexists. split; [reflexivity |]. simpl. repeat split.
Qed.

End Summarizer.

Section SoilPh.

Import CropUtils Observe.

Lemma band_true (lo hi ph : Q) :
  (Qgeb ph lo && Qleb ph hi)%bool = true <-> lo <= ph /\ ph <= hi.
Proof.
  unfold Qgeb, Qleb. rewrite andb_true_iff, !Qle_bool_iff. reflexivity.
Qed.

Lemma band_false (lo hi ph : Q) :
  (Qgeb ph lo && Qleb ph hi)%bool = false <-> ~ (lo <= ph /\ ph <= hi).
Proof.
  rewrite <- band_true. symmetry. apply not_true_iff_false.
Qed.

(** The chain of tests of [getSoilPhCategory], one band after the other. *)
Ltac bands_cases ph :=
  unfold getSoilPhCategory;
  destruct (Qgeb ph 4 && Qleb ph 5)%bool eqn:B1;
  [| destruct (Qgeb ph (51 # 10) && Qleb ph 6)%bool eqn:B2;
     [| destruct (Qgeb ph (61 # 10) && Qleb ph (65 # 10))%bool eqn:B3;
        [| destruct (Qgeb ph (66 # 10) && Qleb ph (73 # 10))%bool eqn:B4;
           [| destruct (Qgeb ph (74 # 10) && Qleb ph (78 # 10))%bool eqn:B5;
              [| destruct (Qgeb ph (79 # 10) && Qleb ph (85 # 10))%bool
                   eqn:B6 ]]]]];
  repeat match goal with
         | H : (_ && _)%bool = true |- _ => apply band_true in H
         | H : (_ && _)%bool = false |- _ => apply band_false in H
         end.

Lemma getSoilPhCategory_band (ph : Q) (c : Config.SoilPhCategory) :
  getSoilPhCategory (Some ph) = Some c <->
    exists lo hi, In (lo, hi, c) bands /\ lo <= ph /\ ph <= hi.
Proof.
  split.
  - bands_cases ph; intros E; inversion E; subst c;
      do 2 eexists; (split; [| eassumption]); simpl; tauto.
  - intros (lo & hi & Hin & Hlo & Hhi).
    simpl in Hin.
    repeat (destruct Hin as [Hin | Hin];
            [inversion Hin; subst lo hi c; clear Hin |]);
      try contradiction;
      bands_cases ph; try reflexivity; exfalso; lra.
Qed.

End SoilPh.

(* ================================================================== *)
(** ** Weather warnings *)

Section WeatherWarningClaims.

Import WeatherUtils Observe.

(** C4. The warning generator emits its warnings in the fixed order
    temperature-high, temperature-low, wind, heavy-rain, no-rain, each
    kind at most once; the dangerous-wind and the wind warning never
    come together, and at 40 km/h or more it is the dangerous-wind one;
    the no-rain advisory is there exactly when [totalRainfall] is zero
    and [rainHours] is zero, whatever [heavyRainHours] is; a maximum
    temperature of 36 against the threshold of 35 gives exactly one
    high-temperature warning, and with no rain as well the two
    warnings are two distinct entries. *)
Theorem C4_weather_warnings (fs : ForecastSummary) :
  let ws := generateWeatherWarnings fs in
  ws = warningsInOrder fs
  /\ increasing 0 (ranks ws) = true
  /\ (forall v v' : Q,
        ~ (In (dangerousWindWarning v) ws /\ In (windWarning v') ws))
  /\ (40 <= maxWindSpeed fs ->
      In (dangerousWindWarning (maxWindSpeed fs)) ws
      /\ countKind Wind ws = 1%nat)
  /\ (In noRainWarning ws <->
        totalRainfall fs == 0 /\ rainHours fs = 0%nat)
  /\ (maxTemperature fs = Finite 36 ->
      countKind TemperatureHigh ws = 1%nat)
  /\ (maxTemperature fs = Finite 36 ->
      totalRainfall fs == 0 -> rainHours fs = 0%nat ->
      In (highTemperatureWarning (Finite 36)) ws
      /\ In noRainWarning ws
      /\ highTemperatureWarning (Finite 36) <> noRainWarning
      /\ countKind NoRain ws = 1%nat).
Proof.
  intros ws. subst ws.
  split; [apply generateWeatherWarnings_segments |].
  split; [apply ranks_in_order |].
  split.
  { intros v v' [Hd Hw].
    apply In_generateWeatherWarnings in Hd, Hw.
    destruct Hd as [[_ H] | [[_ H] | [[[Hd H] | (_ & _ & H)]
                                     | [[_ H] | [_ H]]]]];
      try (apply (f_equal kindOf) in H; discriminate H);
      try (apply (f_equal (String.get 0)) in H; discriminate H).
    clear H.
    destruct Hw as [[_ H] | [[_ H] | [[[_ H] | (Hw & _ & H)]
                                     | [[_ H] | [_ H]]]]];
      try (apply (f_equal kindOf) in H; discriminate H);
      try (apply (f_equal (String.get 0)) in H; discriminate H).
    congruence. }
  split.
  { intros Hv. apply Qle_bool_iff in Hv.
    split.
    - apply In_generateWeatherWarnings. do 2 right. left. left.
      split; [exact Hv | reflexivity].
    - rewrite countKind_generateWeatherWarnings.
      unfold Qgeb. rewrite Hv. reflexivity. }
  split; [apply noRain_iff |].
  split.
  { intros Hmax. rewrite countKind_generateWeatherWarnings, Hmax.
    reflexivity. }
  intros Hmax Hrain Hhours.
  assert (Hno : In noRainWarning (generateWeatherWarnings fs))
    by (apply noRain_iff; split; assumption).
  repeat split.
  - apply In_generateWeatherWarnings. left. rewrite Hmax.
    split; reflexivity.
  - exact Hno.
  - discriminate.
  - rewrite countKind_generateWeatherWarnings.
    apply noRain_iff in Hno. destruct Hno as [Hq Hn].
    apply Qeq_bool_iff in Hq. unfold Qeqb. rewrite Hq, Hn. reflexivity.
Qed.

End WeatherWarningClaims.

Section WeatherWarningExamples.

Import WeatherUtils Observe.

Example hotAndDry_warnings :
  generateWeatherWarnings hotAndDry =
    [ "High temperature warning: 36°C expected. Consider shade protection for crops.";
      "Dangerous wind conditions: 45 km/h expected. Secure structures and protect crops.";
      "No rainfall expected in the next 48 hours. Consider irrigation for water-dependent crops." ].
Proof. reflexivity. Qed.

Lemma C4_weather_warnings_witness :
  countKind TemperatureHigh (generateWeatherWarnings hotAndDry) = 1%nat
  /\ countKind Wind (generateWeatherWarnings hotAndDry) = 1%nat
  /\ In noRainWarning (generateWeatherWarnings hotAndDry).
Proof.
  destruct (C4_weather_warnings hotAndDry)
    as (_ & _ & _ & Hwind & _ & Hhigh & Hboth).
  split; [apply Hhigh; reflexivity |].
  split; [apply Hwind; discriminate |].
  apply Hboth; reflexivity.
Defined.

End WeatherWarningExamples.

(* ================================================================== *)
(** ** The forecast summarizer *)

Section SummarizerClaims.

Import WeatherUtils Observe.

(** C5, as stated, fails: a payload with no forecast points is
    summarized without an error when its (empty) list is present. *)
Lemma C5_counterexample :
  ~ (summarizeForecast emptyPayload = Throw invalidForecastData
     <-> noPoints emptyPayload \/ noLocation emptyPayload).
Proof.
  intros [_ H]. assert (E := H (or_introl I)). discriminate E.
Qed.

Example emptyPayload_summary :
  summarizeForecast emptyPayload =
    Ok {| totalRainfall := Double.round1 0;
          maxTemperature := NegInfinity;
          minTemperature := PosInfinity;
          maxWindSpeed := Math_round (0 * (36 # 10));
          rainHours := 0;
          heavyRainHours := 0;
          windHours := 0;
          conditions := [];
          forecastPeriod := "48 hours";
          location := {| lat := Config.defaultLat;
                         lon := Config.defaultLon; name := "Kigali" |};
          warnings := None |}.
Proof. reflexivity. Qed.

(** C5, amended.  The summarizer fails with the invalid-forecast-data
    error exactly when the payload is absent or has no point list; a
    payload with a point list, even an empty one, and a location is
    summarized. *)
Theorem C5_invalid_forecast_data (d : option ForecastData) :
  (summarizeForecast d = Throw invalidForecastData
   <-> d = None \/ exists data, d = Some data /\ data_list data = None)
  /\ (forall data points c,
        d = Some data -> data_list data = Some points ->
        city data = Some c ->
        exists fs, summarizeForecast d = Ok fs).
Proof.
  split.
  - split.
    + destruct d as [data |]; [| intros _; left; reflexivity].
      intros H. right. exists data. split; [reflexivity |].
      unfold summarizeForecast in H.
      destruct (data_list data); [| reflexivity].
      destruct (city data); discriminate H.
    + intros [-> | (data & -> & Hl)]; [reflexivity |].
      unfold summarizeForecast. rewrite Hl. reflexivity.
  - intros data points c -> Hl Hc.
    destruct (summarizeForecast_ok data points c Hl Hc) as (fs & H & _).
    exists fs. exact H.
Qed.

Lemma C5_invalid_forecast_data_witness :
  exists fs, summarizeForecast emptyPayload = Ok fs.
Proof.
  destruct (C5_invalid_forecast_data emptyPayload) as [_ H].
  exact (H _ [] kigali eq_refl eq_refl eq_refl).
Defined.

Lemma precipitations_map (points : list ForecastPoint) :
  precipitations points =
    flat_map (fun o : option Q => match o with
                                  | Some r => [r]
                                  | None => []
                                  end) (map rain3h points).
Proof.
  unfold precipitations, precipitation.
  induction points as [| p l IH]; simpl; [reflexivity |].
  rewrite IH. reflexivity.
Qed.

(** C6, as stated, fails.  The amounts 0.05 and 2.3 add up to 2.35,
    which is 2.4 to one decimal; the loop adds the doubles nearest to
    them, the sum is the double below 2.35 and the total is 2.3.  And an
    interval with a negative amount counts as an interval with rain. *)
Lemma C6_counterexample :
  (exists fs,
      summarizeForecast (Some drizzle) = Ok fs
      /\ Qsum (precipitations [point (5 # 100); point (23 # 10)]) == 235 # 100
      /\ round1 (235 # 100) == 24 # 10
      /\ totalRainfall fs == 23 # 10
      /\ ~ totalRainfall fs
           == round1 (Qsum (precipitations
                              [point (5 # 100); point (23 # 10)])))
  /\ (exists fs,
        summarizeForecast (Some negativeReading) = Ok fs
        /\ rainHours fs = 1%nat
        /\ count (fun r => Qgtb r 0) (precipitations [point (-1)]) = 0%nat).
Proof.
  split.
  - eexists. split; [reflexivity |].
    split; [reflexivity |]. split; [reflexivity |].
    split; [vm_compute; reflexivity |].
    vm_compute. discriminate.
  - eexists. split; [reflexivity |]. split; reflexivity.
Qed.

Lemma rainAmounts_length (l : list ForecastPoint) :
  (List.length (rainAmounts l) <= List.length l)%nat.
Proof.
  unfold rainAmounts.
  apply (Nat.le_trans _ _ _ (filter_length _ _)), precipitations_length.
Qed.

(** C6, amended.  The summarizer keeps the first 16 points, the summary
    being that of the first 16 alone.  [rainHours] is the number of
    intervals with an amount that is not zero, which are those with more
    than 0 mm when no amount is negative, and [heavyRainHours] the number
    of intervals with at least 15 mm.  [totalRainfall] is
    [Math.round(s * 10) / 10] for the sum [s] of these amounts as the
    loop computes it, from the left and in doubles, when the amounts are
    in the range of the doubles: a number of tenths, within a twentieth
    of [s] up to the rounding of the product; and it is the exact sum
    when the amounts are whole numbers of at most 40 bits.
    Precipitation values 0, 20, 0, 0 give one heavy-rain interval and a
    total of 20. *)
Theorem C6_rain_figures (data : ForecastData)
    (points : list ForecastPoint) (c : City) :
  data_list data = Some points -> city data = Some c ->
  let window := firstn 16 points in
  let amounts := rainAmounts window in
  exists fs,
    summarizeForecast (Some data) = Ok fs
    /\ summarizeForecast
         (Some {| data_list := Some window; city := city data |}) = Ok fs
    /\ rainHours fs = List.length amounts
    /\ (Forall (fun r => 0 <= r) (precipitations window) ->
        rainHours fs = count (fun r => Qgtb r 0) (precipitations window))
    /\ heavyRainHours fs
       = count (fun r => Qgeb r 15) (precipitations window)
    /\ (Forall inRange amounts ->
        totalRainfall fs = Double.round1 (runningSum amounts)
        /\ (exists k : Z, totalRainfall fs = inject_Z k / 10)
        /\ Qabs (totalRainfall fs - runningSum amounts)
           <= (1 # 20) + Qabs (runningSum amounts) * 2 ^ (-51)
              + 2 ^ (-1074))
    /\ (Forall smallWhole (precipitations window) ->
        totalRainfall fs == Qsum (precipitations window))
    /\ (map rain3h points = [Some 0; Some 20; Some 0; Some 0] ->
        heavyRainHours fs = 1%nat /\ totalRainfall fs == 20).
Proof.
  intros Hl Hc window amounts.
  destruct (summarizeForecast_ok data points c Hl Hc)
    as (fs & H & Ht & Hr & Hh & _).
  assert (Htrunc : summarizeForecast
                     (Some {| data_list := Some window; city := city data |})
                   = summarizeForecast (Some data)).
  { unfold summarizeForecast. cbn [data_list city]. rewrite Hl.
    subst window. rewrite firstn_firstn. reflexivity. }
  destruct (accumulate_rain window initialTotals) as (At & Ar & Ah).
  cbv zeta in At, Ar, Ah. fold window in Ht, Hr, Hh.
  change (t_totalRainfall initialTotals) with 0 in At.
  change (t_rainHours initialTotals) with 0%nat in Ar.
  change (t_heavyRainHours initialTotals) with 0%nat in Ah.
  fold amounts in At. fold (runningSum amounts) in At.
  assert (Htotal : totalRainfall fs = Double.round1 (runningSum amounts)).
  { rewrite Ht, At. reflexivity. }
  assert (Hheavy : heavyRainHours fs
                   = count (fun r => Qgeb r 15) (precipitations window)).
  { rewrite Hh. exact Ah. }
  assert (Hwhole : Forall smallWhole (precipitations window) ->
                   totalRainfall fs == Qsum (precipitations window)).
  { intros Hw.
    destruct (fold_add_whole amounts 0 0 0) as (S & F & Q & B);
      [reflexivity | lia | simpl; lia
      | apply Forall_filter; exact Hw | |].
    { assert (L1 := rainAmounts_length window).
      assert (L2 : (List.length window <= 16)%nat)
        by apply firstn_le_length.
      fold amounts in L1. lia. }
    rewrite Htotal. fold (runningSum amounts) in F.
    rewrite (round1_whole _ S F) by lia.
    rewrite Q. unfold amounts, rainAmounts.
    rewrite Qsum_rainAmounts. ring. }
  exists fs. split; [exact H |].
  split; [rewrite Htrunc; exact H |].
  split; [rewrite Hr; exact Ar |].
  split.
  { intros Hpos. rewrite Hr, Ar. apply count_truthy_positive, Hpos. }
  split; [exact Hheavy |].
  split.
  { intros _. split; [exact Htotal |].
    split; rewrite Htotal; [apply round1_tenths | apply round1_close]. }
  split; [exact Hwhole |].
  intros Hex.
  assert (Hw : window = points).
  { apply firstn_all2. rewrite <- (length_map rain3h), Hex. simpl. lia. }
  split.
  - rewrite Hheavy, Hw, precipitations_map, Hex. reflexivity.
  - rewrite Hwhole; rewrite Hw, precipitations_map, Hex.
    + reflexivity.
    + repeat constructor;
        [exists 0%Z | exists 20%Z | exists 0%Z | exists 0%Z];
        split; try reflexivity; simpl; lia.
Qed.

Lemma C6_rain_figures_witness :
  exists fs,
    summarizeForecast (Some showers) = Ok fs
    /\ heavyRainHours fs = 1%nat
    /\ totalRainfall fs == 20
    /\ rainHours fs = 1%nat.
Proof.
  destruct (C6_rain_figures showers _ kigali eq_refl eq_refl)
    as (fs & H & _ & Hr & _ & _ & _ & _ & Hex).
  exists fs. split; [exact H |].
  destruct (Hex eq_refl) as [Hh Ht].
  split; [exact Hh |]. split; [exact Ht |].
  rewrite Hr. reflexivity.
Defined.

End SummarizerClaims.

(* ================================================================== *)
(** ** Soil pH categories *)

Section SoilPhClaims.

Import CropUtils Observe.

(** C7, as stated, fails: 5.05 lies in the interval from 4.0 to 8.5 and
    has no category. *)
Lemma C7_counterexample :
  4 <= 505 # 100 /\ 505 # 100 <= 85 # 10
  /\ getSoilPhCategory (Some (505 # 100)) = None.
Proof.
  repeat split; discriminate.
Qed.

Lemma bands_apart (ph : Q) (b1 b2 : Q * Q * Config.SoilPhCategory) :
  In b1 bands -> In b2 bands -> inBand ph b1 -> inBand ph b2 -> b1 = b2.
Proof.
  unfold inBand. simpl.
  intros H1 H2.
  repeat (destruct H1 as [H1 | H1]; [subst b1 |]); try contradiction;
    repeat (destruct H2 as [H2 | H2]; [subst b2 |]); try contradiction;
    simpl; intros [L1 U1] [L2 U2]; try reflexivity; exfalso; lra.
Qed.

(** C7, amended.  The lookup maps a pH value to the category of the
    band that holds it; the six bands, 4.0-5.0, 5.1-6.0, 6.1-6.5,
    6.6-7.3, 7.4-7.8 and 7.9-8.5, do not overlap; every value with one
    decimal from 4.0 to 8.5 lies in a band; a value in no band, and so
    every value below 4.0 or above 8.5, has no category. *)
Theorem C7_soil_ph_bands (ph : Q) :
  (forall c,
      getSoilPhCategory (Some ph) = Some c <->
        exists lo hi, In (lo, hi, c) bands /\ lo <= ph /\ ph <= hi)
  /\ (forall b1 b2,
        In b1 bands -> In b2 bands -> inBand ph b1 -> inBand ph b2 ->
        b1 = b2)
  /\ ((forall b, In b bands -> ~ inBand ph b) ->
      getSoilPhCategory (Some ph) = None)
  /\ (ph < 4 \/ 85 # 10 < ph -> getSoilPhCategory (Some ph) = None)
  /\ (forall n : Z,
        ph == n # 10 -> 4 <= ph -> ph <= 85 # 10 ->
        exists c, getSoilPhCategory (Some ph) = Some c).
Proof.
  split; [intros c; apply getSoilPhCategory_band |].
  split; [apply bands_apart |].
  assert (Hnone : (forall b, In b bands -> ~ inBand ph b) ->
                  getSoilPhCategory (Some ph) = None).
  { intros Hout.
    destruct (getSoilPhCategory (Some ph)) as [c |] eqn:E;
      [| reflexivity].
    apply getSoilPhCategory_band in E.
    destruct E as (lo & hi & Hin & Hlo & Hhi).
    exfalso. apply (Hout _ Hin). split; assumption. }
  split; [exact Hnone |].
  split.
  - intros Hout. apply Hnone. intros b Hin [Hlo Hhi].
    simpl in Hin.
    repeat (destruct Hin as [Hin | Hin]; [subst b |]); try contradiction;
      simpl in Hlo, Hhi; lra.
  - intros n Hn Hlo Hhi.
    destruct (getSoilPhCategory (Some ph)) as [c |] eqn:E;
      [exists c; reflexivity | exfalso].
    assert (Hout : forall lo hi c,
               In (lo, hi, c) bands -> ~ (lo <= ph /\ ph <= hi)).
    { intros lo hi c Hin Hb.
      assert (E' : getSoilPhCategory (Some ph) = Some c)
        by (apply getSoilPhCategory_band; exists lo, hi; tauto).
      congruence. }
    rewrite Hn in Hlo, Hhi.
    assert (B1 := Hout _ _ _ (or_introl eq_refl)).
    assert (B2 := Hout _ _ _ (or_intror (or_introl eq_refl))).
    assert (B3 := Hout _ _ _ (or_intror (or_intror (or_introl eq_refl)))).
    assert (B4 := Hout _ _ _
                    (or_intror (or_intror (or_intror (or_introl eq_refl))))).
    assert (B5 := Hout _ _ _
                    (or_intror (or_intror (or_intror
                       (or_intror (or_introl eq_refl)))))).
    assert (B6 := Hout _ _ _
                    (or_intror (or_intror (or_intror (or_intror
                       (or_intror (or_introl eq_refl))))))).
    rewrite Hn in B1, B2, B3, B4, B5, B6.
    clear - Hlo Hhi B1 B2 B3 B4 B5 B6.
    unfold Qle in *. simpl in *. lia.
Qed.

Lemma C7_soil_ph_bands_witness :
  exists c, getSoilPhCategory (Some (65 # 10)) = Some c.
Proof.
  destruct (C7_soil_ph_bands (65 # 10)) as (_ & _ & _ & _ & H).
  apply (H 65%Z); [reflexivity | discriminate | discriminate].
Defined.

End SoilPhClaims.

(* ================================================================== *)
(** ** Coordinates *)

Section CoordinateClaims.

Import WeatherUtils AdviceService.

(** Both coordinates given, neither zero, both in range: used as they
    are. *)
Lemma coordinates_used (lat lon : Q) :
  ~ lat == 0 -> ~ lon == 0 -> validateCoordinates lat lon = true ->
  validateAndSetCoordinates (Some lat) (Some lon) = Ok (lat, lon).
Proof.
  intros Hlat Hlon Hv. unfold validateAndSetCoordinates, truthy_num, Qeqb.
  destruct (Qeq_bool lat 0) eqn:E1; [apply Qeq_bool_iff in E1; tauto |].
  destruct (Qeq_bool lon 0) eqn:E2; [apply Qeq_bool_iff in E2; tauto |].
  simpl. rewrite Hv. reflexivity.
Qed.

(** Both given, neither zero, one out of range: the request fails. *)
Lemma coordinates_rejected (lat lon : Q) :
  ~ lat == 0 -> ~ lon == 0 -> validateCoordinates lat lon = false ->
  validateAndSetCoordinates (Some lat) (Some lon)
  = Throw (Error "Invalid coordinates provided").
Proof.
  intros Hlat Hlon Hv. unfold validateAndSetCoordinates, truthy_num, Qeqb.
  destruct (Qeq_bool lat 0) eqn:E1; [apply Qeq_bool_iff in E1; tauto |].
  destruct (Qeq_bool lon 0) eqn:E2; [apply Qeq_bool_iff in E2; tauto |].
  simpl. rewrite Hv. reflexivity.
Qed.

(** Neither given: Kigali. *)
Lemma coordinates_default :
  validateAndSetCoordinates None None
  = Ok (Config.defaultLat, Config.defaultLon).
Proof. reflexivity. Qed.

(** [validateCoordinates] is the range check. *)
Lemma validateCoordinates_range (lat lon : Q) :
  validateCoordinates lat lon = true <->
    -90 <= lat /\ lat <= 90 /\ -180 <= lon /\ lon <= 180.
Proof.
  unfold validateCoordinates, Qgeb, Qleb.
  rewrite !andb_true_iff, !Qle_bool_iff. tauto.
Qed.

(** C9, where the code departs from it.  A point on the equator, with
    both coordinates supplied and in range, is not used as given: the
    latitude 0 is falsy in [if (lat && lon)], and the request goes on
    with Kigali.  The same test lets an out-of-range latitude pass,
    with the default location, when the longitude is missing. *)
Theorem C9_equator_falls_back_to_default :
  validateCoordinates 0 (300619 # 10000) = true
  /\ validateAndSetCoordinates (Some 0) (Some (300619 # 10000))
     = Ok (Config.defaultLat, Config.defaultLon)
  /\ (Config.defaultLat, Config.defaultLon) <> (0, 300619 # 10000)
  /\ validateAndSetCoordinates (Some 100) None
     = Ok (Config.defaultLat, Config.defaultLon).
Proof.
  repeat split; discriminate.
Qed.

End CoordinateClaims.

(* ================================================================== *)
(** ** The rule-based advisor *)

Section AdvisorSteps.

Import WeatherUtils CropUtils.

Ltac step :=
  unfold grows, narratives; cbn; unfold push;
  rewrite ?length_app; cbn; repeat split; try lia;
  try (let E := fresh in intros E; discriminate E).

Lemma getCropSoilPh_ok cropType crop :
  getCropInfo cropType = Ok crop ->
  exists ph, getCropSoilPh cropType = Ok ph.
Proof.
  intros H. unfold getCropSoilPh. rewrite H. simpl. eexists. reflexivity.
Qed.

Lemma soilPhAdvice_ok cropType crop ph a :
  getCropInfo cropType = Ok crop ->
  exists b,
    soilPhAdvice cropType ph a = Ok b
    /\ grows a b
    /\ growth_stage_advice b = growth_stage_advice a
    /\ variety_specific_tips b = variety_specific_tips a
    /\ (ph = None -> b = a).
Proof.
  intros Hc. destruct ph as [ph |].
  - destruct (getCropSoilPh_ok _ _ Hc) as (range & Hr).
    unfold soilPhAdvice.
    generalize (getSoilPhCategory (Some ph)). intros category.
    unfold isSoilPhSuitableForCrop. rewrite Hr. unfold JS.bind.
    destruct (Qgeb ph (Config.min range) && Qleb ph (Config.max range))%bool;
      [| destruct (Qltb ph (Config.min range))];
      destruct category;
      eexists; (split; [reflexivity |]); step.
  - exists a. split; [reflexivity |]. step.
Qed.

Lemma growthStateAdvice_ok g a :
  (forall s, g = Some s -> In s Config.stages) ->
  exists b,
    growthStateAdvice g a = Ok b
    /\ grows a b
    /\ soil_ph_analysis b = soil_ph_analysis a
    /\ variety_specific_tips b = variety_specific_tips a
    /\ (g = None -> b = a).
Proof.
  intros Hg. destruct g as [s |].
  - specialize (Hg s eq_refl). simpl in Hg.
    destruct Hg as [<- | [<- | [<- | [<- | []]]]];
      (eexists; split; [reflexivity |]); step.
  - exists a. split; [reflexivity |]. step.
Qed.

Lemma varietyAdvice_grows crop v fs a :
  grows a (varietyAdvice crop v fs a)
  /\ soil_ph_analysis (varietyAdvice crop v fs a) = soil_ph_analysis a
  /\ growth_stage_advice (varietyAdvice crop v fs a)
     = growth_stage_advice a
  /\ (v = None -> varietyAdvice crop v fs a = a).
Proof.
  unfold varietyAdvice.
  destruct (truthy_prop (lookupVariety crop v)) eqn:E.
  - destruct (isLow (lookupVariety crop v) && Qeqb (totalRainfall fs) 0)%bool;
      step; intros ->; destruct crop as [c | |]; simpl in E;
      try destruct (Config.varieties c); discriminate.
  - step.
Qed.

Lemma seasonAdvice_grows s a :
  In s ["shortDry"; "longRains"; "longDry"; "shortRains"] ->
  forecast_summary (seasonAdvice s a) = forecast_summary a
  /\ season (seasonAdvice s a) = season a
  /\ crop (seasonAdvice s a) = crop a
  /\ (List.length (actions a) + 3 <= List.length (actions (seasonAdvice s a)))%nat
  /\ narratives (seasonAdvice s a) = narratives a.
Proof.
  simpl. intros [<- | [<- | [<- | [<- | []]]]]; step.
Qed.

Lemma weatherAdvice_grows fs a :
  grows a (weatherAdvice fs a)
  /\ narratives (weatherAdvice fs a) = narratives a.
Proof.
  unfold weatherAdvice.
  destruct (Qeqb (totalRainfall fs) 0);
    destruct (Nat.ltb 0 (heavyRainHours fs));
    destruct (Qgeb (maxWindSpeed fs)
                   Config.weatherThresholds.windSpeed.warning);
    step.
Qed.

Lemma cropAdvice_grows c s a :
  grows a (cropAdvice c s a)
  /\ narratives (cropAdvice c s a) = narratives a.
Proof.
  unfold cropAdvice.
  destruct (toLowerCase c =? "maize"); [step |].
  destruct (toLowerCase c =? "beans"); [step |].
  destruct (toLowerCase c =? "potatoes"); [step |].
  destruct (toLowerCase c =? "bananas"); step.
Qed.

Lemma weatherWarnings_grows fs a :
  grows a (weatherWarnings fs a)
  /\ narratives (weatherWarnings fs a) = narratives a.
Proof.
  unfold weatherWarnings. destruct (WeatherUtils.warnings fs); step.
Qed.

End AdvisorSteps.

Section AdvisorClaims.

Import WeatherUtils CropUtils.

Lemma getCropInfo_fourCrops cropType :
  In cropType fourCrops -> exists info, getCropInfo cropType = Ok info.
Proof.
  simpl. intros [<- | [<- | [<- | [<- | []]]]];
    eexists; reflexivity.
Qed.

(** The advisor on a crop the table knows, with a growth stage that is
    one of the four when there is one. *)
Lemma generateBasicSeasonalAdvice_ok cropType info s fs ad :
  getCropInfo cropType = Ok info ->
  In s fourSeasons ->
  (forall g, growthState ad = Some g -> In g Config.stages) ->
  exists advice,
    generateBasicSeasonalAdvice cropType s fs ad = Ok advice
    /\ (3 <= List.length (actions advice))%nat
    /\ forecast_summary advice = forecastNarrative fs
    /\ season advice = s
    /\ crop advice = cropType
    /\ (soilPh ad = None -> soil_ph_analysis advice = EmptyString)
    /\ (growthState ad = None -> growth_stage_advice advice = EmptyString)
    /\ (variety ad = None -> variety_specific_tips advice = EmptyString).
Proof.
  intros Hc Hs Hg. unfold generateBasicSeasonalAdvice. rewrite Hc.
  unfold JS.bind at 1.
  set (a0 := {| forecast_summary := forecastNarrative fs; season := s;
                crop := cropType; soil_ph_analysis := EmptyString;
                growth_stage_advice := EmptyString;
                variety_specific_tips := EmptyString;
                actions := []; resources_needed := [];
                possible_diseases := []; warnings := [];
                productivity_tips := [] |}).
  destruct (soilPhAdvice_ok cropType info (soilPh ad) a0 Hc)
    as (a1 & E1 & (F1 & S1 & C1 & L1) & G1 & V1 & N1).
  rewrite E1. unfold JS.bind at 1.
  destruct (growthStateAdvice_ok (growthState ad) a1 Hg)
    as (a2 & E2 & (F2 & S2 & C2 & L2) & P2 & V2 & N2).
  rewrite E2. unfold JS.bind at 1.
  destruct (varietyAdvice_grows info (variety ad) fs a2)
    as ((F3 & S3 & C3 & L3) & P3 & G3 & N3).
  set (a3 := varietyAdvice info (variety ad) fs a2) in *.
  destruct (seasonAdvice_grows s a3 Hs) as (F4 & S4 & C4 & L4 & N4).
  set (a4 := seasonAdvice s a3) in *.
  destruct (weatherAdvice_grows fs a4) as ((F5 & S5 & C5 & L5) & N5).
  set (a5 := weatherAdvice fs a4) in *.
  destruct (cropAdvice_grows cropType s a5) as ((F6 & S6 & C6 & L6) & N6).
  set (a6 := cropAdvice cropType s a5) in *.
  destruct (weatherWarnings_grows fs a6) as ((F7 & S7 & C7 & L7) & N7).
  set (a7 := weatherWarnings fs a6) in *.
  exists a7. split; [reflexivity |].
  assert (N : narratives a7 = narratives a3) by congruence.
  unfold narratives in N. inversion N as [[Np Ng Nv]].
  split; [lia |].
  split; [transitivity (forecast_summary a0); [congruence | reflexivity] |].
  split; [transitivity (season a0); [congruence | reflexivity] |].
  split; [transitivity (crop a0); [congruence | reflexivity] |].
  split; [| split].
  - intros H. rewrite Np, P3, P2, (N1 H). reflexivity.
  - intros H. rewrite Ng, G3, (N2 H), G1. reflexivity.
  - intros H. rewrite Nv, (N3 H), V2, V1. reflexivity.
Qed.

(** C3. For each of the four seasons and each of the four crops, and
    every forecast summary, the rule-based advisor returns an advice
    with actions (three at least), with the season and the crop it was
    given, and with each narrative empty when its parameter is absent.
    The five lists are lists by construction.  A growth stage, when
    given, is one of the four stages. *)
Theorem C3_rule_based_advice (cropType s : string) (fs : ForecastSummary)
    (ad : AdditionalData) :
  In s fourSeasons -> In cropType fourCrops ->
  (forall g, growthState ad = Some g -> In g Config.stages) ->
  exists advice,
    generateBasicSeasonalAdvice cropType s fs ad = Ok advice
    /\ actions advice <> []
    /\ season advice = s
    /\ crop advice = cropType
    /\ (soilPh ad = None -> soil_ph_analysis advice = EmptyString)
    /\ (growthState ad = None -> growth_stage_advice advice = EmptyString)
    /\ (variety ad = None -> variety_specific_tips advice = EmptyString).
Proof.
  intros Hs Hc Hg.
  destruct (getCropInfo_fourCrops _ Hc) as (info & Hcrop).
  destruct (generateBasicSeasonalAdvice_ok cropType info s fs ad Hcrop Hs Hg)
    as (advice & E & L & _ & R).
  exists advice. split; [exact E |]. split; [| exact R].
  intros Hnil. rewrite Hnil in L. simpl in L. lia.
Qed.

Lemma C3_rule_based_advice_witness :
  exists advice,
    generateBasicSeasonalAdvice "beans" "shortRains" calm noAdditionalData
    = Ok advice
    /\ actions advice <> []
    /\ soil_ph_analysis advice = EmptyString.
Proof.
  destruct (C3_rule_based_advice "beans" "shortRains" calm
              noAdditionalData)
    as (advice & E & A & _ & _ & P & _).
  - simpl. tauto.
  - simpl. tauto.
  - intros g H. discriminate H.
  - exists advice. split; [exact E |]. split; [exact A |].
    apply P. reflexivity.
Defined.

Example beans_in_shortRains :
  option_map actions
    match generateBasicSeasonalAdvice "beans" "shortRains" calm
            noAdditionalData with
    | Ok a => Some a
    | Throw _ => None
    end
  = Some [ "Take advantage of moisture for planting";
           "Prepare for the upcoming dry season";
           "Harvest crops before heavy rains" ].
Proof. reflexivity. Qed.

End AdvisorClaims.

(* ================================================================== *)
(** ** The parser of the generator's answers *)

Section Strings.


Lemma append_nil_r (a : string) : a ++ EmptyString = a.
Proof.
  induction a as [| x a IH]; simpl; [reflexivity | rewrite IH; reflexivity].
Qed.







End Strings.

Section Parser.

Import WeatherUtils CropUtils GeminiService.

Variable w : World.
Variable fs : ForecastSummary.
Variables season cropType : string.
Variable ad : AdditionalData.






End Parser.

Section ParserClaims.

Import WeatherUtils CropUtils GeminiService.



End ParserClaims.

(* ================================================================== *)
(** ** The orchestrator *)

Section Orchestrator.

Import WeatherUtils CropUtils AdviceService Observe.

Lemma detectCurrentSeason_four (w : World) :
  In (WeatherUtils.season (detectCurrentSeason w)) fourSeasons.
Proof.
  unfold detectCurrentSeason.
  destruct ((1 <=? month w) && (month w <=? 2))%Z%bool; [simpl; tauto |].
  destruct ((3 <=? month w) && (month w <=? 5))%Z%bool; [simpl; tauto |].
  destruct ((6 <=? month w) && (month w <=? 9))%Z%bool; simpl; tauto.
Qed.

Lemma includes_In (xs : list string) (x : string) :
  includes xs x = true -> In x xs.
Proof.
  unfold includes. intros H. apply existsb_exists in H.
  destruct H as (y & Hin & E). apply String.eqb_eq in E. subst y.
  exact Hin.
Qed.

(** A validated growth stage is one of the four. *)
Lemma validateAdditionalData_stage (o : Options) (ad : AdditionalData) :
  validateAdditionalData o = Ok ad ->
  forall g, growthState ad = Some g -> In g Config.stages.
Proof.
  unfold validateAdditionalData.
  destruct (match opt_soilPh o with
            | Some ph => _
            | None => _
            end) as [ph |]; [| discriminate].
  unfold JS.bind at 1.
  destruct (opt_growthState o) as [g0 |].
  - destruct (truthy_str g0).
    + destruct (includes validGrowthStates (toLowerCase g0)) eqn:I;
        [| discriminate].
      apply includes_In in I. simpl negb. cbv iota. unfold JS.bind at 1.
      destruct (match opt_variety o with
                | Some v => _
                | None => _
                end); [| discriminate].
      intros E g Hg. inversion E; subst ad. simpl in Hg.
      inversion Hg; subst g. exact I.
    + unfold JS.bind at 1.
      destruct (match opt_variety o with
                | Some v => _
                | None => _
                end); [| discriminate].
      intros E g Hg. inversion E; subst ad. discriminate Hg.
  - unfold JS.bind at 1.
    destruct (match opt_variety o with
              | Some v => _
              | None => _
              end); [| discriminate].
    intros E g Hg. inversion E; subst ad. discriminate Hg.
Qed.

Lemma validateCropType_getCropInfo (c : string) :
  validateCropType c = true -> exists info, getCropInfo c = Ok info.
Proof.
  unfold validateCropType, getCropInfo. intros H.
  apply andb_true_iff in H. destruct H as [_ H]. rewrite H.
  eexists. reflexivity.
Qed.

Lemma validateCropType_truthy (c : string) :
  validateCropType (toLowerCase c) = true -> truthy_str c = true.
Proof.
  destruct c; [discriminate | reflexivity].
Qed.

(** The forecast of a request whose provider call fails: the neutral
    summary, and the warnings still empty. *)
Lemma fetchForecast_degraded (w : World) (lat lon : Q) (e : exn) :
  WeatherService.getForecast w lat lon = Throw e ->
  fetchForecast w lat lon = (basicForecastSummary lat lon, []).
Proof.
  intros H. unfold fetchForecast. rewrite H. reflexivity.
Qed.

(** A payload that cannot be summarized has the same effect. *)
Lemma fetchForecast_malformed (w : World) (lat lon : Q)
    (d : option ForecastData) (e : exn) :
  WeatherService.getForecast w lat lon = Ok d ->
  summarizeForecast d = Throw e ->
  fetchForecast w lat lon = (basicForecastSummary lat lon, []).
Proof.
  intros H E. unfold fetchForecast. rewrite H. simpl. rewrite E. reflexivity.
Qed.

(** A validated request reaches the second half of [generateAdvice]. *)
Lemma generateAdvice_validated (w : World) (o : Options) (lat lon : Q)
    (c : string) (ad : AdditionalData) :
  validateAndSetCoordinates (opt_lat o) (opt_lon o) = Ok (lat, lon) ->
  opt_crop o = Some c ->
  validateCropType (toLowerCase c) = true ->
  validateAdditionalData o = Ok ad ->
  generateAdvice_try w o = synthesize w o lat lon (toLowerCase c) ad.
Proof.
  intros Hc Hcrop Hv Ha. unfold generateAdvice_try.
  rewrite Hc, Hcrop. simpl.
  rewrite (validateCropType_truthy c Hv), Hv, Ha. reflexivity.
Qed.

(** The rule-based advice of a validated request. *)
Lemma basic_advice_validated (w : World) (o : Options) (c : string)
    (ad : AdditionalData) (fs : ForecastSummary) :
  validateCropType (toLowerCase c) = true ->
  validateAdditionalData o = Ok ad ->
  exists advice,
    generateBasicSeasonalAdvice (toLowerCase c)
      (WeatherUtils.season (detectCurrentSeason w)) fs ad = Ok advice
    /\ forecast_summary advice = forecastNarrative fs
    /\ CropUtils.season advice = WeatherUtils.season (detectCurrentSeason w)
    /\ crop advice = toLowerCase c
    /\ actions advice <> [].
Proof.
  intros Hv Ha.
  destruct (validateCropType_getCropInfo _ Hv) as (info & Hinfo).
  destruct (generateBasicSeasonalAdvice_ok (toLowerCase c) info
              (WeatherUtils.season (detectCurrentSeason w)) fs ad Hinfo
              (detectCurrentSeason_four w)
              (validateAdditionalData_stage o ad Ha))
    as (advice & E & L & F & S & C & _).
  exists advice. repeat split; try assumption.
  intros N. rewrite N in L. simpl in L. lia.
Qed.

End Orchestrator.

Section AdvisorWarnings.

Import WeatherUtils CropUtils Observe.

Lemma quiet_push (ws : list string) (x : string) :
  quiet ws -> kindOf x = None -> quiet (push ws x).
Proof.
  intros H Hx. apply Forall_app. split; [exact H |].
  constructor; [exact Hx | constructor].
Qed.

Lemma soilPhAdvice_quiet cropType ph a b :
  soilPhAdvice cropType ph a = Ok b ->
  quiet (warnings a) -> quiet (warnings b).
Proof.
  destruct ph as [ph |]; [| intros E; inversion E; subst b; tauto].
  unfold soilPhAdvice.
  generalize (getSoilPhCategory (Some ph)). intros category.
  unfold isSoilPhSuitableForCrop.
  destruct (getCropSoilPh cropType) as [range |]; [| discriminate].
  unfold JS.bind.
  destruct (Qgeb ph (Config.min range) && Qleb ph (Config.max range))%bool;
    [| destruct (Qltb ph (Config.min range))];
    destruct category; intros E; inversion E; subst b; cbn;
    intros Q; try exact Q; apply quiet_push; try exact Q; reflexivity.
Qed.

Lemma growthStateActions_warnings g a :
  warnings (growthStateActions g a) = warnings a.
Proof.
  unfold growthStateActions.
  destruct (g =? "germination"); [reflexivity |].
  destruct (g =? "vegetative"); [reflexivity |].
  destruct (g =? "flowering"); [reflexivity |].
  destruct (g =? "fruiting"); reflexivity.
Qed.

Lemma growthStateAdvice_warnings g a b :
  growthStateAdvice g a = Ok b -> warnings b = warnings a.
Proof.
  unfold growthStateAdvice.
  destruct (truthy_ostr g); [| intros E; inversion E; reflexivity].
  destruct (getGrowthStateInfo g) as [[info |] |]; unfold JS.bind;
    intros E; inversion E; [| reflexivity].
  unfold seq. cbn [fold_left]. rewrite growthStateActions_warnings.
  reflexivity.
Qed.

Lemma varietyAdvice_quiet info v fs a :
  quiet (warnings a) -> quiet (warnings (varietyAdvice info v fs a)).
Proof.
  intros Q. unfold varietyAdvice.
  destruct (truthy_prop (lookupVariety info v)); [| exact Q].
  destruct (isLow (lookupVariety info v) && Qeqb (totalRainfall fs) 0)%bool;
    cbn; [| exact Q].
  apply quiet_push; [exact Q | reflexivity].
Qed.

Lemma seasonAdvice_warnings s a :
  warnings (seasonAdvice s a) = warnings a.
Proof.
  unfold seasonAdvice.
  destruct (s =? "shortDry"); [reflexivity |].
  destruct (s =? "longRains"); [reflexivity |].
  destruct (s =? "longDry"); [reflexivity |].
  destruct (s =? "shortRains"); reflexivity.
Qed.

Lemma weatherAdvice_warnings fs a :
  warnings (weatherAdvice fs a) = warnings a.
Proof.
  unfold weatherAdvice.
  destruct (Qeqb (totalRainfall fs) 0);
    destruct (Nat.ltb 0 (heavyRainHours fs));
    destruct (Qgeb (maxWindSpeed fs)
                   Config.weatherThresholds.windSpeed.warning);
    reflexivity.
Qed.

Lemma cropAdvice_warnings c s a :
  warnings (cropAdvice c s a) = warnings a.
Proof.
  unfold cropAdvice.
  destruct (toLowerCase c =? "maize"); [reflexivity |].
  destruct (toLowerCase c =? "beans"); [reflexivity |].
  destruct (toLowerCase c =? "potatoes"); [reflexivity |].
  destruct (toLowerCase c =? "bananas"); reflexivity.
Qed.

(** The advisor passes on the warnings of the summary, after its own
    about the soil and the variety; with none in the summary, none of
    its warnings is a weather warning. *)
Lemma generateBasicSeasonalAdvice_quiet cropType s fs ad advice :
  WeatherUtils.warnings fs = Some [] ->
  generateBasicSeasonalAdvice cropType s fs ad = Ok advice ->
  quiet (warnings advice).
Proof.
  intros Hw. unfold generateBasicSeasonalAdvice.
  destruct (getCropInfo cropType) as [info |]; [| discriminate].
  unfold JS.bind at 1.
  match goal with
  | |- context [soilPhAdvice cropType (soilPh ad) ?a] => set (a0 := a)
  end.
  destruct (soilPhAdvice cropType (soilPh ad) a0) as [a1 |] eqn:E1;
    [| discriminate].
  unfold JS.bind at 1.
  destruct (growthStateAdvice (growthState ad) a1) as [a2 |] eqn:E2;
    [| discriminate].
  unfold JS.bind at 1.
  intros E. inversion E; subst advice; clear E.
  unfold weatherWarnings. rewrite Hw. cbn [warnings set_warnings].
  rewrite app_nil_r, cropAdvice_warnings, weatherAdvice_warnings,
    seasonAdvice_warnings.
  apply varietyAdvice_quiet.
  rewrite (growthStateAdvice_warnings _ _ _ E2).
  apply (soilPhAdvice_quiet _ _ _ _ E1). constructor.
Qed.

End AdvisorWarnings.

Section Generator.

Import WeatherUtils CropUtils GeminiService.

Lemma assoc_set_other (k k' : string) (v : json) (fs : list (string * json)) :
  k <> k' -> JS.assoc k' (JSON.set k v fs) = JS.assoc k' fs.
Proof.
  intros Hk. induction fs as [| [x y] fs IH]; simpl.
  - destruct (String.eqb_spec k k'); [contradiction | reflexivity].
  - destruct (String.eqb_spec x k) as [-> | Hx]; simpl.
    + destruct (String.eqb_spec k k'); [contradiction | reflexivity].
    + destruct (String.eqb_spec x k'); [reflexivity | exact IH].
Qed.

Lemma assoc_remove_other (k k' : string) (fs : list (string * json)) :
  k <> k' -> JS.assoc k' (JSON.remove k fs) = JS.assoc k' fs.
Proof.
  intros Hk. induction fs as [| [x y] fs IH]; simpl; [reflexivity |].
  destruct (String.eqb_spec x k) as [-> | Hx]; simpl.
  - destruct (String.eqb_spec k k'); [contradiction | exact IH].
  - destruct (String.eqb_spec x k'); [reflexivity | exact IH].
Qed.

Lemma assoc_ensureArray_other (k k' : string) (fs : list (string * json)) :
  k <> k' -> JS.assoc k' (ensureArray k fs) = JS.assoc k' fs.
Proof.
  intros Hk. unfold ensureArray.
  destruct (JS.assoc k fs) as [[] |];
    try reflexivity; apply assoc_set_other, Hk.
Qed.

(** A validated answer has a truthy forecast narrative, and carries the
    forecast summary it was asked with. *)
Lemma validateStructure_narrative w v fs ad g :
  validateStructure w v fs ad = Ok g ->
  weather_data (metadata g) = fs
  /\ truthy_opt (JS.assoc "forecast_summary" (fields g)) = true.
Proof.
  unfold validateStructure.
  destruct v as [| b | q | s | items | fs0]; try discriminate.
  destruct (Nat.ltb 0 _) eqn:L; [discriminate |].
  intros E. inversion E; subst g; clear E. cbn [fields metadata].
  split; [reflexivity |].
  rewrite assoc_remove_other by discriminate.
  rewrite !assoc_ensureArray_other by discriminate.
  revert L. cbn [requiredFields filter].
  destruct (truthy_opt (JS.assoc "forecast_summary" fs0));
    [reflexivity | discriminate].
Qed.

Lemma generated_is_validated w fs s c ad g :
  generateAdvice w fs s c ad = Ok g ->
  exists v, validateStructure w v fs ad = Ok g.
Proof.
  unfold generateAdvice.
  destruct (isAvailable w); [| discriminate]. simpl negb. cbv iota.
  destruct (gemini w) as [[text |] | status msg | code msg | msg].
  - destruct (truthy_str text); [| discriminate].
    unfold parseAIResponse, parseAIResponse_try.
    destruct (indexOf "{" text), (lastIndexOf "}" text);
      try discriminate.
    destruct (JSON.parse _) as [v |]; [| discriminate].
    simpl. destruct (validateStructure w v fs ad) as [g' |] eqn:V;
      [| discriminate].
    simpl. intros E. inversion E; subst g'. exists v. exact V.
  - discriminate.
  - destruct (status =? 400)%Z; [discriminate |].
    destruct (status =? 401)%Z; [discriminate |].
    destruct (status =? 403)%Z; [discriminate |].
    destruct (status =? 429)%Z; [discriminate |].
    destruct (status =? 500)%Z; discriminate.
  - destruct (code =? "ECONNABORTED"); discriminate.
  - discriminate.
Qed.

End Generator.

Section OrchestratorClaims.

Import WeatherUtils CropUtils AdviceService Observe.

(** The outcome of a validated request, path by path. *)
Lemma generateAdvice_paths (w : World) (o : Options) (lat lon : Q)
    (c : string) (ad : AdditionalData) :
  validateAndSetCoordinates (opt_lat o) (opt_lon o) = Ok (lat, lon) ->
  opt_crop o = Some c ->
  validateCropType (toLowerCase c) = true ->
  validateAdditionalData o = Ok ad ->
  let summary := fst (fetchForecast w lat lon) in
  let weatherWarnings := snd (fetchForecast w lat lon) in
  let forecastSummary := setWarnings weatherWarnings summary in
  let s := WeatherUtils.season (detectCurrentSeason w) in
  let metadata := stamp w o lat lon (detectCurrentSeason w) ad in
  exists basic,
    generateBasicSeasonalAdvice (toLowerCase c) s forecastSummary ad
    = Ok basic
    /\ forecast_summary basic = forecastNarrative forecastSummary
    /\ generateAdvice w o =
         if useAI w o then
           match GeminiService.generateAdvice w forecastSummary s
                   (toLowerCase c) ad with
           | Ok g =>
               Ok {| body :=
                       Generated
                         (if Nat.ltb 0 (List.length weatherWarnings)
                          then prependWarnings weatherWarnings
                                 (GeminiService.fields g)
                          else GeminiService.fields g);
                     metadata :=
                       metadata (Some (GeminiService.metadata g)) |}
           | Throw _ =>
               Ok {| body := RuleBased basic; metadata := metadata None |}
           end
         else Ok {| body := RuleBased basic; metadata := metadata None |}.
Proof.
  intros Hc Hcrop Hv Ha summary weatherWarnings forecastSummary s metadata.
  destruct (basic_advice_validated w o c ad forecastSummary Hv Ha)
    as (basic & Hb & Hn & _).
  exists basic. split; [exact Hb |]. split; [exact Hn |].
  unfold generateAdvice.
  rewrite (generateAdvice_validated w o lat lon c ad Hc Hcrop Hv Ha).
  unfold synthesize.
  subst summary weatherWarnings forecastSummary s metadata.
  destruct (fetchForecast w lat lon) as [fs0 ww]. cbn [fst snd] in *.
  rewrite Hb. unfold JS.bind.
  destruct (useAI w o); [| reflexivity].
  destruct (GeminiService.generateAdvice _ _ _ _ _); reflexivity.
Qed.

(** When the generator is tried and fails, the caller gets the advice of
    the rule table, without an error, under the tag of the generator. *)
Lemma fallback_keeps_the_generator_tag (w : World) (o : Options)
    (lat lon : Q) (c : string) (ad : AdditionalData) (e : exn) :
  validateAndSetCoordinates (opt_lat o) (opt_lon o) = Ok (lat, lon) ->
  opt_crop o = Some c ->
  validateCropType (toLowerCase c) = true ->
  validateAdditionalData o = Ok ad ->
  useAI w o = true ->
  GeminiService.generateAdvice w
    (setWarnings (snd (fetchForecast w lat lon))
                 (fst (fetchForecast w lat lon)))
    (WeatherUtils.season (detectCurrentSeason w)) (toLowerCase c) ad
  = Throw e ->
  exists advice basic,
    generateAdvice w o = Ok advice
    /\ body advice = RuleBased basic
    /\ advice_source (metadata advice) = "gemini_ai".
Proof.
  intros Hc Hcrop Hv Ha Hai Hgen.
  destruct (generateAdvice_paths w o lat lon c ad Hc Hcrop Hv Ha)
    as (basic & _ & _ & E).
  cbv zeta in E. rewrite Hai, Hgen in E.
  eexists. exists basic. split; [exact E |].
  split; [reflexivity |]. cbn. rewrite Hai. reflexivity.
Qed.

(** C1, where the code departs from it.  The generator is enabled and
    configured, its answer cannot be parsed, the rule-based advisor
    produces the advice and no error surfaces; but the source tag is
    the one of the path that was attempted, [gemini_ai], not
    [basic_seasonal]. *)
Theorem C1_fallback_source_tag :
  GeminiService.isAvailable proseWorld = true
  /\ exists advice basic,
       generateAdvice proseWorld maizeRequest = Ok advice
       /\ body advice = RuleBased basic
       /\ advice_source (metadata advice) = "gemini_ai"
       /\ advice_source (metadata advice) <> "basic_seasonal".
Proof.
  split; [reflexivity |].
  do 2 eexists. split; [vm_compute; reflexivity |].
  split; [reflexivity |]. split; [reflexivity | discriminate].
Qed.

(** C2, as stated, fails: the provider call fails, the request succeeds,
    and [weather_service_available] is [true], the key being there. *)
Lemma C2_counterexample :
  WeatherService.getForecast timeoutWorld Config.defaultLat
    Config.defaultLon
  = Throw (Error "OpenWeather API request timeout")
  /\ exists advice,
       generateAdvice timeoutWorld maizeRequest = Ok advice
       /\ weather_service_available (metadata advice) = true.
Proof.
  split; [reflexivity |].
  eexists. split; [vm_compute; reflexivity | reflexivity].
Qed.

(** C2, amended.  For every request that passes validation, if the
    forecast cannot be had (the provider call fails, or the payload it
    returns cannot be summarized) the orchestrator still returns an
    advice: the forecast is the neutral summary (no rain, 15 to 25
    degrees, wind 10, condition unknown, location named Unknown), the
    advice has a forecast narrative, and [weather_service_available]
    tells whether the weather API key is configured: [false] when the
    failure is a missing key, [true] when the key is there, as it is
    when the service answered with a bad payload. *)
Theorem C2_degraded_mode (w : World) (o : Options) (lat lon : Q)
    (c : string) (ad : AdditionalData) :
  validateAndSetCoordinates (opt_lat o) (opt_lon o) = Ok (lat, lon) ->
  opt_crop o = Some c ->
  validateCropType (toLowerCase c) = true ->
  validateAdditionalData o = Ok ad ->
  forecastFails w lat lon ->
  fst (fetchForecast w lat lon)
  = {| totalRainfall := 0;
       maxTemperature := Finite 25;
       minTemperature := Finite 15;
       maxWindSpeed := 10;
       rainHours := 0;
       heavyRainHours := 0;
       windHours := 0;
       conditions := ["unknown"];
       forecastPeriod := "48 hours";
       WeatherUtils.location :=
         {| lat := lat; lon := lon; name := "Unknown" |};
       WeatherUtils.warnings := None |}
  /\ exists advice,
       generateAdvice w o = Ok advice
       /\ narrativePopulated advice = true
       /\ weather_service_available (metadata advice)
          = WeatherService.isAvailable w
       /\ (OPENWEATHER_API_KEY w = None ->
           weather_service_available (metadata advice) = false)
       /\ (forall key, OPENWEATHER_API_KEY w = Some key ->
           key <> EmptyString ->
           weather_service_available (metadata advice) = true)
       /\ (forall d, WeatherService.getForecast w lat lon = Ok d ->
           weather_service_available (metadata advice) = true)
       /\ match body advice with
          | RuleBased a =>
              forecast_summary a
              = "Weather forecast for next 48 hours: 0mm rainfall, 15°C to 25°C, wind up to 10 km/h"
          | Generated _ =>
              weather_data (metadata advice)
              = Some (setWarnings [] (basicForecastSummary lat lon))
          end.
Proof.
  intros Hc Hcrop Hv Ha Hf.
  assert (Hfetch : fetchForecast w lat lon = (basicForecastSummary lat lon, [])).
  { destruct Hf as [(e & Hf) | (d & e & Hf & Hs)].
    - exact (fetchForecast_degraded w lat lon e Hf).
    - exact (fetchForecast_malformed w lat lon d e Hf Hs). }
  split; [rewrite Hfetch; reflexivity |].
  destruct (generateAdvice_paths w o lat lon c ad Hc Hcrop Hv Ha)
    as (basic & Hb & Hn & E).
  cbv zeta in Hb, Hn, E. rewrite Hfetch in Hb, Hn, E.
  cbn [fst snd] in Hb, Hn, E.
  assert (Hkey : OPENWEATHER_API_KEY w = None ->
                 WeatherService.isAvailable w = false).
  { intros K. unfold WeatherService.isAvailable, WeatherService.apiKey.
    rewrite K. reflexivity. }
  assert (Hset : forall key, OPENWEATHER_API_KEY w = Some key ->
                             key <> EmptyString ->
                             WeatherService.isAvailable w = true).
  { intros key K Hne.
    unfold WeatherService.isAvailable, WeatherService.apiKey.
    rewrite K. destruct key; [contradiction | reflexivity]. }
  assert (Hans : forall d, WeatherService.getForecast w lat lon = Ok d ->
                           WeatherService.isAvailable w = true).
  { intros d. unfold WeatherService.getForecast.
    destruct (WeatherService.isAvailable w); [reflexivity | discriminate]. }
  assert (Hrule :
            exists advice,
              Ok {| body := RuleBased basic;
                    metadata := stamp w o lat lon (detectCurrentSeason w)
                                  ad None |} = Ok advice
              /\ narrativePopulated advice = true
              /\ weather_service_available (metadata advice)
                 = WeatherService.isAvailable w
              /\ (OPENWEATHER_API_KEY w = None ->
                  weather_service_available (metadata advice) = false)
              /\ (forall key, OPENWEATHER_API_KEY w = Some key ->
                  key <> EmptyString ->
                  weather_service_available (metadata advice) = true)
              /\ (forall d, WeatherService.getForecast w lat lon = Ok d ->
                  weather_service_available (metadata advice) = true)
              /\ match body advice with
                 | RuleBased a =>
                     forecast_summary a
                     = "Weather forecast for next 48 hours: 0mm rainfall, 15°C to 25°C, wind up to 10 km/h"
                 | Generated _ =>
                     weather_data (metadata advice)
                     = Some (setWarnings [] (basicForecastSummary lat lon))
                 end).
  { eexists. split; [reflexivity |].
    unfold narrativePopulated. cbn [body metadata]. rewrite Hn.
    split; [reflexivity |]. split; [reflexivity |].
    split; [exact Hkey |]. split; [exact Hset |].
    split; [exact Hans | reflexivity]. }
  destruct (useAI w o); [| rewrite E; exact Hrule].
  destruct (GeminiService.generateAdvice w
              (setWarnings [] (basicForecastSummary lat lon))
              (WeatherUtils.season (detectCurrentSeason w))
              (toLowerCase c) ad) as [g | e'] eqn:Hg;
    [| rewrite E; exact Hrule].
  destruct (generated_is_validated _ _ _ _ _ _ Hg) as (v & Hval).
  destruct (validateStructure_narrative _ _ _ _ _ Hval) as [Hdata Hnarr].
  eexists. split; [exact E |].
  unfold narrativePopulated. cbn.
  split; [exact Hnarr |]. split; [reflexivity |].
  split; [exact Hkey |]. split; [exact Hset |]. split; [exact Hans |].
  rewrite Hdata. reflexivity.
Qed.

Lemma C2_degraded_mode_witness :
  (exists advice,
      generateAdvice offlineWorld maizeRequest = Ok advice
      /\ narrativePopulated advice = true
      /\ weather_service_available (metadata advice) = false)
  /\ (exists advice,
        generateAdvice badPayloadWorld maizeRequest = Ok advice
        /\ narrativePopulated advice = true
        /\ weather_service_available (metadata advice) = true).
Proof.
  split.
  - destruct (C2_degraded_mode offlineWorld maizeRequest
                Config.defaultLat Config.defaultLon "maize"
                noAdditionalData eq_refl eq_refl eq_refl eq_refl)
      as (_ & advice & E & N & _ & K & _).
    + left. exists (Error "OpenWeather API key not configured").
      reflexivity.
    + exists advice. split; [exact E |]. split; [exact N |].
      apply K. reflexivity.
  - destruct (C2_degraded_mode badPayloadWorld maizeRequest
                Config.defaultLat Config.defaultLon "maize"
                noAdditionalData eq_refl eq_refl eq_refl eq_refl)
      as (_ & advice & E & N & _ & _ & _ & K & _).
    + right. eexists. exists invalidForecastData.
      split; reflexivity.
    + exists advice. split; [exact E |]. split; [exact N |].
      apply (K _ eq_refl).
Defined.

(** C10. When the forecast provider call fails, the warnings that go
    with the neutral summary are the empty list the request started
    with: the warning generator is not run on the neutral summary,
    which it would answer with the no-rain advisory.  The advice of the
    rule table then has no weather warning at all, and the advice of
    the generator has the generator's warnings with nothing put before
    them. *)
Theorem C10_no_weather_warnings_in_degraded_mode (w : World) (o : Options)
    (lat lon : Q) (c : string) (ad : AdditionalData) (e : exn) :
  validateAndSetCoordinates (opt_lat o) (opt_lon o) = Ok (lat, lon) ->
  opt_crop o = Some c ->
  validateCropType (toLowerCase c) = true ->
  validateAdditionalData o = Ok ad ->
  WeatherService.getForecast w lat lon = Throw e ->
  let neutral := basicForecastSummary lat lon in
  fetchForecast w lat lon = (neutral, [])
  /\ generateWeatherWarnings neutral = [noRainWarning]
  /\ exists advice,
       generateAdvice w o = Ok advice
       /\ match body advice with
          | RuleBased a =>
              generateBasicSeasonalAdvice (toLowerCase c)
                (WeatherUtils.season (detectCurrentSeason w))
                (setWarnings [] neutral) ad = Ok a
              /\ (forall x, In x (CropUtils.warnings a) ->
                            kindOf x = None)
              /\ ~ In noRainWarning (CropUtils.warnings a)
          | Generated fields =>
              exists g,
                GeminiService.generateAdvice w (setWarnings [] neutral)
                  (WeatherUtils.season (detectCurrentSeason w))
                  (toLowerCase c) ad = Ok g
                /\ fields = GeminiService.fields g
          end.
Proof.
  intros Hc Hcrop Hv Ha Hf neutral.
  assert (Hfetch := fetchForecast_degraded w lat lon e Hf).
  split; [exact Hfetch |]. split; [reflexivity |].
  destruct (generateAdvice_paths w o lat lon c ad Hc Hcrop Hv Ha)
    as (basic & Hb & _ & E).
  cbv zeta in Hb, E. rewrite Hfetch in Hb, E. cbn [fst snd] in Hb, E.
  fold neutral in Hb, E.
  assert (Hq : quiet (CropUtils.warnings basic)).
  { apply (generateBasicSeasonalAdvice_quiet (toLowerCase c)
             (WeatherUtils.season (detectCurrentSeason w))
             (setWarnings [] neutral) ad basic);
      [reflexivity | exact Hb]. }
  assert (Hrule :
            exists advice,
              Ok {| body := RuleBased basic;
                    metadata := stamp w o lat lon (detectCurrentSeason w)
                                  ad None |} = Ok advice
              /\ match body advice with
                 | RuleBased a =>
                     generateBasicSeasonalAdvice (toLowerCase c)
                       (WeatherUtils.season (detectCurrentSeason w))
                       (setWarnings [] neutral) ad = Ok a
                     /\ (forall x, In x (CropUtils.warnings a) ->
                                   kindOf x = None)
                     /\ ~ In noRainWarning (CropUtils.warnings a)
                 | Generated fields =>
                     exists g,
                       GeminiService.generateAdvice w
                         (setWarnings [] neutral)
                         (WeatherUtils.season (detectCurrentSeason w))
                         (toLowerCase c) ad = Ok g
                       /\ fields = GeminiService.fields g
                 end).
  { eexists. split; [reflexivity |]. cbn [body].
    split; [exact Hb |].
    assert (Hall : forall x, In x (CropUtils.warnings basic) ->
                             kindOf x = None)
      by (apply Forall_forall; exact Hq).
    split; [exact Hall |].
    intros Hin. apply Hall in Hin. discriminate Hin. }
  destruct (useAI w o); [| rewrite E; exact Hrule].
  destruct (GeminiService.generateAdvice w (setWarnings [] neutral)
              (WeatherUtils.season (detectCurrentSeason w))
              (toLowerCase c) ad) as [g | e'] eqn:Hg;
    [| rewrite E; exact Hrule].
  eexists. split; [exact E |]. cbn.
  exists g. split; reflexivity.
Qed.

Lemma C10_no_weather_warnings_in_degraded_mode_witness :
  exists advice a,
    generateAdvice offlineWorld maizeRequest = Ok advice
    /\ body advice = RuleBased a
    /\ CropUtils.warnings a = [].
Proof.
  destruct (C10_no_weather_warnings_in_degraded_mode offlineWorld
              maizeRequest Config.defaultLat Config.defaultLon "maize"
              noAdditionalData
              (Error "OpenWeather API key not configured")
              eq_refl eq_refl eq_refl eq_refl eq_refl)
    as (_ & _ & advice & E & B).
  exists advice.
  assert (E' : generateAdvice offlineWorld maizeRequest = Ok advice)
    by exact E.
  vm_compute in E. inversion E; subst advice; clear E.
  eexists. split; [exact E' |]. split; reflexivity.
Defined.

End OrchestratorClaims.

(* ================================================================== *)
(** ** Further properties: seasons and the forecast summary *)

Section SeasonCalendar.

Import WeatherUtils.

(** Every calendar month lies between the first and the last month of the
    season [detectCurrentSeason] gives it: the month ranges of the code
    and the month names of [config.seasons] agree.  The description is
    the one of the table. *)
Theorem season_calendar (w : World) :
  (1 <= month w <= 12)%Z ->
  let info := detectCurrentSeason w in
  In (season info) fourSeasons
  /\ currentMonth info = month w
  /\ (exists s, JS.assoc (season info) Config.seasons = Some s
                /\ description info = Config.season_description s
                /\ start info = Config.season_start s
                /\ end_ info = Config.season_end s)
  /\ exists first last,
       monthNumber (start info) = Some first
       /\ monthNumber (end_ info) = Some last
       /\ (first <= month w <= last)%Z.
Proof.
  intros Hm. unfold detectCurrentSeason.
  destruct ((1 <=? month w) && (month w <=? 2))%Z%bool eqn:E1.
  { cbn. split; [tauto |]. split; [reflexivity |].
    split; [eexists; repeat split |].
    exists 1%Z, 2%Z. repeat split; lia. }
  destruct ((3 <=? month w) && (month w <=? 5))%Z%bool eqn:E2.
  { cbn. split; [tauto |]. split; [reflexivity |].
    split; [eexists; repeat split |].
    exists 3%Z, 5%Z. repeat split; lia. }
  destruct ((6 <=? month w) && (month w <=? 9))%Z%bool eqn:E3.
  { cbn. split; [tauto |]. split; [reflexivity |].
    split; [eexists; repeat split |].
    exists 6%Z, 9%Z. repeat split; lia. }
  cbn. split; [tauto |]. split; [reflexivity |].
  split; [eexists; repeat split |].
  exists 10%Z, 12%Z. repeat split; lia.
Qed.

Lemma season_calendar_witness :
  exists first last,
    monthNumber (start (detectCurrentSeason offlineWorld)) = Some first
    /\ monthNumber (end_ (detectCurrentSeason offlineWorld)) = Some last
    /\ (first <= 11 <= last)%Z.
Proof.
  destruct (season_calendar offlineWorld) as (_ & _ & _ & H).
  - simpl. lia.
  - exact H.
Defined.

End SeasonCalendar.

Section SummaryInvariants.

Import WeatherUtils.




Lemma accumulate_wind (t : Totals) (p : ForecastPoint) :
  t_maxWindSpeed (accumulate t p)
  = match wind_speed p with
    | Some s => if Qgtb s (t_maxWindSpeed t) then s else t_maxWindSpeed t
    | None => t_maxWindSpeed t
    end
  /\ t_windHours (accumulate t p)
     = match wind_speed p with
       | Some s => if Qgeb s 20 then S (t_windHours t) else t_windHours t
       | None => t_windHours t
       end.
Proof.
  unfold accumulate.
  destruct (rain3h p) as [r |]; [destruct (truthy_num r) |];
    split; reflexivity.
Qed.

Lemma Qgtb_false (a b : Q) : Qgtb a b = false -> a <= b.
Proof.
  unfold Qgtb. intros H. apply negb_false_iff in H.
  apply Qle_bool_iff, H.
Qed.

Lemma Qgtb_true (a b : Q) : Qgtb a b = true -> b <= a.
Proof.
  unfold Qgtb. intros H. apply negb_true_iff in H.
  destruct (Qlt_le_dec b a) as [L | L]; [apply Qlt_le_weak, L |].
  apply Qle_bool_iff in L. congruence.
Qed.

Lemma Qltb_false (a b : Q) : Qltb a b = false -> b <= a.
Proof. unfold Qltb. apply (Qgtb_false b a). Qed.





(** The wind figures after the loop. *)
Lemma accumulate_winds (l : list ForecastPoint) :
  forall t : Totals,
    let t' := fold_left accumulate l t in
    t_maxWindSpeed t <= t_maxWindSpeed t'
    /\ (forall v, In v (windSpeeds l) -> v <= t_maxWindSpeed t')
    /\ t_windHours t'
       = (t_windHours t + count (fun v => Qgeb v 20) (windSpeeds l))%nat.
Proof.
  induction l as [| p l IH]; intros t; simpl.
  - unfold count. simpl. repeat split; [apply Qle_refl | intros v [] | lia].
  - destruct (IH (accumulate t p)) as (M1 & M2 & M3).
    destruct (accumulate_wind t p) as [E1 E2].
    unfold windSpeeds in *. simpl.
    rewrite M3, E2. unfold count in *. rewrite filter_app, length_app.
    rewrite E1 in M1.
    destruct (wind_speed p) as [s |]; simpl.
    + assert (Hs : s <= t_maxWindSpeed (fold_left accumulate l (accumulate t p))
                   /\ t_maxWindSpeed t
                      <= t_maxWindSpeed
                           (fold_left accumulate l (accumulate t p))).
      { destruct (Qgtb s (t_maxWindSpeed t)) eqn:G.
        - apply Qgtb_true in G. split; [exact M1 |].
          apply (Qle_trans _ _ _ G M1).
        - apply Qgtb_false in G. split; [| exact M1].
          apply (Qle_trans _ _ _ G M1). }
      destruct Hs as [Hs Ht].
      split; [exact Ht |]. split.
      * intros v [<- | Hv]; [exact Hs | exact (M2 v Hv)].
      * destruct (Qgeb s 20); simpl; lia.
    + split; [exact M1 |]. split; [exact M2 | lia].
Qed.

(** The summary, field by field, in terms of the totals of the loop. *)
Lemma summarizeForecast_fields (data : ForecastData)
    (points : list ForecastPoint) (c : City) :
  data_list data = Some points -> city data = Some c ->
  let t := fold_left accumulate (firstn 16 points) initialTotals in
  exists fs,
    summarizeForecast (Some data) = Ok fs
    /\ totalRainfall fs = Double.round1 (t_totalRainfall t)
    /\ maxTemperature fs = kelvinToCelsius1 (t_maxTemp t)
    /\ minTemperature fs = kelvinToCelsius1 (t_minTemp t)
    /\ maxWindSpeed fs = Math_round (t_maxWindSpeed t * (36 # 10))
    /\ rainHours fs = t_rainHours t
    /\ heavyRainHours fs = t_heavyRainHours t
    /\ windHours fs = t_windHours t
    /\ conditions fs
       = ((if Qgtb (t_totalRainfall t) 0 then ["rain"] else [])
          ++ (if Nat.ltb 0 (t_heavyRainHours t) then ["heavy_rain"] else [])
          ++ (if Nat.ltb 0 (t_windHours t) then ["wind"] else [])
          ++ (if x_gt (kelvinToCelsius1 (t_maxTemp t)) 35
              then ["high_temperature"] else [])
          ++ (if x_lt (kelvinToCelsius1 (t_minTemp t)) 10
              then ["low_temperature"] else []))%list
    /\ location fs = {| lat := coord_lat c; lon := coord_lon c;
                        name := city_name c |}.
Proof.
  intros Hl Hc t. unfold summarizeForecast. rewrite Hl, Hc. cbv zeta.
  subst t.
  set (t := fold_left accumulate (firstn 16 points) initialTotals).
  clearbody t.
  eexists. split; [reflexivity |].
  cbn [totalRainfall maxTemperature minTemperature maxWindSpeed rainHours
       heavyRainHours windHours conditions location].
  repeat (split; [reflexivity |]). split; [| reflexivity].
  unfold push.
  change Config.weatherThresholds.temperature.max with 35.
  change Config.weatherThresholds.temperature.min with 10.
  destruct (Qgtb (t_totalRainfall t) 0);
    destruct (Nat.ltb 0 (t_heavyRainHours t));
    destruct (Nat.ltb 0 (t_windHours t));
    destruct (x_gt (kelvinToCelsius1 (t_maxTemp t)) 35);
    destruct (x_lt (kelvinToCelsius1 (t_minTemp t)) 10);
    reflexivity.
Qed.

End SummaryInvariants.

Section SummaryProperties.

Import WeatherUtils.

Lemma count_le_length (f : Q -> bool) (l : list Q) :
  (count f l <= List.length l)%nat.
Proof.
  unfold count. induction l as [| x l IH]; simpl; [lia |].
  destruct (f x); simpl; lia.
Qed.

Lemma count_mono (f g : Q -> bool) (l : list Q) :
  (forall x, f x = true -> g x = true) -> (count f l <= count g l)%nat.
Proof.
  intros H. unfold count. induction l as [| x l IH]; simpl; [lia |].
  destruct (f x) eqn:F; [rewrite (H x F); simpl; lia |].
  destruct (g x); simpl; lia.
Qed.

Lemma windSpeeds_length (l : list ForecastPoint) :
  (List.length (windSpeeds l) <= List.length l)%nat.
Proof.
  unfold windSpeeds.
  induction l as [| p l IH]; simpl; [lia |].
  rewrite length_app. destruct (wind_speed p); simpl; lia.
Qed.



(** The counts of a summary: the heavy-rain intervals are among the rain
    intervals, and no count exceeds the 16 intervals of the window. *)
Theorem summary_counts (data : ForecastData)
    (points : list ForecastPoint) (c : City) :
  data_list data = Some points -> city data = Some c ->
  exists fs,
    summarizeForecast (Some data) = Ok fs
    /\ (heavyRainHours fs <= rainHours fs)%nat
    /\ (rainHours fs <= List.length (firstn 16 points))%nat
    /\ (windHours fs <= List.length (firstn 16 points))%nat
    /\ (List.length (firstn 16 points) <= 16)%nat.
Proof.
  intros Hl Hc.
  destruct (summarizeForecast_fields data points c Hl Hc)
    as (fs & E & _ & _ & _ & _ & Hr & Hh & Hw & _).
  cbv zeta in Hr, Hh, Hw.
  assert (Hlen : (List.length (firstn 16 points) <= 16)%nat)
    by apply firstn_le_length.
  set (window := firstn 16 points) in *. clearbody window.
  destruct (accumulate_rain window initialTotals) as (_ & Ar & Ah).
  destruct (accumulate_winds window initialTotals) as (_ & _ & Aw).
  cbv zeta in Ar, Ah, Aw. simpl in Ar, Ah, Aw.
  exists fs. split; [exact E |].
  rewrite Hr, Hh, Hw, Ar, Ah, Aw.
  split.
  { apply count_mono. intros x Hx. apply heavy_is_truthy. exact Hx. }
  split.
  { apply (Nat.le_trans _ _ _ (count_le_length _ _)).
    apply precipitations_length. }
  split.
  { apply (Nat.le_trans _ _ _ (count_le_length _ _)).
    apply windSpeeds_length. }
  exact Hlen.
Qed.

Lemma summary_counts_witness :
  exists fs,
    summarizeForecast (Some showers) = Ok fs
    /\ (heavyRainHours fs <= rainHours fs)%nat.
Proof.
  destruct (summary_counts showers _ kigali eq_refl eq_refl)
    as (fs & E & H & _).
  exists fs. split; assumption.
Defined.

End SummaryProperties.

Section SummaryTags.

Import WeatherUtils.

Lemma In_tag (b : bool) (tag x : string) :
  In x (if b then [tag] else []) <-> b = true /\ tag = x.
Proof.
  destruct b; simpl; intuition congruence.
Qed.

(** The tags pushed for five flags. *)
Lemma tags_of_flags (rain heavy wind high low : bool) :
  let tags :=
    ((if rain then ["rain"] else [])
     ++ (if heavy then ["heavy_rain"] else [])
     ++ (if wind then ["wind"] else [])
     ++ (if high then ["high_temperature"] else [])
     ++ (if low then ["low_temperature"] else []))%list in
  NoDup tags
  /\ (forall tag, In tag tags ->
        In tag ["rain"; "heavy_rain"; "wind"; "high_temperature";
                "low_temperature"])
  /\ (In "rain" tags <-> rain = true)
  /\ (In "heavy_rain" tags <-> heavy = true)
  /\ (In "wind" tags <-> wind = true)
  /\ (In "high_temperature" tags <-> high = true)
  /\ (In "low_temperature" tags <-> low = true).
Proof.
  cbv zeta. split.
  { destruct rain, heavy, wind, high, low;
      simpl; repeat constructor; simpl; intuition discriminate. }
  split.
  { intros tag. rewrite !in_app_iff, !In_tag. simpl. intuition. }
  repeat split; rewrite ?in_app_iff, ?In_tag; intros H;
    try (intuition discriminate); tauto.
Qed.



Lemma count_positive (f : Q -> bool) (l : list Q) :
  (0 < count f l)%nat -> exists x, In x l /\ f x = true.
Proof.
  unfold count. induction l as [| x l IH]; simpl; [lia |].
  destruct (f x) eqn:F.
  - intros _. exists x. split; [left; reflexivity | exact F].
  - intros H. destruct (IH H) as (y & Hy & Fy).
    exists y. split; [right; exact Hy | exact Fy].
Qed.

(** The tags of a summary and the warnings generated from it tell the
    same: a temperature or heavy-rain tag comes with its warning and
    without it there is none.  An interval counts as windy at 20 and
    more, in metres per second, and the warning thresholds are in
    kilometres per hour: with the [wind] tag the warning is always the
    dangerous-wind one.  The no-rain advisory excludes the rain tags. *)
Theorem summary_tags_match_warnings (data : ForecastData)
    (points : list ForecastPoint) (c : City) :
  data_list data = Some points -> city data = Some c ->
  exists fs,
    summarizeForecast (Some data) = Ok fs
    /\ let ws := generateWeatherWarnings fs in
       (In "high_temperature" (conditions fs)
        <-> countKind TemperatureHigh ws = 1%nat)
       /\ (In "low_temperature" (conditions fs)
           <-> countKind TemperatureLow ws = 1%nat)
       /\ (In "heavy_rain" (conditions fs)
           <-> countKind HeavyRain ws = 1%nat)
       /\ (In "wind" (conditions fs) ->
           In (dangerousWindWarning (maxWindSpeed fs)) ws
           /\ 72 <= maxWindSpeed fs)
       /\ (In noRainWarning ws ->
           ~ In "heavy_rain" (conditions fs)).
Proof.
  intros Hl Hc.
  destruct (summarizeForecast_fields data points c Hl Hc)
    as (fs & E & _ & Hmax & Hmin & Hwind & Hr & Hh & Hw & Hcond & _).
  cbv zeta in Hmax, Hmin, Hwind, Hr, Hh, Hw, Hcond.
  destruct (accumulate_rain (firstn 16 points) initialTotals)
    as (_ & Ar & Ah).
  destruct (accumulate_winds (firstn 16 points) initialTotals)
    as (_ & W2 & W3).
  cbv zeta in Ar, Ah, W2, W3.
  set (window := firstn 16 points) in *. clearbody window.
  set (t := fold_left accumulate window initialTotals) in *.
  destruct (tags_of_flags (Qgtb (t_totalRainfall t) 0)
              (Nat.ltb 0 (t_heavyRainHours t)) (Nat.ltb 0 (t_windHours t))
              (x_gt (kelvinToCelsius1 (t_maxTemp t)) 35)
              (x_lt (kelvinToCelsius1 (t_minTemp t)) 10))
    as (_ & _ & _ & Theavy & Twind & Thigh & Tlow).
  cbv zeta in Theavy, Twind, Thigh, Tlow. rewrite <- Hcond in *.
  exists fs. split; [exact E |]. cbv zeta.
  rewrite !countKind_generateWeatherWarnings.
  rewrite Thigh, Tlow, Theavy, Twind, Hmax, Hmin, Hh.
  split; [destruct (x_gt _ 35); split; congruence |].
  split; [destruct (x_lt _ 10); split; congruence |].
  split; [destruct (Nat.ltb 0 _); split; congruence |].
  split.
  - intros Hwh. apply Nat.ltb_lt in Hwh.
    change (t_windHours initialTotals) with 0%nat in W3.
    rewrite W3 in Hwh. simpl in Hwh.
    destruct (count_positive _ _ Hwh) as (v & Hv & Hv20).
    apply Qle_bool_iff in Hv20. specialize (W2 v Hv).
    assert (H72 : 72 <= maxWindSpeed fs).
    { rewrite Hwind.
      rewrite <- (Math_round_integer 72).
      apply Math_round_le. change (inject_Z 72) with 72. lra. }
    split; [| exact H72].
    apply In_generateWeatherWarnings. do 2 right. left. left.
    split; [| reflexivity]. apply Qle_bool_iff. lra.
  - intros Hno Hheavy. apply noRain_iff in Hno. destruct Hno as [_ Hno].
    apply Nat.ltb_lt in Hheavy.
    rewrite Hr in Hno. change (t_rainHours initialTotals) with 0%nat in Ar.
    change (t_heavyRainHours initialTotals) with 0%nat in Ah.
    rewrite Ar in Hno. rewrite Ah in Hheavy. simpl in Hno, Hheavy.
    assert (M : (count (fun r => Qgeb r 15) (precipitations window)
                 <= count truthy_num (precipitations window))%nat).
    { apply count_mono. intros x Hx. apply heavy_is_truthy. exact Hx. }
    lia.
Qed.

Lemma summary_tags_match_warnings_witness :
  exists fs,
    summarizeForecast (Some gale) = Ok fs
    /\ In (dangerousWindWarning (maxWindSpeed fs))
          (generateWeatherWarnings fs).
Proof.
  destruct (summary_tags_match_warnings gale _ kigali eq_refl eq_refl)
    as (fs & E & _ & _ & _ & H & _).
  exists fs. split; [exact E |]. apply H.
  assert (Hc : conditions fs = ["wind"]).
  { cbv in E. inversion E. reflexivity. }
  rewrite Hc. left. reflexivity.
Defined.

End SummaryTags.

Section SummaryFigures.

Import WeatherUtils.




End SummaryFigures.

(* ================================================================== *)
(** ** Further properties: the crop table and the soil *)

Section CropQueries.

Import CropUtils.

Lemma lower_char_idempotent (c : ascii) :
  lower_char (lower_char c) = lower_char c.
Proof.
  destruct c as [[] [] [] [] [] [] [] []]; reflexivity.
Qed.

Lemma toLowerCase_idempotent (s : string) :
  toLowerCase (toLowerCase s) = toLowerCase s.
Proof.
  induction s as [| c s IH]; simpl; [reflexivity |].
  rewrite lower_char_idempotent, IH. reflexivity.
Qed.

Lemma toLowerCase_truthy (s : string) :
  truthy_str (toLowerCase s) = truthy_str s.
Proof. destruct s; reflexivity. Qed.

(** The crop lookup does not look at the letter case: a name and its
    lower-case form find the same crop or fail together, and each of the
    four crops of [getAvailableCrops], in any letter case, is found in
    the table and passes [validateCropType]. *)
Theorem crop_lookup_ignores_case (cropType : string) :
  (forall info, getCropInfo cropType = Ok info
                <-> getCropInfo (toLowerCase cropType) = Ok info)
  /\ validateCropType (toLowerCase cropType) = validateCropType cropType
  /\ (validateCropType cropType = true
      <-> cropType <> EmptyString
          /\ exists info, getCropInfo cropType = Ok info)
  /\ (In (toLowerCase cropType) AdviceService.getAvailableCrops ->
      validateCropType cropType = true
      /\ exists crop,
           getCropInfo cropType = Ok (Own crop)
           /\ JS.assoc (toLowerCase cropType) Config.crops = Some crop)
  /\ getSupportedCrops = AdviceService.getAvailableCrops.
Proof.
  split.
  { intros info. unfold getCropInfo. rewrite toLowerCase_idempotent.
    destruct (truthy_prop (JS.get Config.crops (toLowerCase cropType)));
      simpl; split; intros H; try discriminate H; exact H. }
  split.
  { unfold validateCropType.
    rewrite toLowerCase_idempotent, toLowerCase_truthy. reflexivity. }
  split.
  { unfold validateCropType, getCropInfo.
    destruct (truthy_prop (JS.get Config.crops (toLowerCase cropType))).
    - rewrite andb_true_r. simpl. destruct cropType; simpl.
      + split; [discriminate | intros [H _]; contradiction].
      + split; [intros _; split; [discriminate | eexists; reflexivity]
               | reflexivity].
    - rewrite andb_false_r. simpl.
      split; [discriminate | intros [_ [info H]]; discriminate H]. }
  split; [| reflexivity].
  intros Hin.
  assert (Hown : exists crop,
             JS.assoc (toLowerCase cropType) Config.crops = Some crop).
  { simpl in Hin.
    destruct Hin as [<- | [<- | [<- | [<- | []]]]]; eexists; reflexivity. }
  destruct Hown as (crop & Hc).
  assert (Hget : JS.get Config.crops (toLowerCase cropType) = Own crop).
  { unfold JS.get. rewrite Hc. reflexivity. }
  split.
  - unfold validateCropType. rewrite Hget.
    destruct cropType; [simpl in Hin; intuition discriminate | reflexivity].
  - exists crop. split; [| exact Hc].
    unfold getCropInfo. rewrite Hget. reflexivity.
Qed.

Lemma crop_lookup_ignores_case_witness :
  validateCropType "Maize" = true
  /\ exists crop, getCropInfo "Maize" = Ok (Own crop).
Proof.
  destruct (crop_lookup_ignores_case "Maize") as (_ & _ & _ & H & _).
  destruct H as (V & crop & E & _); [left; reflexivity |].
  split; [exact V |]. exists crop. exact E.
Defined.

(** Every query that looks the crop up succeeds when the lookup does and
    fails when it fails, with the error of the lookup, which names the
    crop as it was given; the guard of the service in front of the
    varieties changes nothing.  The soil pH verdict looks the crop up
    only when a pH is given: without one it is the same for every name,
    known or not. *)
Theorem crop_queries_fail_together (cropType s : string) :
  (forall info, getCropInfo cropType = Ok info ->
     (exists vs, getCropVarieties cropType = Ok vs)
     /\ (exists ph, getCropSoilPh cropType = Ok ph)
     /\ (exists gs, getCropGrowthStates cropType = Ok gs)
     /\ (exists b, isCropSuitableForSeason cropType s = Ok b)
     /\ (exists n, getCropWaterRequirement cropType = Ok n)
     /\ (exists g, getCropGrowthPeriod cropType = Ok g)
     /\ (forall ph, exists v,
           isSoilPhSuitableForCrop cropType (Some ph) = Ok v))
  /\ (forall e, getCropInfo cropType = Throw e ->
        e = Error ("Unsupported crop type: " ++ cropType)
        /\ getCropVarieties cropType = Throw e
        /\ getCropSoilPh cropType = Throw e
        /\ getCropGrowthStates cropType = Throw e
        /\ isCropSuitableForSeason cropType s = Throw e
        /\ getCropWaterRequirement cropType = Throw e
        /\ getCropGrowthPeriod cropType = Throw e
        /\ forall ph, isSoilPhSuitableForCrop cropType (Some ph) = Throw e)
  /\ isSoilPhSuitableForCrop cropType None
     = Ok {| suitable := true; message := "Soil pH not specified";
             recommendation := None; cropPhRange := None;
             currentPh := None |}
  /\ AdviceService.getCropVarieties cropType = getCropVarieties cropType.
Proof.
  split.
  { intros info H.
    unfold isSoilPhSuitableForCrop, getCropVarieties, getCropSoilPh,
      getCropGrowthStates, isCropSuitableForSeason, getCropWaterRequirement,
      getCropGrowthPeriod.
    rewrite H. simpl.
    repeat (split; [eexists; reflexivity |]).
    intros ph.
    destruct (Qgeb ph _ && Qleb ph _)%bool;
      [| destruct (Qltb ph _)]; eexists; reflexivity. }
  split.
  { intros e H.
    assert (He : e = Error ("Unsupported crop type: " ++ cropType)).
    { generalize H. unfold getCropInfo.
      destruct (truthy_prop _); simpl; intros K; inversion K; reflexivity. }
    split; [exact He |].
    unfold isSoilPhSuitableForCrop, getCropVarieties, getCropSoilPh,
      getCropGrowthStates, isCropSuitableForSeason, getCropWaterRequirement,
      getCropGrowthPeriod.
    rewrite H. simpl. repeat split. }
  split; [reflexivity |].
  unfold AdviceService.getCropVarieties, validateCropType, getCropVarieties,
    getCropInfo.
  destruct (truthy_prop (JS.get Config.crops (toLowerCase cropType))) eqn:T.
  - destruct cropType; [discriminate T | reflexivity].
  - rewrite andb_false_r. reflexivity.
Qed.

Lemma crop_queries_fail_together_witness :
  getCropVarieties "rice" = Throw (Error "Unsupported crop type: rice")
  /\ (exists b, isCropSuitableForSeason "bananas" "longDry" = Ok b)
  /\ exists v, isSoilPhSuitableForCrop "rice" None = Ok v.
Proof.
  destruct (crop_queries_fail_together "rice" "longDry") as (_ & H & N & _).
  destruct (H (Error "Unsupported crop type: rice") eq_refl) as (_ & V & _).
  split; [exact V |]. split.
  - destruct (crop_queries_fail_together "bananas" "longDry") as (K & _).
    destruct (K _ eq_refl) as (_ & _ & _ & B & _). exact B.
  - eexists. exact N.
Defined.

(** The verdict on a soil pH, for a crop whose range is not empty: the
    pH is suitable exactly within the range; below it the advice is lime,
    above it sulfur or organic matter, and within it there is none. *)
Theorem soil_ph_suitability (cropType : string) (range : Config.SoilPh)
    (ph : Q) :
  getCropSoilPh cropType = Ok range ->
  Config.min range <= Config.max range ->
  exists verdict,
    isSoilPhSuitableForCrop cropType (Some ph) = Ok verdict
    /\ (suitable verdict = true
        <-> Config.min range <= ph /\ ph <= Config.max range)
    /\ (recommendation verdict
        = Some "Consider adding lime to raise soil pH"
        <-> ph < Config.min range)
    /\ (recommendation verdict
        = Some "Consider adding sulfur or organic matter to lower soil pH"
        <-> Config.max range < ph)
    /\ (recommendation verdict = None <-> suitable verdict = true)
    /\ cropPhRange verdict = Some range
    /\ currentPh verdict = Some ph.
Proof.
  intros Hr Hrange. unfold isSoilPhSuitableForCrop. rewrite Hr.
  unfold JS.bind.
  destruct (Qgeb ph (Config.min range) && Qleb ph (Config.max range))%bool
    eqn:B.
  - apply band_true in B. eexists. split; [reflexivity |]. cbn.
    split; [tauto |].
    split; [split; [congruence | intros K; exfalso; lra] |].
    split; [split; [congruence | intros K; exfalso; lra] |].
    split; [tauto |]. split; reflexivity.
  - apply band_false in B.
    destruct (Qltb ph (Config.min range)) eqn:L.
    + assert (Hlt : ph < Config.min range).
      { unfold Qltb in L. apply negb_true_iff in L.
        apply Qnot_le_lt. intros K. apply Qle_bool_iff in K. congruence. }
      eexists. split; [reflexivity |]. cbn.
      split; [split; [congruence | tauto] |].
      split; [split; [intros _; exact Hlt | reflexivity] |].
      split; [split; [congruence | intros K; exfalso; lra] |].
      split; [split; congruence |]. split; reflexivity.
    + apply Qltb_false in L.
      assert (Hgt : Config.max range < ph).
      { apply Qnot_le_lt. intros K. apply B. split; assumption. }
      eexists. split; [reflexivity |]. cbn.
      split; [split; [congruence | tauto] |].
      split; [split; [congruence | intros K; exfalso; lra] |].
      split; [split; [intros _; exact Hgt | reflexivity] |].
      split; [split; congruence |]. split; reflexivity.
Qed.

Lemma soil_ph_suitability_witness :
  exists verdict,
    isSoilPhSuitableForCrop "maize" (Some 5) = Ok verdict
    /\ suitable verdict = false
    /\ recommendation verdict = Some "Consider adding lime to raise soil pH".
Proof.
  destruct (soil_ph_suitability "maize"
              {| Config.min := 55 # 10; Config.max := 75 # 10;
                 Config.optimal := 65 # 10 |} 5 eq_refl)
    as (verdict & E & S & L & _).
  - discriminate.
  - exists verdict. split; [exact E |]. split.
    + apply not_true_iff_false. intros H. apply S in H.
      destruct H as [H _]. revert H. unfold Qle. simpl. lia.
    + apply L. reflexivity.
Defined.

End CropQueries.

(* ================================================================== *)
(** ** Further properties: the request and the orchestrator *)

Section RequestValidation.

Import WeatherUtils CropUtils AdviceService.

(** The coordinates a request goes on with are always within range,
    whatever was supplied; the resolution fails only for two non-zero
    coordinates of which one is out of range. *)
Theorem resolved_coordinates_are_valid (lat lon : option Q) :
  (forall la lo,
      validateAndSetCoordinates lat lon = Ok (la, lo) ->
      validateCoordinates la lo = true
      /\ ((lat = Some la /\ lon = Some lo)
          \/ (la, lo) = (Config.defaultLat, Config.defaultLon)))
  /\ (forall e,
        validateAndSetCoordinates lat lon = Throw e ->
        e = Error "Invalid coordinates provided"
        /\ exists la lo,
             lat = Some la /\ lon = Some lo
             /\ ~ la == 0 /\ ~ lo == 0
             /\ validateCoordinates la lo = false).
Proof.
  unfold validateAndSetCoordinates.
  destruct lat as [la0 |], lon as [lo0 |];
    try (split; [intros la lo E; inversion E; subst;
                 split; [reflexivity | right; reflexivity]
                | intros e E; discriminate E]).
  destruct (truthy_num la0 && truthy_num lo0)%bool eqn:T.
  - destruct (validateCoordinates la0 lo0) eqn:V; simpl.
    + split; [| intros e E; discriminate E].
      intros la lo E. inversion E; subst.
      split; [exact V | left; split; reflexivity].
    + split; [intros la lo E; discriminate E |].
      intros e E. inversion E. split; [reflexivity |].
      exists la0, lo0. apply andb_true_iff in T. destruct T as [T1 T2].
      unfold truthy_num, Qeqb in T1, T2.
      apply negb_true_iff in T1, T2.
      split; [reflexivity |]. split; [reflexivity |].
      split; [intros K; apply Qeq_bool_iff in K; congruence |].
      split; [intros K; apply Qeq_bool_iff in K; congruence | exact V].
  - split; [| intros e E; discriminate E].
    intros la lo E. inversion E; subst.
    split; [reflexivity | right; reflexivity].
Qed.

Lemma resolved_coordinates_are_valid_witness :
  validateCoordinates (-2) 30 = true.
Proof.
  destruct (resolved_coordinates_are_valid (Some (-2)) (Some 30)) as [H _].
  destruct (H (-2) 30 eq_refl) as [V _]. exact V.
Defined.

(** The three checks of [validateAdditionalData], one by one. *)
Lemma validateAdditionalData_inv (o : Options) (ad : AdditionalData) :
  validateAdditionalData o = Ok ad ->
  (match opt_soilPh o with
   | Some ph => (Qltb ph 4 || Qgtb ph (85 # 10))%bool = false
                /\ soilPh ad = Some ph
   | None => soilPh ad = None
   end)
  /\ (match opt_growthState o with
      | Some g =>
          if truthy_str g
          then includes validGrowthStates (toLowerCase g) = true
               /\ growthState ad = Some (toLowerCase g)
          else growthState ad = None
      | None => growthState ad = None
      end)
  /\ (match opt_variety o with
      | Some v =>
          if truthy_str v
          then truthy_str (trim v) = true /\ variety ad = Some (trim v)
          else variety ad = None
      | None => variety ad = None
      end).
Proof.
  unfold validateAdditionalData.
  destruct (opt_soilPh o) as [ph |];
    [destruct (Qltb ph 4 || Qgtb ph (85 # 10))%bool; [discriminate |] |];
    unfold JS.bind at 1;
    (destruct (opt_growthState o) as [g |];
     [destruct (truthy_str g);
      [destruct (includes validGrowthStates (toLowerCase g));
       [| discriminate] |] |]);
    simpl negb; cbv iota; unfold JS.bind at 1;
    (destruct (opt_variety o) as [v |];
     [destruct (truthy_str v);
      [destruct (truthy_str (trim v)); [| discriminate] |] |]);
    simpl; intros E; inversion E; subst ad; cbn; repeat split.
Qed.

(** What comes out of [validateAdditionalData]: a soil pH from 4.0 to
    8.5, a growth stage in lower case that is one of the four, a variety
    that is trimmed and not empty, each only if the request has it; and
    a soil pH out of range is refused whatever the other fields are. *)
Theorem additional_data_validated (o : Options) :
  (forall ad,
      validateAdditionalData o = Ok ad ->
      (forall ph, soilPh ad = Some ph ->
                  opt_soilPh o = Some ph /\ 4 <= ph /\ ph <= 85 # 10)
      /\ (forall g, growthState ad = Some g ->
                    In g validGrowthStates
                    /\ exists g0, opt_growthState o = Some g0
                                  /\ g = toLowerCase g0)
      /\ (forall v, variety ad = Some v ->
                    v <> EmptyString
                    /\ exists v0, opt_variety o = Some v0 /\ v = trim v0)
      /\ (opt_soilPh o = None -> soilPh ad = None)
      /\ (opt_growthState o = None -> growthState ad = None)
      /\ (opt_variety o = None -> variety ad = None))
  /\ (forall ph,
        opt_soilPh o = Some ph -> ph < 4 \/ 85 # 10 < ph ->
        validateAdditionalData o
        = Throw (Error "Soil pH must be a number between 4.0 and 8.5")).
Proof.
  split.
  - intros ad E. destruct (validateAdditionalData_inv o ad E) as (A & B & C).
    split.
    { intros ph Hph. destruct (opt_soilPh o) as [ph0 |].
      - destruct A as [R A]. rewrite A in Hph. inversion Hph; subst ph0.
        split; [reflexivity |].
        apply orb_false_iff in R. destruct R as [R1 R2].
        split; [apply Qltb_false, R1 | apply Qgtb_false, R2].
      - congruence. }
    split.
    { intros g Hg. destruct (opt_growthState o) as [g0 |]; [| congruence].
      destruct (truthy_str g0); [| congruence].
      destruct B as [I B]. rewrite B in Hg. inversion Hg; subst g.
      split; [apply includes_In, I |]. exists g0. split; reflexivity. }
    split.
    { intros v Hv. destruct (opt_variety o) as [v0 |]; [| congruence].
      destruct (truthy_str v0); [| congruence].
      destruct C as [T C]. rewrite C in Hv. inversion Hv; subst v.
      split; [| exists v0; split; reflexivity].
      intros K. rewrite K in T. discriminate T. }
    split; [intros K; rewrite K in A; exact A |].
    split; [intros K; rewrite K in B; exact B |].
    intros K. rewrite K in C. exact C.
  - intros ph Hph Hout. unfold validateAdditionalData. rewrite Hph.
    assert (R : (Qltb ph 4 || Qgtb ph (85 # 10))%bool = true).
    { apply orb_true_iff. unfold Qltb, Qgtb.
      destruct Hout as [H | H]; [left | right];
        apply negb_true_iff, not_true_iff_false; intros K;
        apply Qle_bool_iff in K; lra. }
    rewrite R. reflexivity.
Qed.

Lemma additional_data_validated_witness :
  validateAdditionalData
    {| opt_lat := None; opt_lon := None; opt_crop := Some "beans";
       opt_soilPh := Some 9; opt_growthState := Some "Flowering";
       opt_variety := Some " bush_beans "; opt_useAI := None |}
  = Throw (Error "Soil pH must be a number between 4.0 and 8.5").
Proof.
  destruct (additional_data_validated
              {| opt_lat := None; opt_lon := None; opt_crop := Some "beans";
                 opt_soilPh := Some 9; opt_growthState := Some "Flowering";
                 opt_variety := Some " bush_beans "; opt_useAI := None |}) as [_ H].
  apply (H 9); [reflexivity |]. right. reflexivity.
Defined.

End RequestValidation.

Section RequestOutcome.

Import WeatherUtils CropUtils AdviceService.

Lemma validateAndSetCoordinates_error (lat lon : option Q) (e : exn) :
  validateAndSetCoordinates lat lon = Throw e ->
  e = Error "Invalid coordinates provided".
Proof.
  unfold validateAndSetCoordinates.
  destruct lat as [la |], lon as [lo |]; try discriminate.
  destruct (truthy_num la && truthy_num lo)%bool; [| discriminate].
  destruct (validateCoordinates la lo); simpl; [discriminate |].
  intros E. inversion E. reflexivity.
Qed.

Lemma validateAdditionalData_error (o : Options) (e : exn) :
  validateAdditionalData o = Throw e ->
  e = Error "Soil pH must be a number between 4.0 and 8.5"
  \/ e = Error "Invalid growth state. Must be one of: germination, vegetative, flowering, fruiting"
  \/ e = Error "Variety must be a non-empty string".
Proof.
  unfold validateAdditionalData.
  destruct (opt_soilPh o) as [ph |];
    [destruct (Qltb ph 4 || Qgtb ph (85 # 10))%bool;
     [intros E; inversion E; left; reflexivity |] |];
    unfold JS.bind at 1;
    (destruct (opt_growthState o) as [g |];
     [destruct (truthy_str g);
      [destruct (includes validGrowthStates (toLowerCase g));
       [| intros E; inversion E; right; left; reflexivity] |] |]);
    simpl negb; cbv iota; unfold JS.bind at 1;
    (destruct (opt_variety o) as [v |];
     [destruct (truthy_str v);
      [destruct (truthy_str (trim v));
       [| intros E; inversion E; right; right; reflexivity] |] |]);
    simpl; intros E; discriminate E.
Qed.

(** The request fails only in its validation: the error is one of six,
    under the prefix of [generateAdvice], and it is the same whatever
    the two services do.  No failure of the weather service or of the
    generator reaches the caller. *)
Theorem errors_come_from_the_request (w : World) (o : Options) (e : exn) :
  generateAdvice w o = Throw e ->
  (forall w', generateAdvice w' o = Throw e)
  /\ exists m,
       e = Error ("Failed to generate advice: " ++ m)
       /\ (m = "Invalid coordinates provided"
           \/ m = "Crop type is required"
           \/ (exists c,
                 opt_crop o = Some c
                 /\ m = "Unsupported crop type: " ++ toLowerCase c
                        ++ ". Supported crops: maize, beans, potatoes, bananas")
           \/ m = "Soil pH must be a number between 4.0 and 8.5"
           \/ m = "Invalid growth state. Must be one of: germination, vegetative, flowering, fruiting"
           \/ m = "Variety must be a non-empty string").
Proof.
  intros H. assert (H0 := H).
  unfold generateAdvice, generateAdvice_try in H.
  destruct (validateAndSetCoordinates (opt_lat o) (opt_lon o))
    as [[lat lon] | e0] eqn:Hc.
  - unfold JS.bind at 1 in H.
    destruct (opt_crop o) as [c |] eqn:Hcrop.
    + destruct (truthy_str c) eqn:Tc.
      * unfold truthy_ostr in H. rewrite Tc in H. simpl negb in H.
        cbv iota in H.
        destruct (validateCropType (toLowerCase c)) eqn:Hv.
        -- simpl negb in H. cbv iota in H.
           destruct (validateAdditionalData o) as [ad | e1] eqn:Ha.
           ++ exfalso.
              destruct (generateAdvice_paths w o lat lon c ad Hc Hcrop Hv Ha)
                as (basic & _ & _ & E).
              cbv zeta in E. rewrite E in H0.
              destruct (useAI w o); [| discriminate H0].
              destruct (GeminiService.generateAdvice _ _ _ _ _);
                discriminate H0.
           ++ simpl in H. inversion H.
              split.
              ** intros w'. unfold generateAdvice, generateAdvice_try.
                 rewrite Hc. unfold JS.bind at 1. rewrite Hcrop.
                 unfold truthy_ostr. rewrite Tc, Hv, Ha. reflexivity.
              ** exists (JS.message e1). split; [reflexivity |].
                 destruct (validateAdditionalData_error o e1 Ha)
                   as [-> | [-> | ->]]; simpl; tauto.
        -- simpl in H. inversion H. split.
           ** intros w'. unfold generateAdvice, generateAdvice_try.
              rewrite Hc. unfold JS.bind at 1. rewrite Hcrop.
              unfold truthy_ostr. rewrite Tc, Hv. reflexivity.
           ** eexists. split; [reflexivity |].
              right; right; left. exists c. split; reflexivity.
      * unfold truthy_ostr in H. rewrite Tc in H. simpl in H. inversion H.
        split.
        -- intros w'. unfold generateAdvice, generateAdvice_try.
           rewrite Hc. unfold JS.bind at 1. rewrite Hcrop.
           unfold truthy_ostr. rewrite Tc. reflexivity.
        -- eexists. split; [reflexivity |]. right; left; reflexivity.
    + simpl in H. inversion H. split.
      * intros w'. unfold generateAdvice, generateAdvice_try.
        rewrite Hc. unfold JS.bind at 1. rewrite Hcrop. reflexivity.
      * eexists. split; [reflexivity |]. right; left; reflexivity.
  - simpl in H. inversion H.
    assert (He := validateAndSetCoordinates_error _ _ _ Hc). subst e0.
    split.
    + intros w'. unfold generateAdvice, generateAdvice_try.
      rewrite Hc. reflexivity.
    + eexists. split; [reflexivity |]. left; reflexivity.
Qed.

Lemma errors_come_from_the_request_witness :
  generateAdvice onlineWorld riceRequest
  = Throw (Error "Failed to generate advice: Unsupported crop type: rice. Supported crops: maize, beans, potatoes, bananas").
Proof.
  apply (errors_come_from_the_request offlineWorld riceRequest).
  reflexivity.
Defined.

(** Without the generator (switched off by the request, or without its
    key) the outcome does not depend on what the generator would have
    answered; the advice is the rule table's, tagged [basic_seasonal],
    with none of the generator's metadata. *)
Theorem generator_not_consulted (w : World) (o : Options)
    (answer : Http (option string)) :
  useAI w o = false ->
  generateAdvice (withGemini answer w) o = generateAdvice w o
  /\ forall advice,
       generateAdvice w o = Ok advice ->
       (exists basic, body advice = RuleBased basic)
       /\ advice_source (metadata advice) = "basic_seasonal"
       /\ source (metadata advice) = None
       /\ weather_data (metadata advice) = None
       /\ prompt_version (metadata advice) = None.
Proof.
  intros Hai.
  assert (Hai' : useAI (withGemini answer w) o = false) by exact Hai.
  split.
  - unfold generateAdvice, generateAdvice_try.
    destruct (validateAndSetCoordinates (opt_lat o) (opt_lon o))
      as [[lat lon] |]; [| reflexivity].
    unfold JS.bind.
    destruct (negb (truthy_ostr (opt_crop o))); [reflexivity |].
    destruct (negb (validateCropType _)); [reflexivity |].
    destruct (validateAdditionalData o) as [ad |]; [| reflexivity].
    unfold JS.bind. unfold synthesize.
    change (fetchForecast (withGemini answer w) lat lon)
      with (fetchForecast w lat lon).
    destruct (fetchForecast w lat lon) as [fs ww].
    rewrite Hai, Hai'. reflexivity.
  - intros advice. unfold generateAdvice, generateAdvice_try.
    destruct (validateAndSetCoordinates (opt_lat o) (opt_lon o))
      as [[lat lon] |]; [| discriminate].
    unfold JS.bind at 1.
    destruct (negb (truthy_ostr (opt_crop o))); [discriminate |].
    destruct (negb (validateCropType _)); [discriminate |].
    destruct (validateAdditionalData o) as [ad |]; [| discriminate].
    unfold JS.bind at 1. unfold synthesize.
    destruct (fetchForecast w lat lon) as [fs ww].
    rewrite Hai.
    destruct (generateBasicSeasonalAdvice _ _ _ _) as [basic |];
      [| discriminate].
    simpl. intros E. inversion E; subst advice; clear E.
    cbn [body metadata stamp advice_source source weather_data
         prompt_version option_map].
    rewrite Hai.
    split; [exists basic; reflexivity |]. repeat split.
Qed.

Lemma generator_not_consulted_witness :
  generateAdvice (withGemini (Response (Some noisyAnswer)) offlineWorld)
    plainRequest
  = generateAdvice offlineWorld plainRequest.
Proof.
  apply (generator_not_consulted offlineWorld plainRequest).
  reflexivity.
Defined.

End RequestOutcome.

(* ================================================================== *)
(** ** Further properties: the generator and the forecast *)

Section GeneratedAdvice.

Import WeatherUtils CropUtils.

Lemma assoc_set_same (k : string) (v : json) (fs : list (string * json)) :
  JS.assoc k (JSON.set k v fs) = Some v.
Proof.
  induction fs as [| [x y] fs IH]; simpl.
  - rewrite String.eqb_refl. reflexivity.
  - destruct (String.eqb_spec x k) as [-> | Hx]; simpl.
    + rewrite String.eqb_refl. reflexivity.
    + destruct (String.eqb_spec x k); [contradiction | exact IH].
Qed.

Lemma assoc_remove_same (k : string) (fs : list (string * json)) :
  JS.assoc k (JSON.remove k fs) = None.
Proof.
  induction fs as [| [x y] fs IH]; simpl; [reflexivity |].
  destruct (String.eqb_spec x k) as [-> | Hx]; simpl; [exact IH |].
  destruct (String.eqb_spec x k); [contradiction | exact IH].
Qed.

Lemma isArray_ensureArray (k : string) (fs : list (string * json)) :
  isArray (JS.assoc k (GeminiService.ensureArray k fs)) = true.
Proof.
  unfold GeminiService.ensureArray.
  destruct (JS.assoc k fs) as [[] |] eqn:E;
    rewrite ?assoc_set_same, ?E; reflexivity.
Qed.

Lemma isArray_truthy (o : option json) :
  isArray o = true -> truthy_opt o = true.
Proof.
  destruct o as [[] |]; simpl; congruence.
Qed.

Lemma required_present (fs0 : list (string * json)) :
  Nat.ltb 0
    (List.length
       (filter (fun field => negb (truthy_opt (JS.assoc field fs0)))
               GeminiService.requiredFields)) = false ->
  forall k, In k GeminiService.requiredFields ->
            truthy_opt (JS.assoc k fs0) = true.
Proof.
  intros L k Hk.
  destruct (truthy_opt (JS.assoc k fs0)) eqn:T; [reflexivity |].
  exfalso.
  assert (Hin : In k (filter
                        (fun field => negb (truthy_opt (JS.assoc field fs0)))
                        GeminiService.requiredFields)).
  { apply filter_In. split; [exact Hk | rewrite T; reflexivity]. }
  destruct (filter _ _); [contradiction | discriminate L].
Qed.

(** What [validateStructure] lets through. *)
Lemma validateStructure_shape (w : World) (v : json) (fs : ForecastSummary)
    (ad : AdditionalData) (g : GeminiService.Advice) :
  GeminiService.validateStructure w v fs ad = Ok g ->
  (forall k, In k GeminiService.requiredFields ->
             truthy_opt (JS.assoc k (GeminiService.fields g)) = true)
  /\ isArray (JS.assoc "actions" (GeminiService.fields g)) = true
  /\ isArray (JS.assoc "warnings" (GeminiService.fields g)) = true
  /\ isArray (JS.assoc "productivity_tips" (GeminiService.fields g)) = true
  /\ JS.assoc "metadata" (GeminiService.fields g) = None
  /\ GeminiService.metadata g
     = {| GeminiService.generated_at := now w;
          GeminiService.source := "gemini_ai";
          GeminiService.weather_data := fs;
          GeminiService.additional_data := ad;
          GeminiService.prompt_version := "2.0" |}.
Proof.
  unfold GeminiService.validateStructure.
  destruct v as [| b | q | s | items | fs0]; try discriminate.
  destruct (Nat.ltb 0 _) eqn:L; [discriminate |].
  intros E. inversion E; subst g; clear E.
  cbn [GeminiService.fields GeminiService.metadata].
  assert (A : isArray (JS.assoc "actions"
                (JSON.remove "metadata"
                   (GeminiService.ensureArray "productivity_tips"
                      (GeminiService.ensureArray "warnings"
                         (GeminiService.ensureArray "actions" fs0)))))
              = true).
  { rewrite assoc_remove_other by discriminate.
    rewrite !assoc_ensureArray_other by discriminate.
    apply isArray_ensureArray. }
  assert (W : isArray (JS.assoc "warnings"
                (JSON.remove "metadata"
                   (GeminiService.ensureArray "productivity_tips"
                      (GeminiService.ensureArray "warnings"
                         (GeminiService.ensureArray "actions" fs0)))))
              = true).
  { rewrite assoc_remove_other by discriminate.
    rewrite assoc_ensureArray_other by discriminate.
    apply isArray_ensureArray. }
  assert (P : isArray (JS.assoc "productivity_tips"
                (JSON.remove "metadata"
                   (GeminiService.ensureArray "productivity_tips"
                      (GeminiService.ensureArray "warnings"
                         (GeminiService.ensureArray "actions" fs0)))))
              = true).
  { rewrite assoc_remove_other by discriminate.
    apply isArray_ensureArray. }
  split.
  { intros k Hk. assert (T := required_present fs0 L k Hk).
    simpl in Hk.
    destruct Hk as [<- | [<- | [<- | [<- | [<- | [<- | []]]]]]];
      try (apply isArray_truthy; assumption);
      rewrite assoc_remove_other by discriminate;
      rewrite !assoc_ensureArray_other by discriminate; exact T. }
  split; [exact A |]. split; [exact W |]. split; [exact P |].
  split; [apply assoc_remove_same | reflexivity].
Qed.

Lemma parseAIResponse_validated (w : World) (text : string)
    (fs : ForecastSummary) (season cropType : string) (ad : AdditionalData)
    (g : GeminiService.Advice) :
  GeminiService.parseAIResponse w text fs season cropType ad = Ok g ->
  exists i j fields,
    indexOf "{" text = Some i /\ lastIndexOf "}" text = Some j
    /\ JSON.parse (JS.substring i (j + 1) text) = Ok (JObject fields)
    /\ GeminiService.validateStructure w (JObject fields) fs ad = Ok g.
Proof.
  unfold GeminiService.parseAIResponse, GeminiService.parseAIResponse_try.
  destruct (indexOf "{" text) as [i |]; [| discriminate].
  destruct (lastIndexOf "}" text) as [j |]; [| discriminate].
  destruct (JSON.parse _) as [v |] eqn:P; [| discriminate].
  simpl.
  destruct (GeminiService.validateStructure w v fs ad) as [g' |] eqn:V;
    [| discriminate].
  simpl. intros E. inversion E; subst g'.
  destruct v as [| b | q | s | items | fs0]; try discriminate V.
  exists i, j, fs0. repeat split; assumption.
Qed.

(** An answer the parser accepts is an object between the first opening
    and the last closing brace of the text; in what is returned the six
    required fields are truthy, the three list fields are arrays, and
    the metadata are the parser's own, whatever the text had under that
    key.  Every failure is an [Error] under the prefix of the parser. *)
Theorem parsed_advice_shape (w : World) (text : string)
    (fs : ForecastSummary) (season cropType : string)
    (ad : AdditionalData) :
  (forall g,
      GeminiService.parseAIResponse w text fs season cropType ad = Ok g ->
      (exists i j fields,
          indexOf "{" text = Some i /\ lastIndexOf "}" text = Some j
          /\ JSON.parse (JS.substring i (j + 1) text) = Ok (JObject fields))
      /\ (forall k, In k GeminiService.requiredFields ->
                    truthy_opt (JS.assoc k (GeminiService.fields g)) = true)
      /\ isArray (JS.assoc "actions" (GeminiService.fields g)) = true
      /\ isArray (JS.assoc "warnings" (GeminiService.fields g)) = true
      /\ isArray (JS.assoc "productivity_tips" (GeminiService.fields g))
         = true
      /\ JS.assoc "metadata" (GeminiService.fields g) = None
      /\ GeminiService.metadata g
         = {| GeminiService.generated_at := now w;
              GeminiService.source := "gemini_ai";
              GeminiService.weather_data := fs;
              GeminiService.additional_data := ad;
              GeminiService.prompt_version := "2.0" |})
  /\ (forall e,
        GeminiService.parseAIResponse w text fs season cropType ad = Throw e ->
        exists m, e = Error ("Failed to parse AI response: " ++ m)).
Proof.
  split.
  - intros g H.
    destruct (parseAIResponse_validated w text fs season cropType ad g H)
      as (i & j & fields & Hi & Hj & P & V).
    split; [exists i, j, fields; repeat split; assumption |].
    exact (validateStructure_shape w _ fs ad g V).
  - intros e. unfold GeminiService.parseAIResponse, try_catch.
    destruct (GeminiService.parseAIResponse_try _ _ _ _ _ _) as [g | e0];
      [discriminate |].
    intros E. inversion E. eexists. reflexivity.
Qed.

Lemma parsed_advice_shape_witness :
  exists g,
    GeminiService.parseAIResponse anyWorld noisyAnswer calm "longDry"
      "maize" noAdditionalData = Ok g
    /\ isArray (JS.assoc "warnings" (GeminiService.fields g)) = true
    /\ GeminiService.source (GeminiService.metadata g) = "gemini_ai".
Proof.
  destruct (GeminiService.parseAIResponse anyWorld noisyAnswer calm
              "longDry" "maize" noAdditionalData) as [g |] eqn:E;
    [| vm_compute in E; discriminate E].
  destruct (parsed_advice_shape anyWorld noisyAnswer calm "longDry" "maize"
              noAdditionalData) as [H _].
  destruct (H g E) as (_ & _ & _ & W & _ & _ & M).
  exists g. split; [reflexivity |]. split; [exact W |].
  rewrite M. reflexivity.
Defined.

(** The generator service: without a key it fails before anything is
    sent; it returns an advice only for a non-empty answer text that the
    parser accepts; and when the service did answer, every failure is
    reported as a service error around the parser's or the format
    error. *)
Theorem generator_outcomes (w : World) (fs : ForecastSummary)
    (s c : string) (ad : AdditionalData) :
  (GeminiService.isAvailable w = false ->
   GeminiService.generateAdvice w fs s c ad
   = Throw (Error "Gemini API key not configured"))
  /\ (forall g,
        GeminiService.generateAdvice w fs s c ad = Ok g ->
        GeminiService.isAvailable w = true
        /\ exists text,
             gemini w = Response (Some text)
             /\ text <> EmptyString
             /\ GeminiService.parseAIResponse w text fs s c ad = Ok g)
  /\ (forall e,
        GeminiService.generateAdvice w fs s c ad = Throw e ->
        exists m, e = Error m)
  /\ (forall r e,
        GeminiService.isAvailable w = true ->
        gemini w = Response r ->
        GeminiService.generateAdvice w fs s c ad = Throw e ->
        exists m,
          e = Error ("Gemini service error: " ++ m)
          /\ (m = "Invalid response format from Gemini API"
              \/ exists m', m = "Failed to parse AI response: " ++ m')).
Proof.
  unfold GeminiService.generateAdvice.
  destruct (GeminiService.isAvailable w).
  2: { simpl. split; [reflexivity |].
       split; [intros g E; discriminate E |].
       split; [intros e E; inversion E; eexists; reflexivity |].
       intros r e K. discriminate K. }
  simpl negb. cbv iota.
  split; [intros K; discriminate K |].
  destruct (gemini w) as [[text |] | status msg | code msg | msg].
  - destruct (truthy_str text) eqn:T.
    + destruct (GeminiService.parseAIResponse w text fs s c ad)
        as [g0 | e0] eqn:P; simpl.
      * split.
        { intros g E. inversion E; subst g0. split; [reflexivity |].
          exists text. split; [reflexivity |]. split; [| exact P].
          intros ->. discriminate T. }
        split; [intros e E; discriminate E |].
        intros r e _ _ E. discriminate E.
      * split; [intros g E; discriminate E |].
        split; [intros e E; inversion E; eexists; reflexivity |].
        intros r e _ _ E. inversion E. eexists. split; [reflexivity |].
        right. revert P.
        unfold GeminiService.parseAIResponse, try_catch.
        destruct (GeminiService.parseAIResponse_try _ _ _ _ _ _);
          [discriminate |].
        intros P. inversion P. eexists. reflexivity.
    + simpl. split; [intros g E; discriminate E |].
      split; [intros e E; inversion E; eexists; reflexivity |].
      intros r e _ _ E. inversion E. eexists.
      split; [reflexivity | left; reflexivity].
  - simpl. split; [intros g E; discriminate E |].
    split; [intros e E; inversion E; eexists; reflexivity |].
    intros r e _ _ E. inversion E. eexists.
    split; [reflexivity | left; reflexivity].
  - split.
    { intros g.
      destruct (status =? 400)%Z; [discriminate |].
      destruct (status =? 401)%Z; [discriminate |].
      destruct (status =? 403)%Z; [discriminate |].
      destruct (status =? 429)%Z; [discriminate |].
      destruct (status =? 500)%Z; discriminate. }
    split.
    { intros e.
      destruct (status =? 400)%Z;
        [intros E; inversion E; eexists; reflexivity |].
      destruct (status =? 401)%Z;
        [intros E; inversion E; eexists; reflexivity |].
      destruct (status =? 403)%Z;
        [intros E; inversion E; eexists; reflexivity |].
      destruct (status =? 429)%Z;
        [intros E; inversion E; eexists; reflexivity |].
      destruct (status =? 500)%Z;
        intros E; inversion E; eexists; reflexivity. }
    intros r e _ K. discriminate K.
  - split; [intros g; destruct (code =? "ECONNABORTED"); discriminate |].
    split.
    { intros e. destruct (code =? "ECONNABORTED");
        intros E; inversion E; eexists; reflexivity. }
    intros r e _ K. discriminate K.
  - split; [intros g E; discriminate E |].
    split; [intros e E; inversion E; eexists; reflexivity |].
    intros r e _ K. discriminate K.
Qed.

Lemma generator_outcomes_witness :
  GeminiService.generateAdvice offlineWorld calm "longDry" "maize"
    noAdditionalData
  = Throw (Error "Gemini API key not configured")
  /\ exists m,
       GeminiService.generateAdvice proseWorld calm "longDry" "maize"
         noAdditionalData
       = Throw (Error ("Gemini service error: " ++ m)).
Proof.
  split.
  - apply (generator_outcomes offlineWorld calm "longDry" "maize"
             noAdditionalData). reflexivity.
  - destruct (generator_outcomes proseWorld calm "longDry" "maize"
                noAdditionalData) as (_ & _ & _ & H).
    destruct (GeminiService.generateAdvice proseWorld calm "longDry"
                "maize" noAdditionalData) as [g | e] eqn:E;
      [vm_compute in E; discriminate E |].
    destruct (H _ e eq_refl eq_refl eq_refl) as (m & -> & _).
    exists m. reflexivity.
Defined.

End GeneratedAdvice.

Section ForecastAndGenerator.

Import WeatherUtils CropUtils AdviceService.

(** The forecast of a request is either the summary of the payload the
    weather service returned, with exactly the warnings the warning
    generator computes from it, or the neutral summary with no warning:
    the latter when the key is missing, the service did not answer with
    a payload, or the payload cannot be summarized. *)
Theorem forecast_or_neutral (w : World) (lat lon : Q) :
  (exists d s,
      WeatherService.isAvailable w = true
      /\ openWeather w lat lon = Response d
      /\ summarizeForecast d = Ok s
      /\ fetchForecast w lat lon = (s, generateWeatherWarnings s))
  \/ (fetchForecast w lat lon = (basicForecastSummary lat lon, [])
      /\ (WeatherService.isAvailable w = false
          \/ (forall d, openWeather w lat lon <> Response d)
          \/ exists d e,
               openWeather w lat lon = Response d
               /\ summarizeForecast d = Throw e)).
Proof.
  unfold fetchForecast, WeatherService.getForecast.
  destruct (WeatherService.isAvailable w);
    [| right; split; [reflexivity | left; reflexivity]].
  simpl negb. cbv iota.
  destruct (openWeather w lat lon) as [d | status msg | code msg | msg].
  - simpl. destruct (summarizeForecast d) as [s | e] eqn:S; simpl.
    + left. exists d, s. repeat split. exact S.
    + right. split; [reflexivity |]. right; right.
      exists d, e. split; [reflexivity | exact S].
  - right. split.
    + destruct (status =? 401)%Z; [reflexivity |].
      destruct (status =? 404)%Z; [reflexivity |].
      destruct (status =? 429)%Z; [reflexivity |].
      destruct (status =? 500)%Z; reflexivity.
    + right; left. intros d K. discriminate K.
  - right. split.
    + destruct (code =? "ECONNABORTED"); [reflexivity |].
      destruct (code =? "ENOTFOUND"); reflexivity.
    + right; left. intros d K. discriminate K.
  - right. split; [reflexivity |].
    right; left. intros d K. discriminate K.
Qed.

(** When the generator returns an advice, the weather warnings of the
    request stand before the generator's own in the list of warnings,
    every other field is the generator's, and the metadata name the
    generator twice: as [source], with the forecast summary it was
    given, and as [advice_source]. *)
Theorem generated_advice_carries_weather_warnings (w : World) (o : Options)
    (lat lon : Q) (c : string) (ad : AdditionalData)
    (g : GeminiService.Advice) :
  validateAndSetCoordinates (opt_lat o) (opt_lon o) = Ok (lat, lon) ->
  opt_crop o = Some c ->
  validateCropType (toLowerCase c) = true ->
  validateAdditionalData o = Ok ad ->
  useAI w o = true ->
  let weatherWarnings := snd (fetchForecast w lat lon) in
  let forecastSummary :=
    setWarnings weatherWarnings (fst (fetchForecast w lat lon)) in
  GeminiService.generateAdvice w forecastSummary
    (WeatherUtils.season (detectCurrentSeason w)) (toLowerCase c) ad
  = Ok g ->
  exists advice fields ws,
    generateAdvice w o = Ok advice
    /\ body advice = Generated fields
    /\ JS.assoc "warnings" (GeminiService.fields g) = Some (JArray ws)
    /\ JS.assoc "warnings" fields
       = Some (JArray (map JString weatherWarnings ++ ws))
    /\ (forall k, k <> "warnings" ->
                  JS.assoc k fields = JS.assoc k (GeminiService.fields g))
    /\ source (metadata advice) = Some "gemini_ai"
    /\ weather_data (metadata advice) = Some forecastSummary
    /\ prompt_version (metadata advice) = Some "2.0"
    /\ advice_source (metadata advice) = "gemini_ai".
Proof.
  intros Hc Hcrop Hv Ha Hai weatherWarnings forecastSummary Hg.
  destruct (generateAdvice_paths w o lat lon c ad Hc Hcrop Hv Ha)
    as (basic & _ & _ & E).
  cbv zeta in E. fold weatherWarnings in E. fold forecastSummary in E.
  rewrite Hai, Hg in E.
  destruct (generated_is_validated _ _ _ _ _ _ Hg) as (v & Hval).
  destruct (validateStructure_shape _ _ _ _ _ Hval)
    as (_ & _ & W & _ & _ & M).
  destruct (JS.assoc "warnings" (GeminiService.fields g))
    as [[| | | | ws |] |] eqn:Hw; try discriminate W.
  eexists. eexists. exists ws.
  split; [exact E |]. cbn [body metadata].
  split; [reflexivity |]. split; [reflexivity |].
  split.
  { destruct weatherWarnings as [| x ww] eqn:Hww.
    - simpl. exact Hw.
    - cbn [List.length Nat.ltb Nat.leb]. unfold prependWarnings.
      rewrite Hw. apply assoc_set_same. }
  split.
  { intros k Hk. destruct (Nat.ltb 0 (List.length weatherWarnings));
      [| reflexivity].
    unfold prependWarnings. rewrite Hw.
    apply assoc_set_other. congruence. }
  unfold stamp.
  cbn [source weather_data prompt_version advice_source option_map].
  rewrite M, Hai. repeat split.
Qed.

Lemma generated_advice_carries_weather_warnings_witness :
  exists advice fields,
    generateAdvice onlineWorld maizeRequest = Ok advice
    /\ body advice = Generated fields
    /\ JS.assoc "warnings" fields
       = Some (JArray
                 (map JString
                    (snd (fetchForecast onlineWorld Config.defaultLat
                            Config.defaultLon)))).
Proof.
  destruct (GeminiService.generateAdvice onlineWorld
              (setWarnings
                 (snd (fetchForecast onlineWorld Config.defaultLat
                         Config.defaultLon))
                 (fst (fetchForecast onlineWorld Config.defaultLat
                         Config.defaultLon)))
              (WeatherUtils.season (detectCurrentSeason onlineWorld))
              (toLowerCase "maize") noAdditionalData) as [g |] eqn:Hg;
    [| vm_compute in Hg; discriminate Hg].
  destruct (generated_advice_carries_weather_warnings onlineWorld
              maizeRequest Config.defaultLat Config.defaultLon "maize"
              noAdditionalData g eq_refl eq_refl eq_refl eq_refl eq_refl Hg)
    as (advice & fields & ws & E & B & G & F & _).
  exists advice, fields. split; [exact E |]. split; [exact B |].
  rewrite F. f_equal. f_equal.
  assert (Hws : ws = []).
  { vm_compute in Hg. inversion Hg as [Hg']. rewrite <- Hg' in G.
    vm_compute in G. inversion G. reflexivity. }
  rewrite Hws. apply app_nil_r.
Defined.

End ForecastAndGenerator.

(* ================================================================== *)
(** ** Further properties: the rule table *)

Section AdvisorLists.

Import WeatherUtils CropUtils.

(** The resources and the diseases of the advice, step by step. *)
Lemma soilPhAdvice_lists cropType ph a b :
  soilPhAdvice cropType ph a = Ok b ->
  resources_needed b = resources_needed a
  /\ possible_diseases b = possible_diseases a.
Proof.
  destruct ph as [ph |]; [| intros E; inversion E; subst b; tauto].
  unfold soilPhAdvice.
  generalize (getSoilPhCategory (Some ph)). intros category.
  unfold isSoilPhSuitableForCrop.
  destruct (getCropSoilPh cropType) as [range |]; [| discriminate].
  unfold JS.bind.
  destruct (Qgeb ph (Config.min range) && Qleb ph (Config.max range))%bool;
    [| destruct (Qltb ph (Config.min range))];
    destruct category; intros E; inversion E; subst b; cbn; tauto.
Qed.

Lemma growthStateActions_lists g a :
  resources_needed (growthStateActions g a) = resources_needed a
  /\ possible_diseases (growthStateActions g a) = possible_diseases a.
Proof.
  unfold growthStateActions.
  destruct (g =? "germination"); [split; reflexivity |].
  destruct (g =? "vegetative"); [split; reflexivity |].
  destruct (g =? "flowering"); [split; reflexivity |].
  destruct (g =? "fruiting"); split; reflexivity.
Qed.

Lemma growthStateAdvice_lists g a b :
  growthStateAdvice g a = Ok b ->
  resources_needed b = resources_needed a
  /\ possible_diseases b = possible_diseases a.
Proof.
  unfold growthStateAdvice.
  destruct (truthy_ostr g); [| intros E; inversion E; tauto].
  destruct (getGrowthStateInfo g) as [[info |] |]; unfold JS.bind;
    intros E; inversion E; [| tauto].
  unfold seq. cbn [fold_left].
  split;
    [rewrite (proj1 (growthStateActions_lists _ _))
    | rewrite (proj2 (growthStateActions_lists _ _))]; reflexivity.
Qed.

Lemma varietyAdvice_lists info v fs a :
  resources_needed (varietyAdvice info v fs a) = resources_needed a
  /\ possible_diseases (varietyAdvice info v fs a) = possible_diseases a.
Proof.
  unfold varietyAdvice.
  destruct (truthy_prop (lookupVariety info v)); [| tauto].
  destruct (isLow (lookupVariety info v) && Qeqb (totalRainfall fs) 0)%bool;
    split; reflexivity.
Qed.

Lemma seasonAdvice_lists s a :
  In s fourSeasons ->
  List.length (resources_needed (seasonAdvice s a))
  = (List.length (resources_needed a) + 2)%nat
  /\ possible_diseases (seasonAdvice s a) = possible_diseases a.
Proof.
  simpl. intros [<- | [<- | [<- | [<- | []]]]]; cbn; unfold push;
    rewrite !length_app; cbn; split; try reflexivity; lia.
Qed.

Lemma weatherAdvice_lists fs a :
  List.length (resources_needed (weatherAdvice fs a))
  = (List.length (resources_needed a) + weatherTriggers fs)%nat
  /\ possible_diseases (weatherAdvice fs a) = possible_diseases a
  /\ (totalRainfall fs == 0 ->
      In "Schedule irrigation for water-dependent crops"
         (actions (weatherAdvice fs a))).
Proof.
  unfold weatherAdvice, weatherTriggers.
  change Config.weatherThresholds.windSpeed.warning with 20.
  destruct (Qeqb (totalRainfall fs) 0) eqn:R;
    destruct (Nat.ltb 0 (heavyRainHours fs));
    destruct (Qgeb (maxWindSpeed fs) 20);
    cbn; unfold push; rewrite ?length_app; cbn;
    (split; [lia |]); (split; [reflexivity |]); intros Z;
    try (exfalso; apply Qeq_bool_iff in Z; unfold Qeqb in R; congruence);
    rewrite ?in_app_iff; simpl; tauto.
Qed.

Lemma cropAdvice_lists c s a :
  In (toLowerCase c) fourCrops ->
  List.length (resources_needed (cropAdvice c s a))
  = (List.length (resources_needed a) + 2)%nat
  /\ actions (cropAdvice c s a) = actions a
  /\ exists d1 d2,
       possible_diseases (cropAdvice c s a)
       = (possible_diseases a ++ [d1; d2])%list
       /\ (seasonal_risk d1 = risk s "High" "Medium"
           \/ seasonal_risk d1 = risk s "High" "Low"
           \/ seasonal_risk d1 = risk s "Medium" "Low")
       /\ (seasonal_risk d2 = risk s "High" "Medium"
           \/ seasonal_risk d2 = risk s "High" "Low"
           \/ seasonal_risk d2 = risk s "Medium" "Low").
Proof.
  unfold cropAdvice. simpl.
  intros [<- | [<- | [<- | [<- | []]]]]; cbn; unfold push;
    rewrite ?length_app; cbn;
    (split; [lia |]); (split; [reflexivity |]);
    do 2 eexists; rewrite <- ?app_assoc; cbn;
    (split; [reflexivity |]); cbn; tauto.
Qed.

Lemma weatherWarnings_lists fs a :
  resources_needed (weatherWarnings fs a) = resources_needed a
  /\ possible_diseases (weatherWarnings fs a) = possible_diseases a
  /\ actions (weatherWarnings fs a) = actions a.
Proof.
  unfold weatherWarnings. destruct (WeatherUtils.warnings fs);
    repeat split.
Qed.

Lemma risk_values (s a b : string) :
  (s = "longRains" -> risk s a b = a)
  /\ (s <> "longRains" -> risk s a b = b).
Proof.
  unfold risk. destruct (String.eqb_spec s "longRains"); split;
    intros H; congruence.
Qed.

(** The advice of the rule table for one of the four crops in one of the
    four seasons names two diseases, rated High or Medium in the long
    rains and Medium or Low otherwise, and four resources (two of the
    season, two of the crop) plus one for each of the three weather
    checks that fires: no rain, heavy rain, wind at 20 km/h or more. *)
Theorem advisor_resources_and_diseases (cropType s : string)
    (fs : ForecastSummary) (ad : AdditionalData) (advice : Advice) :
  In (toLowerCase cropType) fourCrops -> In s fourSeasons ->
  generateBasicSeasonalAdvice cropType s fs ad = Ok advice ->
  List.length (resources_needed advice) = (4 + weatherTriggers fs)%nat
  /\ List.length (possible_diseases advice) = 2%nat
  /\ (forall d, In d (possible_diseases advice) ->
                (s = "longRains" ->
                 seasonal_risk d = "High" \/ seasonal_risk d = "Medium")
                /\ (s <> "longRains" ->
                    seasonal_risk d = "Medium" \/ seasonal_risk d = "Low")).
Proof.
  intros Hc Hs. unfold generateBasicSeasonalAdvice.
  destruct (getCropInfo cropType) as [info |]; [| discriminate].
  unfold JS.bind at 1.
  match goal with
  | |- context [soilPhAdvice cropType (soilPh ad) ?a] => set (a0 := a)
  end.
  destruct (soilPhAdvice cropType (soilPh ad) a0) as [a1 |] eqn:E1;
    [| discriminate].
  unfold JS.bind at 1.
  destruct (growthStateAdvice (growthState ad) a1) as [a2 |] eqn:E2;
    [| discriminate].
  unfold JS.bind at 1.
  intros E. inversion E; subst advice; clear E.
  destruct (soilPhAdvice_lists _ _ _ _ E1) as [R1 D1].
  destruct (growthStateAdvice_lists _ _ _ E2) as [R2 D2].
  destruct (varietyAdvice_lists info (variety ad) fs a2) as [R3 D3].
  set (a3 := varietyAdvice info (variety ad) fs a2) in *.
  destruct (seasonAdvice_lists s a3 Hs) as [R4 D4].
  set (a4 := seasonAdvice s a3) in *.
  destruct (weatherAdvice_lists fs a4) as (R5 & D5 & _).
  set (a5 := weatherAdvice fs a4) in *.
  destruct (cropAdvice_lists cropType s a5 Hc)
    as (R6 & _ & d1 & d2 & D6 & K1 & K2).
  set (a6 := cropAdvice cropType s a5) in *.
  destruct (weatherWarnings_lists fs a6) as (R7 & D7 & _).
  rewrite R7, D7, R6, D6, R5, D5, R4, D4, R3, D3, R2, D2, R1, D1.
  subst a0. cbn [resources_needed possible_diseases List.length app].
  split; [lia |]. split; [reflexivity |].
  intros d [<- | [<- | []]]; split; intros L;
    [ destruct K1 as [K | [K | K]] | destruct K1 as [K | [K | K]]
    | destruct K2 as [K | [K | K]] | destruct K2 as [K | [K | K]] ];
    rewrite K;
    first [ rewrite (proj1 (risk_values s _ _) L)
          | rewrite (proj2 (risk_values s _ _) L) ]; tauto.
Qed.

Lemma advisor_resources_and_diseases_witness :
  exists advice,
    generateBasicSeasonalAdvice "Beans" "shortRains" hotAndDry
      noAdditionalData = Ok advice
    /\ List.length (resources_needed advice) = 6%nat
    /\ List.length (possible_diseases advice) = 2%nat.
Proof.
  destruct (generateBasicSeasonalAdvice "Beans" "shortRains" hotAndDry
              noAdditionalData) as [advice |] eqn:E;
    [| vm_compute in E; discriminate E].
  exists advice. split; [reflexivity |].
  destruct (advisor_resources_and_diseases "Beans" "shortRains" hotAndDry
              noAdditionalData advice) as (R & D & _).
  - simpl. tauto.
  - simpl. tauto.
  - exact E.
  - split; [exact R | exact D].
Defined.

End AdvisorLists.

Section AdvisorWarningList.

Import WeatherUtils CropUtils.

Lemma soilPhAdvice_own cropType ph a b :
  soilPhAdvice cropType ph a = Ok b ->
  exists own,
    warnings b = (warnings a ++ own)%list
    /\ quiet own /\ (List.length own <= 1)%nat
    /\ (ph = None -> own = []).
Proof.
  destruct ph as [ph |].
  2: { intros E; inversion E; subst b. exists []. rewrite app_nil_r.
       repeat split; [constructor | simpl; lia]. }
  unfold soilPhAdvice.
  generalize (getSoilPhCategory (Some ph)). intros category.
  unfold isSoilPhSuitableForCrop.
  destruct (getCropSoilPh cropType) as [range |]; [| discriminate].
  unfold JS.bind.
  destruct (Qgeb ph (Config.min range) && Qleb ph (Config.max range))%bool;
    [| destruct (Qltb ph (Config.min range))];
    destruct category; intros E; inversion E; subst b; cbn;
    first [ exists []; rewrite app_nil_r;
            split; [reflexivity |]; split; [constructor |];
            split; [simpl; lia | intros K; discriminate K]
          | eexists; split; [reflexivity |];
            split; [constructor; [reflexivity | constructor] |];
            split; [simpl; lia | intros K; discriminate K] ].
Qed.

Lemma varietyAdvice_own info v fs a :
  exists own,
    warnings (varietyAdvice info v fs a) = (warnings a ++ own)%list
    /\ quiet own /\ (List.length own <= 1)%nat
    /\ (v = None -> own = [])
    /\ (~ totalRainfall fs == 0 -> own = []).
Proof.
  unfold varietyAdvice.
  destruct (truthy_prop (lookupVariety info v)) eqn:T.
  - destruct (isLow (lookupVariety info v)) eqn:L;
      destruct (Qeqb (totalRainfall fs) 0) eqn:R; cbn;
      try (exists []; rewrite app_nil_r;
           split; [reflexivity |]; split; [constructor |];
           split; [simpl; lia |]; split; reflexivity).
    eexists. split; [reflexivity |].
    split; [constructor; [reflexivity | constructor] |].
    split; [simpl; lia |]. split.
    + intros ->. destruct info as [c | |]; simpl in T;
        try destruct (Config.varieties c); discriminate T.
    + intros Z. exfalso. apply Z. apply Qeq_bool_iff. exact R.
  - exists []. rewrite app_nil_r.
    split; [reflexivity |]. split; [constructor |].
    split; [simpl; lia |]. split; reflexivity.
Qed.

Lemma generateBasicSeasonalAdvice_own (cropType s : string)
    (fs : ForecastSummary) (ad : AdditionalData) (advice : Advice) :
  generateBasicSeasonalAdvice cropType s fs ad = Ok advice ->
  exists own,
    warnings advice
    = (own ++ match WeatherUtils.warnings fs with
              | Some ws => ws
              | None => []
              end)%list
    /\ quiet own
    /\ (List.length own <= 2)%nat
    /\ (soilPh ad = None -> variety ad = None -> own = [])
    /\ (~ totalRainfall fs == 0 -> (List.length own <= 1)%nat).
Proof.
  unfold generateBasicSeasonalAdvice.
  destruct (getCropInfo cropType) as [info |]; [| discriminate].
  unfold JS.bind at 1.
  match goal with
  | |- context [soilPhAdvice cropType (soilPh ad) ?a] => set (a0 := a)
  end.
  destruct (soilPhAdvice cropType (soilPh ad) a0) as [a1 |] eqn:E1;
    [| discriminate].
  unfold JS.bind at 1.
  destruct (growthStateAdvice (growthState ad) a1) as [a2 |] eqn:E2;
    [| discriminate].
  unfold JS.bind at 1.
  intros E. inversion E; subst advice; clear E.
  destruct (soilPhAdvice_own _ _ _ _ E1) as (o1 & W1 & Q1 & L1 & N1).
  assert (W2 := growthStateAdvice_warnings _ _ _ E2).
  destruct (varietyAdvice_own info (variety ad) fs a2)
    as (o3 & W3 & Q3 & L3 & N3 & Z3).
  exists (o1 ++ o3)%list.
  split.
  { unfold weatherWarnings.
    destruct (WeatherUtils.warnings fs) as [ws |];
      cbn [warnings set_warnings];
      rewrite cropAdvice_warnings, weatherAdvice_warnings,
        seasonAdvice_warnings, W3, W2, W1; subst a0; cbn [warnings app];
      rewrite ?app_nil_r; reflexivity. }
  split; [apply Forall_app; split; assumption |].
  split; [rewrite length_app; lia |].
  split.
  - intros Hp Hv. rewrite (N1 Hp), (N3 Hv). reflexivity.
  - intros Z. rewrite (Z3 Z), app_nil_r. exact L1.
Qed.

(** The warnings of the rule table's advice: at most two of its own, one
    about the soil pH and one about a variety of low drought resistance
    in a forecast without rain, neither of them a weather warning, and
    after them the warnings of the forecast summary as they are. *)
Theorem advisor_warnings (cropType s : string) (fs : ForecastSummary)
    (ad : AdditionalData) (advice : Advice) :
  generateBasicSeasonalAdvice cropType s fs ad = Ok advice ->
  exists own,
    warnings advice
    = (own ++ match WeatherUtils.warnings fs with
              | Some ws => ws
              | None => []
              end)%list
    /\ quiet own
    /\ (List.length own <= 2)%nat
    /\ (soilPh ad = None -> variety ad = None -> own = [])
    /\ (~ totalRainfall fs == 0 -> (List.length own <= 1)%nat).
Proof.
  apply generateBasicSeasonalAdvice_own.
Qed.

Lemma advisor_warnings_witness :
  exists advice,
    generateBasicSeasonalAdvice "maize" "longDry" hotAndDry
      {| soilPh := Some 8; growthState := None;
         variety := Some "sweet_corn" |} = Ok advice
    /\ List.length (warnings advice) = 2%nat.
Proof.
  destruct (generateBasicSeasonalAdvice "maize" "longDry" hotAndDry
              {| soilPh := Some 8; growthState := None;
                 variety := Some "sweet_corn" |}) as [advice |] eqn:E;
    [| vm_compute in E; discriminate E].
  exists advice. split; [reflexivity |].
  destruct (advisor_warnings "maize" "longDry" hotAndDry _ advice E)
    as (own & W & _).
  vm_compute in E. inversion E; subst advice. reflexivity.
Defined.

End AdvisorWarningList.

Section BasicAdvice.

Import WeatherUtils CropUtils AdviceService.

Lemma cropAdvice_actions (c s : string) (a : CropUtils.Advice) :
  actions (cropAdvice c s a) = actions a.
Proof.
  unfold cropAdvice.
  destruct (toLowerCase c =? "maize"); [reflexivity |].
  destruct (toLowerCase c =? "beans"); [reflexivity |].
  destruct (toLowerCase c =? "potatoes"); [reflexivity |].
  destruct (toLowerCase c =? "bananas"); reflexivity.
Qed.

(** [getBasicAdvice] needs no service: for a crop of the table it is the
    advice of the rule table on a fixed dry forecast (irrigation is
    always scheduled, no weather warning is given), it depends on the
    world through the month only, and an unknown crop is refused.  The
    additional data are not validated here: a growth stage that is not
    one of the four, in lower case, makes the call fail. *)
Theorem basic_advice_without_services (w : World) (cropType : string)
    (ad : AdditionalData) :
  (validateCropType cropType = false ->
   getBasicAdvice w cropType ad
   = Throw (Error ("Unsupported crop type: " ++ cropType)))
  /\ (validateCropType cropType = true ->
      (forall g, growthState ad = Some g -> In g Config.stages) ->
      exists advice,
        getBasicAdvice w cropType ad = Ok advice
        /\ CropUtils.season advice
           = WeatherUtils.season (detectCurrentSeason w)
        /\ crop advice = cropType
        /\ forecast_summary advice
           = "Weather forecast for next 48 hours: 0mm rainfall, 15°C to 25°C, wind up to 10 km/h"
        /\ In "Schedule irrigation for water-dependent crops"
              (actions advice)
        /\ quiet (CropUtils.warnings advice))
  /\ (forall w', month w' = month w ->
                 getBasicAdvice w' cropType ad = getBasicAdvice w cropType ad)
  /\ (forall g,
        validateCropType cropType = true ->
        growthState ad = Some g -> g <> EmptyString ->
        ~ In g Config.stages -> ~ In g objectPrototypeKeys ->
        getBasicAdvice w cropType ad
        = Throw (Error ("Invalid growth state: " ++ g))).
Proof.
  split; [| split; [| split]].
  - intros H. unfold getBasicAdvice. rewrite H. reflexivity.
  - intros Hv Hg. unfold getBasicAdvice. rewrite Hv. simpl negb. cbv iota.
    destruct (validateCropType_getCropInfo _ Hv) as (info & Hinfo).
    destruct (generateBasicSeasonalAdvice_ok cropType info
                (WeatherUtils.season (detectCurrentSeason w))
                basicForecast ad Hinfo (detectCurrentSeason_four w) Hg)
      as (advice & E & _ & F & S & C & _).
    exists advice. split; [exact E |]. split; [exact S |].
    split; [exact C |]. split; [rewrite F; reflexivity |].
    assert (Q : quiet (CropUtils.warnings advice)).
    { destruct (generateBasicSeasonalAdvice_own cropType
                  (WeatherUtils.season (detectCurrentSeason w))
                  basicForecast ad advice E) as (own & W & Q & _).
      rewrite W. cbn [WeatherUtils.warnings basicForecast].
      rewrite app_nil_r. exact Q. }
    split; [| exact Q].
    revert E. unfold generateBasicSeasonalAdvice. rewrite Hinfo.
    unfold JS.bind at 1.
    destruct (soilPhAdvice cropType (soilPh ad) _) as [a1 |];
      [| discriminate].
    unfold JS.bind at 1.
    destruct (growthStateAdvice (growthState ad) a1) as [a2 |];
      [| discriminate].
    unfold JS.bind at 1. intros E. inversion E; clear E.
    destruct (weatherWarnings_lists basicForecast
                (cropAdvice cropType
                   (WeatherUtils.season (detectCurrentSeason w))
                   (weatherAdvice basicForecast
                      (seasonAdvice
                         (WeatherUtils.season (detectCurrentSeason w))
                         (varietyAdvice info (variety ad) basicForecast
                            a2))))) as (_ & _ & A7).
    rewrite A7.
    rewrite cropAdvice_actions.
    destruct (weatherAdvice_lists basicForecast
                (seasonAdvice
                   (WeatherUtils.season (detectCurrentSeason w))
                   (varietyAdvice info (variety ad) basicForecast a2)))
      as (_ & _ & A5).
    apply A5. reflexivity.
  - intros w' Hm. unfold getBasicAdvice, detectCurrentSeason.
    rewrite Hm. reflexivity.
  - intros g Hv Hg Hne Hst Hpk. unfold getBasicAdvice. rewrite Hv.
    simpl negb. cbv iota.
    destruct (validateCropType_getCropInfo _ Hv) as (info & Hinfo).
    unfold generateBasicSeasonalAdvice. rewrite Hinfo.
    unfold JS.bind at 1.
    match goal with
    | |- context [soilPhAdvice cropType (soilPh ad) ?a] => set (a0 := a)
    end.
    destruct (soilPhAdvice_ok cropType info (soilPh ad) a0 Hinfo)
      as (a1 & E1 & _).
    rewrite E1. unfold JS.bind at 1.
    unfold growthStateAdvice. rewrite Hg.
    assert (T : truthy_str g = true) by (destruct g; [congruence | reflexivity]).
    unfold truthy_ostr. rewrite T.
    unfold getGrowthStateInfo, truthy_ostr. rewrite T. simpl negb.
    cbv iota.
    assert (G : JS.get Config.growthStates g = Undefined).
    { unfold JS.get.
      destruct (JS.assoc g Config.growthStates) eqn:A.
      - exfalso. apply Hst. revert A. cbn -[String.eqb].
        destruct (String.eqb_spec "germination" g); [tauto |].
        destruct (String.eqb_spec "vegetative" g); [tauto |].
        destruct (String.eqb_spec "flowering" g); [tauto |].
        destruct (String.eqb_spec "fruiting" g); [tauto | discriminate].
      - destruct (includes objectPrototypeKeys g) eqn:I; [| reflexivity].
        exfalso. apply Hpk. apply includes_In. exact I. }
    rewrite G. reflexivity.
Qed.

Lemma basic_advice_without_services_witness :
  getBasicAdvice offlineWorld "rice" noAdditionalData
  = Throw (Error "Unsupported crop type: rice")
  /\ getBasicAdvice offlineWorld "beans"
       {| soilPh := None; growthState := Some "Flowering";
          variety := None |}
     = Throw (Error "Invalid growth state: Flowering").
Proof.
  split.
  - apply (basic_advice_without_services offlineWorld "rice"
             noAdditionalData). reflexivity.
  - destruct (basic_advice_without_services offlineWorld "beans"
                {| soilPh := None; growthState := Some "Flowering";
                   variety := None |}) as (_ & _ & _ & H).
    apply (H "Flowering"); try reflexivity.
    + discriminate.
    + simpl. intros [K | [K | [K | [K | []]]]]; discriminate K.
    + simpl. intuition discriminate.
Defined.

End BasicAdvice.

Section InheritedNames.

Import WeatherUtils CropUtils.

Lemma seasonAdvice_diseases (s : string) (a : Advice) :
  possible_diseases (seasonAdvice s a) = possible_diseases a.
Proof.
  unfold seasonAdvice.
  destruct (s =? "shortDry"); [reflexivity |].
  destruct (s =? "longRains"); [reflexivity |].
  destruct (s =? "longDry"); [reflexivity |].
  destruct (s =? "shortRains"); reflexivity.
Qed.

Lemma inherited_is_no_crop (k : string) :
  In k objectPrototypeKeys ->
  JS.get Config.crops k = Inherited
  /\ (k =? "maize") = false /\ (k =? "beans") = false
  /\ (k =? "potatoes") = false /\ (k =? "bananas") = false.
Proof.
  simpl.
  intros [<- | [<- | [<- | [<- | [<- | [<- | [<- | [<- | [<- | [<- | [<- |
          [<- | []]]]]]]]]]]]]; repeat split.
Qed.

(** The crop check is a property lookup on the crop table, and an object
    has inherited properties: a name whose lower-case form is a property
    of [Object.prototype] passes [validateCropType] and is found by
    [getCropInfo], with none of the fields of a crop.  Such a crop has
    the default pH range, no variety, no water need, suits no season,
    and the advice of the rule table for it names no disease. *)
Theorem inherited_names_pass_the_crop_check (c s : string)
    (fs : ForecastSummary) (ad : AdditionalData) :
  In (toLowerCase c) objectPrototypeKeys ->
  validateCropType c = true
  /\ getCropInfo c = Ok Inherited
  /\ getCropSoilPh c
     = Ok {| Config.min := 6; Config.max := 7; Config.optimal := 65 # 10 |}
  /\ getCropVarieties c = Ok []
  /\ getCropWaterRequirement c = Ok None
  /\ isCropSuitableForSeason c s = Ok false
  /\ forall advice,
       generateBasicSeasonalAdvice c s fs ad = Ok advice ->
       crop advice = c
       /\ possible_diseases advice = []
       /\ variety_specific_tips advice = EmptyString.
Proof.
  intros Hin.
  destruct (inherited_is_no_crop _ Hin) as (G & M & B & P & N).
  assert (Hinfo : getCropInfo c = Ok Inherited).
  { unfold getCropInfo. rewrite G. reflexivity. }
  split.
  { unfold validateCropType. rewrite G.
    destruct c; [simpl in Hin; intuition discriminate | reflexivity]. }
  split; [exact Hinfo |].
  unfold getCropSoilPh, getCropVarieties, getCropWaterRequirement,
    isCropSuitableForSeason.
  rewrite Hinfo. unfold JS.bind. cbn [cropField].
  repeat (split; [reflexivity |]).
  intros advice. unfold generateBasicSeasonalAdvice. rewrite Hinfo.
  unfold JS.bind at 1.
  match goal with
  | |- context [soilPhAdvice c (soilPh ad) ?a] => set (a0 := a)
  end.
  destruct (soilPhAdvice_ok c Inherited (soilPh ad) a0 Hinfo)
    as (a1 & E1 & (_ & _ & C1 & _) & _ & V1 & _).
  rewrite E1. unfold JS.bind at 1.
  destruct (growthStateAdvice (growthState ad) a1) as [a2 |] eqn:E2;
    [| discriminate].
  unfold JS.bind at 1. intros E. inversion E; subst advice; clear E.
  assert (V : varietyAdvice Inherited (variety ad) fs a2 = a2).
  { unfold varietyAdvice, lookupVariety. cbn [cropField].
    destruct (variety ad); reflexivity. }
  rewrite V.
  assert (K : cropAdvice c s (weatherAdvice fs (seasonAdvice s a2))
              = weatherAdvice fs (seasonAdvice s a2)).
  { unfold cropAdvice. rewrite M, B, P, N. reflexivity. }
  rewrite K.
  destruct (weatherWarnings_grows fs (weatherAdvice fs (seasonAdvice s a2)))
    as ((_ & _ & C7 & _) & N7).
  destruct (weatherAdvice_grows fs (seasonAdvice s a2))
    as ((_ & _ & C5 & _) & N5).
  assert (C4 : crop (seasonAdvice s a2) = crop a2).
  { unfold seasonAdvice.
    destruct (s =? "shortDry"); [reflexivity |].
    destruct (s =? "longRains"); [reflexivity |].
    destruct (s =? "longDry"); [reflexivity |].
    destruct (s =? "shortRains"); reflexivity. }
  assert (N4 : variety_specific_tips (seasonAdvice s a2)
               = variety_specific_tips a2).
  { unfold seasonAdvice.
    destruct (s =? "shortDry"); [reflexivity |].
    destruct (s =? "longRains"); [reflexivity |].
    destruct (s =? "longDry"); [reflexivity |].
    destruct (s =? "shortRains"); reflexivity. }
  assert (H2 : crop a2 = crop a1
               /\ variety_specific_tips a2 = variety_specific_tips a1
               /\ possible_diseases a2 = possible_diseases a1).
  { revert E2. unfold growthStateAdvice.
    destruct (truthy_ostr (growthState ad));
      [| intros E; inversion E; repeat split].
    destruct (getGrowthStateInfo (growthState ad)) as [[info |] |];
      unfold JS.bind; intros E; inversion E; [| repeat split].
    unfold seq. cbn [fold_left]. unfold growthStateActions.
    destruct (state info =? "germination"); [repeat split |].
    destruct (state info =? "vegetative"); [repeat split |].
    destruct (state info =? "flowering"); [repeat split |].
    destruct (state info =? "fruiting"); repeat split. }
  destruct H2 as (C2 & V2 & D2).
  assert (D1 : possible_diseases a1 = possible_diseases a0).
  { revert E1. destruct (soilPh ad) as [ph |];
      [| intros E; inversion E; reflexivity].
    unfold soilPhAdvice.
    generalize (getSoilPhCategory (Some ph)). intros category.
    unfold isSoilPhSuitableForCrop.
    destruct (getCropSoilPh c) as [range |]; [| discriminate].
    unfold JS.bind.
    destruct (Qgeb ph (Config.min range) && Qleb ph (Config.max range))%bool;
      [| destruct (Qltb ph (Config.min range))];
      destruct category; intros E; inversion E; reflexivity. }
  split; [rewrite C7, C5, C4, C2, C1; reflexivity |].
  split.
  - unfold weatherWarnings.
    assert (D5 : possible_diseases (weatherAdvice fs (seasonAdvice s a2))
                 = possible_diseases (seasonAdvice s a2)).
    { unfold weatherAdvice.
      destruct (Qeqb (totalRainfall fs) 0);
        destruct (Nat.ltb 0 (heavyRainHours fs));
        destruct (Qgeb (maxWindSpeed fs)
                       Config.weatherThresholds.windSpeed.warning);
        reflexivity. }
    destruct (WeatherUtils.warnings fs); cbn [possible_diseases set_warnings];
      rewrite D5, seasonAdvice_diseases, D2, D1; reflexivity.
  - unfold narratives in N7, N5. inversion N7 as [[P7 G7 T7]].
    inversion N5 as [[P5 G5 T5]].
    rewrite T7, T5, N4, V2, V1. reflexivity.
Qed.

Lemma inherited_names_pass_the_crop_check_witness :
  validateCropType "Constructor" = true
  /\ getCropInfo "Constructor" = Ok Inherited.
Proof.
  destruct (inherited_names_pass_the_crop_check "Constructor" "longDry" calm
              noAdditionalData) as (V & I & _).
  - simpl. tauto.
  - split; [exact V | exact I].
Defined.

End InheritedNames.
